(** * SEDB: the school equipment booking backend and its service wrapper

    A shallow embedding of the Apps Script backend that the repository ships
    as [codeString] (configuration, the one-time set-up of the database,
    helpers, the API endpoint functions and the locked CRUD helpers), of the
    front end's [GoogleSheetService] URL lookup and of the connection setup
    page's [handleSaveUrl], followed by the properties of the specification
    that concern them.

    Modelling conventions.
    - A JavaScript value is a [value].  Numbers are the doubles of the
      language, with their rounding, their reading from text
      ([Number.of_string]) and their text ([Number.to_string]); the two
      zeros are one, which the code cannot tell apart.  A [Date] is its time
      value in milliseconds since the epoch, kept with the text the engine
      shows it as.  An object of the program is a finite map from its own
      property names to values; a value of JSON keeps its arrays and objects.
    - Texts are UTF-8.
    - A sheet is its header row and its data rows; a cell holds a [value] and
      a written cell is kept as the code passed it to the spreadsheet (the
      spreadsheet's own reading of typed text, which turns the text of a
      date into a date cell, is not part of the code and is not modelled:
      the sample sheets hold date cells where the spreadsheet would).
    - The platform is the script properties, the files of the Drive, the
      spreadsheets, the script lock and the spreadsheet the execution has
      opened; [getDB()] runs the one-time set-up where the code does.
    - A time zone gives its offset from UTC at each instant; Asia/Bangkok
      is on UTC+7 since 1 April 1920 and on Bangkok mean time before.
    - Every endpoint runs in one script execution: it reads the clock, the
      script time zone, the UUID generator and the engine's reading of date
      texts through an [env] and threads the [state].  Within one execution
      [waitLock] gets the lock. *)

From stdpp Require Import gmap strings list.
From Stdlib Require Import ZArith Ascii Lia.

Open Scope string_scope.
Open Scope list_scope.
Open Scope Z_scope.

(** ** Text helpers: decimal numerals, trimming, splitting *)

Module Text.

Definition digit_char (d : Z) : ascii := ascii_of_N (Z.to_N (48 + d mod 10)).

Fixpoint dec_digits (fuel : nat) (n : Z) (acc : string) : string :=
  match fuel with
  | O => acc
  | S f =>
      let acc' := String (digit_char n) acc in
      if n / 10 =? 0 then acc' else dec_digits f (n / 10) acc'
  end.

(** Decimal numeral of a natural number (given as a non-negative [Z]). *)
Definition of_nat_Z (n : Z) : string :=
  dec_digits (S (Z.to_nat (Z.log2 n))) n "".

Definition of_Z (z : Z) : string :=
  if z <? 0 then "-" +:+ of_nat_Z (- z) else of_nat_Z z.

Fixpoint zeros (k : nat) : string :=
  match k with O => "" | S k' => String "0" (zeros k') end.

(** [pad w n]: the numeral of [n] left-padded with zeros to width [w]. *)
Definition pad (w : nat) (n : Z) : string :=
  let s := of_nat_Z n in zeros (w - String.length s) +:+ s.

Definition digit_val (c : ascii) : option Z :=
  let n := Z.of_N (N_of_ascii c) in
  if (48 <=? n) && (n <=? 57) then Some (n - 48) else None.

Fixpoint digits_val (s : string) (acc : Z) : option Z :=
  match s with
  | EmptyString => Some acc
  | String c s' =>
      match digit_val c with
      | Some d => digits_val s' (10 * acc + d)
      | None => None
      end
  end.

(** A non-empty run of decimal digits, read as a number. *)
Definition nat_literal (s : string) : option Z :=
  match s with
  | EmptyString => None
  | _ => digits_val s 0
  end.

(** White space as [String.prototype.trim], the regular expression [\s]
    and the reading of a numeral see it: the tab, the line feed, the
    vertical tab, the form feed, the carriage return and the space, and, in
    UTF-8, U+00A0, U+1680, U+2000 to U+200A, U+2028, U+2029, U+202F, U+205F,
    U+3000 and U+FEFF.  [space_prefix s] is [s] without the white space
    character it begins with, if it begins with one. *)
Definition is_space (c : ascii) : bool :=
  let n := N_of_ascii c in
  ((n =? 32) || (n =? 9) || (n =? 10) || (n =? 13) || (n =? 11) || (n =? 12))%N.

Definition space_prefix (s : string) : option string :=
  match s with
  | String c s1 =>
      if is_space c then Some s1
      else
        let n1 := N_of_ascii c in
        match s1 with
        | String c2 s2 =>
            let n2 := N_of_ascii c2 in
            if ((n1 =? 194) && (n2 =? 160))%N then Some s2
            else
              match s2 with
              | String c3 s3 =>
                  let n3 := N_of_ascii c3 in
                  if ((n1 =? 225) && (n2 =? 154) && (n3 =? 128))
                     || ((n1 =? 226) && (n2 =? 128)
                         && (((128 <=? n3) && (n3 <=? 138)) || (n3 =? 168)
                             || (n3 =? 169) || (n3 =? 175)))
                     || ((n1 =? 226) && (n2 =? 129) && (n3 =? 159))
                     || ((n1 =? 227) && (n2 =? 128) && (n3 =? 128))
                     || ((n1 =? 239) && (n2 =? 187) && (n3 =? 191))
                  then Some s3 else None
              | EmptyString => None
              end%N
        | EmptyString => None
        end
  | EmptyString => None
  end.

Fixpoint trim_left_fuel (fuel : nat) (s : string) : string :=
  match fuel with
  | O => s
  | S f =>
      match space_prefix s with
      | Some r => trim_left_fuel f r
      | None => s
      end
  end.

Definition trim_left (s : string) : string := trim_left_fuel (String.length s) s.

(** Whether [s] is white space only. *)
Definition blank (s : string) : bool :=
  match trim_left s with EmptyString => true | _ => false end.

Fixpoint trim_right (s : string) : string :=
  match s with
  | EmptyString => EmptyString
  | String c s1 => if blank s then EmptyString else String c (trim_right s1)
  end.

Fixpoint rev_string (s acc : string) : string :=
  match s with
  | EmptyString => acc
  | String c s' => rev_string s' (String c acc)
  end.

Definition trim (s : string) : string := trim_right (trim_left s).

(** [s.replace(/\s+/g, ' ')]: every run of white space becomes one space. *)
Fixpoint collapse_fuel (fuel : nat) (in_run : bool) (s : string) : string :=
  match fuel with
  | O => s
  | S f =>
      match space_prefix s with
      | Some r =>
          if in_run then collapse_fuel f true r
          else String " " (collapse_fuel f true r)
      | None =>
          match s with
          | EmptyString => EmptyString
          | String c r => String c (collapse_fuel f false r)
          end
      end
  end.

Definition collapse_spaces (s : string) : string :=
  collapse_fuel (String.length s) false s.

(** [split_on sep s]: the pieces of [s] between occurrences of [sep]
    (always at least one piece), as [String.prototype.split]. *)
Fixpoint split_on (sep : ascii) (s : string) (cur : string) : list string :=
  match s with
  | EmptyString => [rev_string cur ""]
  | String c s' =>
      if Ascii.eqb c sep then rev_string cur "" :: split_on sep s' ""
      else split_on sep s' (String c cur)
  end.

Definition nonempty (s : string) : bool :=
  match s with EmptyString => false | _ => true end.

Fixpoint join (sep : string) (l : list string) : string :=
  match l with
  | [] => ""
  | [x] => x
  | x :: l' => x +:+ sep +:+ join sep l'
  end.

Fixpoint starts_with (p s : string) : bool :=
  match p, s with
  | EmptyString, _ => true
  | String a p', String b s' => Ascii.eqb a b && starts_with p' s'
  | String _ _, EmptyString => false
  end.

End Text.


(** ** Numbers

    A Number of the language is a double.  [Fin m e] is the double
    m * 2^e, written with [m] odd (zero is [Fin 0 0]); the two zeros are not
    told apart, which nothing in this program can do. *)

Module Number.

Inductive number : Type :=
  | NaN
  | Inf (negative : bool)
  | Fin (m e : Z).

#[global] Instance number_eq_dec : EqDecision number.
Proof. solve_decision. Defined.

Fixpoint strip (p : positive) (e : Z) : positive * Z :=
  match p with
  | xO p' => strip p' (e + 1)
  | _ => (p, e)
  end.

(** m * 2^e in its written form. *)
Definition make (m e : Z) : number :=
  match m with
  | Z0 => Fin 0 0
  | Zpos p => let '(q, e') := strip p e in Fin (Zpos q) e'
  | Zneg p => let '(q, e') := strip p e in Fin (Zneg q) e'
  end.

Definition zero : number := Fin 0 0.

(** 2^k and 10^k for a [k] that is not negative. *)
Definition pow2 (k : Z) : Z := Z.shiftl 1 k.

Fixpoint pow_pos (x : Z) (p : positive) : Z :=
  match p with
  | xH => x
  | xO p' => let y := pow_pos x p' in y * y
  | xI p' => let y := pow_pos x p' in x * (y * y)
  end.

Definition pow10 (k : Z) : Z :=
  match k with
  | Zpos p => Z.shiftl (pow_pos 5 p) k
  | _ => 1
  end.

(** The floor of the binary logarithm of a / b, for positive [a] and [b]. *)
Definition log2_ratio (a b : Z) : Z :=
  let d := Z.log2 a - Z.log2 b in
  let reached := if 0 <=? d then b * pow2 d <=? a else b <=? a * pow2 (- d) in
  if reached then d else d - 1.

(** The integer nearest to num / den, the even one of two. *)
Definition round_half_even (num den : Z) : Z :=
  let q := num / den in
  let r := num mod den in
  if 2 * r <? den then q
  else if den <? 2 * r then q + 1
  else if Z.even q then q else q + 1.

(** The double nearest to a / b, for positive [a] and [b] (round to
    nearest, ties to even; 53 bits, exponents from -1022 to 1023, below
    them the subnormal numbers, above them infinity). *)
Definition nearest (a b : Z) : number :=
  let E := Z.max (log2_ratio a b) (-1022) in
  let u := E - 52 in
  let N := if 0 <=? u then round_half_even a (b * pow2 u)
           else round_half_even (a * pow2 (- u)) b in
  if (1024 <=? E) || ((E =? 1023) && (N =? pow2 53)) then Inf false
  else make N u.

Definition negate (x : number) : number :=
  match x with
  | NaN => NaN
  | Inf s => Inf (negb s)
  | Fin m e => Fin (- m) e
  end.

(** The Number for the real m * 10^k. *)
Definition of_decimal (m k : Z) : number :=
  match m with
  | Z0 => zero
  | _ =>
      let a := Z.abs m in
      let x :=
        if 400 <? k then Inf false
        else if k + Z.log2 a / 3 + 1 <? -400 then zero
        else if 0 <=? k then nearest (a * pow10 k) 1
        else nearest a (pow10 (- k)) in
      if m <? 0 then negate x else x
  end.

(** The Number for an integer. *)
Definition of_Z (n : Z) : number := of_decimal n 0.

Definition eqb (x y : number) : bool :=
  match x, y with
  | NaN, _ | _, NaN => false
  | _, _ => bool_decide (x = y)
  end.

Definition is_zero (x : number) : bool := bool_decide (x = zero).

(** The integer a Number is, when it is one. *)
Definition to_Z (x : number) : option Z :=
  match x with
  | Fin m e => if 0 <=? e then Some (m * pow2 e) else None
  | _ => None
  end.

(** x < y on finite numbers. *)
Definition fin_ltb (m1 e1 m2 e2 : Z) : bool :=
  let e := Z.min e1 e2 in
  m1 * pow2 (e1 - e) <? m2 * pow2 (e2 - e).

(** [x < y]; false when either is NaN. *)
Definition ltb (x y : number) : bool :=
  match x, y with
  | NaN, _ | _, NaN => false
  | Inf s1, Inf s2 => s1 && negb s2
  | Inf s, Fin _ _ => s
  | Fin _ _, Inf s => negb s
  | Fin m1 e1, Fin m2 e2 => fin_ltb m1 e1 m2 e2
  end.

(** *** Number::toString *)

(** Whether 10^n <= a / b. *)
Definition reaches (a b n : Z) : bool :=
  if 0 <=? n then b * pow10 n <=? a else b <=? a * pow10 (- n).

Fixpoint raise (fuel : nat) (a b n : Z) : Z :=
  match fuel with
  | O => n
  | S f => if reaches a b n then raise f a b (n + 1) else n
  end.

(** The [n] with 10^(n-1) <= a / b < 10^n. *)
Definition magnitude (a b : Z) : Z :=
  raise 4 a b (log2_ratio a b * 1233 / 4096 - 1).

(** The numeral of [k] digits nearest to a / b = x that reads as [x], with
    its [n]: the digits [s] stand for s * 10^(n-k). *)
Definition digits_of_length (x : number) (a b n k : Z) : option (Z * Z) :=
  let p := n - k in
  let num := if 0 <=? p then a else a * pow10 (- p) in
  let den := if 0 <=? p then b * pow10 p else b in
  let lo := num / den in
  let r := num mod den in
  let hi := lo + 1 in
  let lo_ok := bool_decide (of_decimal lo p = x) in
  let hi_ok := bool_decide (of_decimal hi p = x) in
  let hi_out := if hi =? pow10 k then (pow10 (k - 1), n + 1) else (hi, n) in
  if lo_ok && hi_ok then
    if 2 * r <? den then Some (lo, n)
    else if den <? 2 * r then Some hi_out
    else if Z.even lo then Some (lo, n) else Some hi_out
  else if lo_ok then Some (lo, n)
  else if hi_ok then Some hi_out
  else None.

Fixpoint shortest (fuel : nat) (x : number) (a b n k : Z) : Z * Z * Z :=
  match fuel with
  | O => (0, n, k)
  | S f =>
      match digits_of_length x a b n k with
      | Some (s, n') => (s, n', k)
      | None => shortest f x a b n (k + 1)
      end
  end.

Fixpoint zeros (k : nat) : string :=
  match k with O => EmptyString | S k' => String "0" (zeros k') end.

(** The text of a positive finite Number. *)
Definition positive_to_string (x : number) (a b : Z) : string :=
  let '(s, n, k) := shortest 17 x a b (magnitude a b) 1 in
  let digits := Text.of_nat_Z s in
  if (k <=? n) && (n <=? 21) then digits +:+ zeros (Z.to_nat (n - k))
  else if (0 <? n) && (n <=? 21) then
    String.substring 0 (Z.to_nat n) digits +:+ "."
      +:+ String.substring (Z.to_nat n) (Z.to_nat (k - n)) digits
  else if (-6 <? n) && (n <=? 0) then "0." +:+ zeros (Z.to_nat (- n)) +:+ digits
  else
    let e := n - 1 in
    let exponent := (if e <? 0 then "-" else "+") +:+ Text.of_nat_Z (Z.abs e) in
    if k =? 1 then digits +:+ "e" +:+ exponent
    else String.substring 0 1 digits +:+ "."
           +:+ String.substring 1 (Z.to_nat (k - 1)) digits +:+ "e" +:+ exponent.

(** ToString of a Number. *)
Definition to_string (x : number) : string :=
  match x with
  | NaN => "NaN"
  | Inf false => "Infinity"
  | Inf true => "-Infinity"
  | Fin m e =>
      if m =? 0 then "0"
      else
        let a := if 0 <=? e then Z.abs m * pow2 e else Z.abs m in
        let b := if 0 <=? e then 1 else pow2 (- e) in
        let text := positive_to_string (Fin (Z.abs m) e) a b in
        if m <? 0 then "-" +:+ text else text
  end.

(** *** StringToNumber *)

(** The longest prefix of decimal digits and the rest. *)
Fixpoint span_digits (s : string) : string * string :=
  match s with
  | String c s' =>
      match Text.digit_val c with
      | Some _ => let '(d, r) := span_digits s' in (String c d, r)
      | None => (EmptyString, s)
      end
  | EmptyString => (EmptyString, EmptyString)
  end.

Definition digits_value (d : string) : Z :=
  match Text.digits_val d 0 with Some n => n | None => 0 end.

(** The digit a character is in a base up to 16. *)
Definition digit_in (base : Z) (c : ascii) : option Z :=
  let n := Z.of_N (N_of_ascii c) in
  let d := if (48 <=? n) && (n <=? 57) then n - 48
           else if (97 <=? n) && (n <=? 102) then n - 87
           else if (65 <=? n) && (n <=? 70) then n - 55
           else 16 in
  if d <? base then Some d else None.

Fixpoint digits_in (base : Z) (s : string) (acc : Z) : option Z :=
  match s with
  | EmptyString => Some acc
  | String c s' =>
      match digit_in base c with
      | Some d => digits_in base s' (base * acc + d)
      | None => None
      end
  end.

(** A numeral in base 2, 8 or 16, after its prefix: at least one digit. *)
Definition based (base : Z) (s : string) : number :=
  match s with
  | EmptyString => NaN
  | _ => match digits_in base s 0 with Some n => of_Z n | None => NaN end
  end.

(** The exponent part that may end a decimal numeral: nothing, or [e] or
    [E], a sign or none, and at least one digit. *)
Definition exponent_part (s : string) : option Z :=
  match s with
  | EmptyString => Some 0
  | String c r =>
      if Ascii.eqb c "e" || Ascii.eqb c "E" then
        match r with
        | String "-" d => option_map Z.opp (Text.nat_literal d)
        | String "+" d => Text.nat_literal d
        | _ => Text.nat_literal r
        end
      else None
  end.

(** An unsigned decimal numeral: Infinity, or digits with an optional
    fraction and exponent, a digit before or after the point. *)
Definition unsigned_decimal (s : string) : number :=
  if String.eqb s "Infinity" then Inf false
  else
    let '(whole, r) := span_digits s in
    let '(fraction, r, pointed) :=
      match r with
      | String "." r' => let '(f, r'') := span_digits r' in (f, r'', true)
      | _ => (EmptyString, r, false)
      end in
    if Text.nonempty whole || Text.nonempty fraction then
      match exponent_part r with
      | Some x =>
          of_decimal (digits_value (whole +:+ fraction))
            (x - Z.of_nat (String.length fraction))
      | None => NaN
      end
    else NaN.

(** StringToNumber: the Number a text reads as; [NaN] when it is no
    numeral. *)
Definition of_string (s : string) : number :=
  match Text.trim s with
  | EmptyString => zero
  | String "0" (String c r) as t =>
      if Ascii.eqb c "x" || Ascii.eqb c "X" then based 16 r
      else if Ascii.eqb c "o" || Ascii.eqb c "O" then based 8 r
      else if Ascii.eqb c "b" || Ascii.eqb c "B" then based 2 r
      else unsigned_decimal t
  | String "-" r => negate (unsigned_decimal r)
  | String "+" r => unsigned_decimal r
  | t => unsigned_decimal t
  end.

End Number.

(** ** Time values and the calendar

    A time value is a number of milliseconds since 1970-01-01T00:00:00Z.
    A time zone gives the offset of its local time from UTC, in
    milliseconds, at each instant and for each local time. *)

Module Calendar.

Definition msPerDay : Z := 86400000.
Definition msPerMinute : Z := 60000.

(** Days since the epoch of the proleptic Gregorian date [y]-[m]-[d],
    months counted from 1. *)
Definition days_from_civil (y m d : Z) : Z :=
  let y' := if m <=? 2 then y - 1 else y in
  let era := y' / 400 in
  let yoe := y' - era * 400 in
  let mp := if 2 <? m then m - 3 else m + 9 in
  let doy := (153 * mp + 2) / 5 + d - 1 in
  let doe := yoe * 365 + yoe / 4 - yoe / 100 + doy in
  era * 146097 + doe - 719468.

(** The date (year, month from 1, day of month) of a day number. *)
Definition civil_from_days (z : Z) : Z * Z * Z :=
  let z' := z + 719468 in
  let era := z' / 146097 in
  let doe := z' - era * 146097 in
  let yoe := (doe - doe / 1460 + doe / 36524 - doe / 146096) / 365 in
  let doy := doe - (365 * yoe + yoe / 4 - yoe / 100) in
  let mp := (5 * doy + 2) / 153 in
  let d := doy - (153 * mp + 2) / 5 + 1 in
  let m := if mp <? 10 then mp + 3 else mp - 9 in
  let y := yoe + era * 400 in
  (if m <=? 2 then y + 1 else y, m, d).

(** ECMAScript's abstract operations on time values. *)
Definition Day (t : Z) : Z := t / msPerDay.
Definition TimeWithinDay (t : Z) : Z := t mod msPerDay.

(** [MakeDay year month date], the month counted from 0 and allowed to
    overflow into neighbouring years, the date into neighbouring months. *)
Definition MakeDay (year month date : Z) : Z :=
  days_from_civil (year + month / 12) (month mod 12 + 1) 1 + date - 1.

Definition MakeTime (h m s ms : Z) : Z :=
  h * 3600000 + m * msPerMinute + s * 1000 + ms.

Definition MakeDate (day time : Z) : Z := day * msPerDay + time.

(** A time value outside ±8.64e15 ms is not a date (NaN). *)
Definition TimeClip (t : Z) : option Z :=
  if Z.abs t <=? 8640000000000000 then Some t else None.

(** A time zone: the offset at the instant [t], and the offset to read
    the local time [t] with (where clocks were set forward or back, the
    language takes the offset before the change for a local time that was
    skipped and the earlier instant for one that came twice). *)
Record zone : Type := Zone { offsetAt : Z -> Z; offsetOfLocal : Z -> Z }.

(** A zone that keeps one offset, given in minutes. *)
Definition fixed (minutes : Z) : zone :=
  Zone (fun _ => minutes * msPerMinute) (fun _ => minutes * msPerMinute).

(** Asia/Bangkok: Bangkok mean time, 6:42:04 ahead of UTC, until the clocks
    were set forward to UTC+7 on 1 April 1920 at midnight. *)
Definition Asia_Bangkok : zone :=
  Zone (fun t => if t <? -1570084924000 then 24124000 else 25200000)
       (fun t => if t <? -1570059724000 then 24124000 else 25200000).

Definition LocalTime (tz : zone) (t : Z) : Z := t + offsetAt tz t.
Definition UTC (tz : zone) (t : Z) : Z := t - offsetOfLocal tz t.

Definition YearFromTime (t : Z) : Z := (civil_from_days (Day t)).1.1.
Definition MonthFromTime (t : Z) : Z := (civil_from_days (Day t)).1.2 - 1.
Definition DateFromTime (t : Z) : Z := (civil_from_days (Day t)).2.

(** [Date.prototype.getFullYear], [getMonth] (from 0) and [getDate] of a
    valid date in the zone [tz]. *)
Definition getFullYear (tz : zone) (t : Z) : Z := YearFromTime (LocalTime tz t).
Definition getMonth (tz : zone) (t : Z) : Z := MonthFromTime (LocalTime tz t).
Definition getDate (tz : zone) (t : Z) : Z := DateFromTime (LocalTime tz t).

(** [new Date(year, month, date, hours, minutes)] in the zone [tz]: the
    fields are a local time; a year in 0..99 means 1900 + year. *)
Definition newDateLocal (tz : zone) (year month date hours minutes : Z) : option Z :=
  let yr := if (0 <=? year) && (year <=? 99) then 1900 + year else year in
  TimeClip (UTC tz (MakeDate (MakeDay yr month date) (MakeTime hours minutes 0 0))).

(** [Date.prototype.toISOString] of a valid date. *)
Definition toISOString (t : Z) : string :=
  let '(y, m, d) := civil_from_days (Day t) in
  let r := TimeWithinDay t in
  let year :=
    if (0 <=? y) && (y <=? 9999) then Text.pad 4 y
    else (if y <? 0 then "-" else "+") +:+ Text.pad 6 (Z.abs y) in
  year +:+ "-" +:+ Text.pad 2 m +:+ "-" +:+ Text.pad 2 d +:+ "T"
    +:+ Text.pad 2 (r / 3600000) +:+ ":" +:+ Text.pad 2 (r / 60000 mod 60)
    +:+ ":" +:+ Text.pad 2 (r / 1000 mod 60) +:+ "." +:+ Text.pad 3 (r mod 1000)
    +:+ "Z".

Definition name_of (names : list string) (i : Z) : string :=
  default "" (names !! Z.to_nat i).

(** [Date.prototype.toString] of a valid date in the zone [tz], which the
    engine calls [name]: the day of the week, the month, the day, the
    year, the local time and the offset from UTC in hours and minutes. *)
Definition dateText (tz : zone) (name : string) (t : Z) : string :=
  let local := LocalTime tz t in
  let '(y, m, d) := civil_from_days (Day local) in
  let r := TimeWithinDay local in
  let offset := offsetAt tz t in
  let minutes := Z.abs offset / msPerMinute in
  name_of ["Sun"; "Mon"; "Tue"; "Wed"; "Thu"; "Fri"; "Sat"] ((Day local + 4) mod 7)
    +:+ " "
    +:+ name_of ["Jan"; "Feb"; "Mar"; "Apr"; "May"; "Jun"; "Jul"; "Aug"; "Sep";
                 "Oct"; "Nov"; "Dec"] (m - 1)
    +:+ " " +:+ Text.pad 2 d +:+ " "
    +:+ (if y <? 0 then "-" else "") +:+ Text.pad 4 (Z.abs y) +:+ " "
    +:+ Text.pad 2 (r / 3600000) +:+ ":" +:+ Text.pad 2 (r / 60000 mod 60)
    +:+ ":" +:+ Text.pad 2 (r / 1000 mod 60) +:+ " GMT"
    +:+ (if offset <? 0 then "-" else "+")
    +:+ Text.pad 2 (minutes / 60) +:+ Text.pad 2 (minutes mod 60)
    +:+ " (" +:+ name +:+ ")".

(** [Utilities.formatDate(date, zone, 'yyyy-MM-dd')] for the zone [tz]:
    the calendar date there, the year as the year of its era. *)
Definition format_yyyy_MM_dd (tz : zone) (t : Z) : string :=
  let '(y, m, d) := civil_from_days (Day (LocalTime tz t)) in
  Text.pad 4 (if y <=? 0 then 1 - y else y) +:+ "-" +:+ Text.pad 2 m
    +:+ "-" +:+ Text.pad 2 d.

Definition field (s : string) (from len : nat) : option Z :=
  Text.nat_literal (String.substring from len s).

Definition char_at (s : string) (i : nat) (c : ascii) : bool :=
  match String.get i s with
  | Some c' => Ascii.eqb c c'
  | None => false
  end.

(** The date-only form YYYY-MM-DD, a UTC midnight: [None] when [s] is not
    of that form, else the time value, NaN ([Some None]) for a month
    outside 1..12 or a day outside 1..31.  The day of the month may run up
    to 31 in any month and then overflows into the next one, as the V8
    engine reads it. *)
Definition parse_date_only (s : string) : option (option Z) :=
  if (String.length s =? 10)%nat && char_at s 4 "-" && char_at s 7 "-" then
    match field s 0 4, field s 5 2, field s 8 2 with
    | Some y, Some m, Some d =>
        Some (if (1 <=? m) && (m <=? 12) && (1 <=? d) && (d <=? 31)
              then TimeClip (MakeDate (MakeDay y (m - 1) d) 0)
              else None)
    | _, _, _ => None
    end
  else None.

(** A date with a time in UTC: YYYY-MM-DDTHH:mmZ, followed before the Z,
    if at all, by :ss and then by .sss.  The hour 24 is read at the end of a
    day only. *)
Definition parse_date_time (s : string) : option (option Z) :=
  let n := String.length s in
  let seconds := (20 <=? n)%nat in
  let millis := (n =? 24)%nat in
  if ((n =? 17) || (n =? 20) || (n =? 24))%nat
     && char_at s 4 "-" && char_at s 7 "-" && char_at s 10 "T" && char_at s 13 ":"
     && (negb seconds || char_at s 16 ":") && (negb millis || char_at s 19 ".")
     && char_at s (n - 1) "Z" then
    match field s 0 4, field s 5 2, field s 8 2, field s 11 2, field s 14 2,
          (if seconds then field s 17 2 else Some 0),
          (if millis then field s 20 3 else Some 0) with
    | Some y, Some m, Some d, Some hh, Some mi, Some ss, Some ms =>
        Some (if (1 <=? m) && (m <=? 12) && (1 <=? d) && (d <=? 31)
                 && (hh <=? 24) && (mi <=? 59) && (ss <=? 59)
                 && ((hh <? 24) || ((mi =? 0) && (ss =? 0) && (ms =? 0)))
              then TimeClip (MakeDate (MakeDay y (m - 1) d) (MakeTime hh mi ss ms))
              else None)
    | _, _, _, _, _, _, _ => None
    end
  else None.

(** [Date.parse] on the forms above, which are what the application sends
    (the date of an HTML date input) and stores ([toISOString]): the time
    value or NaN.  [None] for a text in any other form, whose reading this
    development takes from the engine. *)
Definition parse (s : string) : option (option Z) :=
  match parse_date_only s with
  | Some r => Some r
  | None => parse_date_time s
  end.

End Calendar.

(** ** The platform's digest and encoding: SHA-256 and base 64

    [Utilities.computeDigest(Utilities.DigestAlgorithm.SHA_256, text)] and
    [Utilities.base64Encode(bytes)].  A string is the sequence of its bytes
    (its UTF-8 encoding); a byte and a 32-bit word are non-negative [Z]s. *)

Module Utilities.

Definition w32 (x : Z) : Z := x mod 4294967296.

Definition rotr (n x : Z) : Z :=
  w32 (Z.lor (Z.shiftr x n) (Z.shiftl x (32 - n))).

Definition Ch (x y z : Z) : Z :=
  Z.lxor (Z.land x y) (Z.land (Z.lxor x 4294967295) z).
Definition Maj (x y z : Z) : Z :=
  Z.lxor (Z.lxor (Z.land x y) (Z.land x z)) (Z.land y z).
Definition bsig0 (x : Z) : Z := Z.lxor (Z.lxor (rotr 2 x) (rotr 13 x)) (rotr 22 x).
Definition bsig1 (x : Z) : Z := Z.lxor (Z.lxor (rotr 6 x) (rotr 11 x)) (rotr 25 x).
Definition ssig0 (x : Z) : Z := Z.lxor (Z.lxor (rotr 7 x) (rotr 18 x)) (Z.shiftr x 3).
Definition ssig1 (x : Z) : Z := Z.lxor (Z.lxor (rotr 17 x) (rotr 19 x)) (Z.shiftr x 10).

Definition K256 : list Z :=
    [1116352408; 1899447441; 3049323471; 3921009573;
     961987163; 1508970993; 2453635748; 2870763221;
     3624381080; 310598401; 607225278; 1426881987;
     1925078388; 2162078206; 2614888103; 3248222580;
     3835390401; 4022224774; 264347078; 604807628;
     770255983; 1249150122; 1555081692; 1996064986;
     2554220882; 2821834349; 2952996808; 3210313671;
     3336571891; 3584528711; 113926993; 338241895;
     666307205; 773529912; 1294757372; 1396182291;
     1695183700; 1986661051; 2177026350; 2456956037;
     2730485921; 2820302411; 3259730800; 3345764771;
     3516065817; 3600352804; 4094571909; 275423344;
     430227734; 506948616; 659060556; 883997877;
     958139571; 1322822218; 1537002063; 1747873779;
     1955562222; 2024104815; 2227730452; 2361852424;
     2428436474; 2756734187; 3204031479; 3329325298].

Definition H256 : list Z :=
    [1779033703; 3144134277; 1013904242; 2773480762;
     1359893119; 2600822924; 528734635; 1541459225].

Fixpoint bytes_of_string (s : string) : list Z :=
  match s with
  | EmptyString => []
  | String c s' => Z.of_N (N_of_ascii c) :: bytes_of_string s'
  end.

(** Big-endian bytes of [x], [n] of them. *)
Fixpoint be_bytes (n : nat) (x : Z) : list Z :=
  match n with
  | O => []
  | S n' => (Z.shiftr x (8 * Z.of_nat n')) mod 256 :: be_bytes n' x
  end.

(** The message followed by the bit 1, zero bits up to 56 modulo 64 bytes,
    and the 64-bit length of the message in bits. *)
Definition pad_message (msg : list Z) : list Z :=
  let len := Z.of_nat (length msg) in
  msg ++ [128] ++ replicate (Z.to_nat ((55 - len) mod 64)) 0
      ++ be_bytes 8 (8 * len).

Fixpoint words_of_bytes (fuel : nat) (bs : list Z) : list Z :=
  match fuel, bs with
  | S f, b0 :: b1 :: b2 :: b3 :: rest =>
      (b0 * 16777216 + b1 * 65536 + b2 * 256 + b3) :: words_of_bytes f rest
  | _, _ => []
  end.

Fixpoint chunks16 (fuel : nat) (ws : list Z) : list (list Z) :=
  match fuel, ws with
  | O, _ => []
  | _, [] => []
  | S f, _ => take 16 ws :: chunks16 f (drop 16 ws)
  end.

(** The message schedule, most recent word first: [rw] holds W(i-1),
    W(i-2), ... and is extended by [n] more words. *)
Fixpoint extend_schedule (n : nat) (rw : list Z) : list Z :=
  match n with
  | O => rw
  | S n' =>
      let w := w32 (ssig1 (nth 1 rw 0) + nth 6 rw 0
                    + ssig0 (nth 14 rw 0) + nth 15 rw 0) in
      extend_schedule n' (w :: rw)
  end.

Definition schedule (block : list Z) : list Z :=
  rev (extend_schedule 48 (rev block)).

Record regs := Regs { ra : Z; rb : Z; rc : Z; rd : Z; re : Z; rf : Z; rg : Z; rh : Z }.

Definition round (r : regs) (kw : Z * Z) : regs :=
  let t1 := w32 (rh r + bsig1 (re r) + Ch (re r) (rf r) (rg r) + kw.1 + kw.2) in
  let t2 := w32 (bsig0 (ra r) + Maj (ra r) (rb r) (rc r)) in
  Regs (w32 (t1 + t2)) (ra r) (rb r) (rc r) (w32 (rd r + t1)) (re r) (rf r) (rg r).

Definition regs_of_list (h : list Z) : regs :=
  Regs (nth 0 h 0) (nth 1 h 0) (nth 2 h 0) (nth 3 h 0)
       (nth 4 h 0) (nth 5 h 0) (nth 6 h 0) (nth 7 h 0).

Definition list_of_regs (r : regs) : list Z :=
  [ra r; rb r; rc r; rd r; re r; rf r; rg r; rh r].

Definition compress (h : list Z) (block : list Z) : list Z :=
  let r := foldl round (regs_of_list h) (zip K256 (schedule block)) in
  zip_with (fun x y => w32 (x + y)) h (list_of_regs r).

Definition sha256 (msg : list Z) : list Z :=
  let bs := pad_message msg in
  let ws := words_of_bytes (length bs) bs in
  let h := foldl compress H256 (chunks16 (length ws) ws) in
  concat (map (be_bytes 4) h).

Definition base64_alphabet : string :=
  "ABCDEFGHIJKLMNOPQRSTUVWXYZabcdefghijklmnopqrstuvwxyz0123456789+/".

Definition b64_char (i : Z) : ascii :=
  match String.get (Z.to_nat i) base64_alphabet with
  | Some c => c
  | None => "="%char
  end.

Fixpoint base64_go (fuel : nat) (bs : list Z) : string :=
  match fuel, bs with
  | O, _ => ""
  | _, [] => ""
  | S _, [b0] =>
      String (b64_char (b0 / 4)) (String (b64_char (b0 mod 4 * 16)) "==")
  | S _, [b0; b1] =>
      String (b64_char (b0 / 4))
        (String (b64_char (b0 mod 4 * 16 + b1 / 16))
           (String (b64_char (b1 mod 16 * 4)) "="))
  | S f, b0 :: b1 :: b2 :: rest =>
      String (b64_char (b0 / 4))
        (String (b64_char (b0 mod 4 * 16 + b1 / 16))
           (String (b64_char (b1 mod 16 * 4 + b2 / 64))
              (String (b64_char (b2 mod 64)) (base64_go f rest))))
  end.

Definition base64Encode (bs : list Z) : string := base64_go (length bs) bs.

Definition computeDigest_SHA_256 (text : string) : list Z :=
  sha256 (bytes_of_string text).

End Utilities.

(** ** JavaScript values

    The values that cross the backend: what a sheet cell holds (text, a
    number, a boolean, a date) and what a JSON payload or a parsed cell
    carries.  The only Date objects whose text the code ever takes are
    those a sheet hands it, so a Date is kept with its time value and with
    the text the engine gives it ([String(date)], which depends on the
    script's time zone and on the engine's name for that zone). *)

Abbreviation number := Number.number.

(** The Number for an integer: [VNum 1] is the number 1. *)
Coercion Number.of_Z : Z >-> Number.number.

(** A JSON value.  The properties of an object are listed in the order the
    language keeps them. *)
#[warnings="-register-all"] Inductive json : Type :=
  | JNull
  | JBool (b : bool)
  | JNum (x : number)
  | JStr (s : string)
  | JArr (items : list json)
  | JObj (fields : list (string * json)).

Definition json_eq_dec (x y : json) : {x = y} + {x <> y}.
Proof.
  revert x y. fix IH 1. intros x y. decide equality.
  - apply (decide_rel (=)).
  - apply (decide_rel (=)).
  - apply (decide_rel (=)).
  - apply (List.list_eq_dec IH).
  - apply List.list_eq_dec. intros [k1 v1] [k2 v2].
    destruct (decide (k1 = k2)) as [-> | Hk]; [| right; congruence].
    destruct (IH v1 v2) as [-> | Hv]; [left; reflexivity | right; congruence].
Defined.

#[global] Instance json_eq_decision : EqDecision json := json_eq_dec.

Inductive value : Type :=
  | VUndef
  | VNull
  | VBool (b : bool)
  | VNum (x : number)
  | VStr (s : string)
  | VDate (t : Z) (text : string)          (* a Date object *)
  | VArr (items : list json)               (* an array *)
  | VObj (fields : list (string * json)).  (* any other object *)

#[global] Instance value_eq_dec : EqDecision value.
Proof. solve_decision. Defined.

(** An object of the program (a record, a request): its own properties. *)
Abbreviation obj := (gmap string value).

Definition of_json (j : json) : value :=
  match j with
  | JNull => VNull
  | JBool b => VBool b
  | JNum x => VNum x
  | JStr s => VStr s
  | JArr l => VArr l
  | JObj f => VObj f
  end.

(** An array of strings. *)
Definition strings (l : list string) : list json := map JStr l.

(** The outcome of a call: a value, or a thrown error with its message. *)
Inductive result (A : Type) : Type :=
  | Ok (a : A)
  | Throw (message : string).
Arguments Ok {A} a.
Arguments Throw {A} message.

#[global] Instance result_eq_dec {A} `{EqDecision A} : EqDecision (result A).
Proof. solve_decision. Defined.

(** What one script execution reads from the platform and the engine: the
    clock ([new Date()]), the script's time zone, the identifier
    [Utilities.getUuid()] hands out, the id [SpreadsheetApp.create] gives a
    new spreadsheet and, for a text outside the forms of the language's
    date-time format that {!Calendar.parse} reads, what the engine's
    [Date.parse] makes of it ([None] is NaN). *)
Record env : Type :=
  Env { now : Z; scriptTz : Calendar.zone; uuid : string;
        createdId : string; dateParse : string -> option Z }.

Module JS.

(** Property read [o.k] of an own property: a missing one reads as
    [undefined]. *)
Definition get (o : obj) (k : string) : value :=
  match o !! k with
  | Some v => v
  | None => VUndef
  end.

(** The names every object inherits from [Object.prototype]. *)
Definition inherited : list string :=
  [ "constructor"; "__defineGetter__"; "__defineSetter__"; "hasOwnProperty";
    "__lookupGetter__"; "__lookupSetter__"; "isPrototypeOf";
    "propertyIsEnumerable"; "toString"; "valueOf"; "__proto__";
    "toLocaleString" ].

(** ToBoolean. *)
Definition truthy (v : value) : bool :=
  match v with
  | VUndef | VNull => false
  | VBool b => b
  | VNum x =>
      match x with
      | Number.NaN => false
      | _ => negb (Number.is_zero x)
      end
  | VStr s => Text.nonempty s
  | VDate _ _ | VArr _ | VObj _ => true
  end.

Definition is_object (v : value) : bool :=
  match v with
  | VDate _ _ | VArr _ | VObj _ => true
  | _ => false
  end.

(** [x === y].  Two objects are equal only when they are the same object;
    the code compares a value read from a sheet with a value of the request
    or with a literal, never an object with itself. *)
Definition strict_eq (x y : value) : bool :=
  match x, y with
  | VUndef, VUndef | VNull, VNull => true
  | VBool a, VBool b => Bool.eqb a b
  | VNum a, VNum b => Number.eqb a b
  | VStr a, VStr b => String.eqb a b
  | _, _ => false
  end.

Definition cannot_convert : string := "Cannot convert object to primitive value".

Definition has_field (k : string) (fields : list (string * json)) : bool :=
  existsb (fun p => String.eqb k (fst p)) fields.

(** The text of a value of JSON ([String(v)]): an array is its elements
    joined by commas, where [join] writes nothing for [null]; an object
    shows as [[object Object]]. *)
Fixpoint text_of (j : json) : string :=
  match j with
  | JNull => "null"
  | JBool true => "true"
  | JBool false => "false"
  | JNum x => Number.to_string x
  | JStr s => s
  | JArr l =>
      (fix items (l : list json) : string :=
         match l with
         | [] => EmptyString
         | x :: l' =>
             let a := match x with JNull => EmptyString | _ => text_of x end in
             match l' with
             | [] => a
             | _ => a +:+ String "," (items l')
             end
         end) l
  | JObj _ => "[object Object]"
  end.

(** An object of JSON that has a property [toString] of its own, which is
    no function, has no text: taking it throws a TypeError, as does taking
    that of an array that holds one. *)
Fixpoint has_text (j : json) : bool :=
  match j with
  | JArr l => forallb has_text l
  | JObj f => negb (has_field "toString" f)
  | _ => true
  end.

(** Whether [v] has a primitive. *)
Definition convertible (v : value) : bool :=
  match v with
  | VArr l => has_text (JArr l)
  | VObj f => has_text (JObj f)
  | _ => true
  end.

(** ToPrimitive of a value that has one: a Date gives its text (also where
    the language asks for no particular type), an array its elements joined
    by commas. *)
Definition ToPrimitive (v : value) : value :=
  match v with
  | VDate _ text => VStr text
  | VArr l => VStr (text_of (JArr l))
  | VObj f => VStr (text_of (JObj f))
  | _ => v
  end.

(** ToString of a value that has a primitive; it is also the property key
    the value names. *)
Definition ToString (v : value) : string :=
  match ToPrimitive v with
  | VUndef => "undefined"
  | VNull => "null"
  | VBool true => "true"
  | VBool false => "false"
  | VNum x => Number.to_string x
  | VStr s => s
  | _ => EmptyString
  end.

(** ToString of any value. *)
Definition ToString_of (v : value) : result string :=
  if convertible v then Ok (ToString v) else Throw cannot_convert.

(** StringToNumber. *)
Definition StringToNumber (s : string) : number := Number.of_string s.

(** ToNumber of a primitive. *)
Definition number_of_primitive (v : value) : number :=
  match v with
  | VNull => Number.zero
  | VBool b => Number.of_Z (if b then 1 else 0)
  | VNum x => x
  | VStr s => StringToNumber s
  | _ => Number.NaN
  end.

(** [x == y] on two primitives. *)
Definition loose_eq_primitive (x y : value) : bool :=
  match x, y with
  | VUndef, VUndef | VNull, VNull | VUndef, VNull | VNull, VUndef => true
  | VUndef, _ | VNull, _ | _, VUndef | _, VNull => false
  | VStr a, VStr b => String.eqb a b
  | _, _ => Number.eqb (number_of_primitive x) (number_of_primitive y)
  end.

(** [x == y]: two objects are never equal here (see [strict_eq]), [null]
    and [undefined] equal only each other, and an object meets a primitive
    as its own primitive. *)
Definition loose_eq (x y : value) : result bool :=
  if is_object x && is_object y then Ok false
  else
    match x, y with
    | VUndef, _ | VNull, _ | _, VUndef | _, VNull =>
        Ok (loose_eq_primitive x y)
    | _, _ =>
        if convertible x && convertible y
        then Ok (loose_eq_primitive (ToPrimitive x) (ToPrimitive y))
        else Throw cannot_convert
    end.

(** [v > 0]. *)
Definition positive (v : value) : result bool :=
  if convertible v
  then Ok (Number.ltb Number.zero (number_of_primitive (ToPrimitive v)))
  else Throw cannot_convert.

(** [list.includes(v)] for a list of strings. *)
Definition includes (l : list string) (v : value) : bool :=
  match v with
  | VStr s => bool_decide (s ∈ l)
  | _ => false
  end.

(** [array.includes(v)] for an array: its primitive elements are compared
    as [===] does but for NaN, which it finds. *)
Definition array_includes (l : list json) (v : value) : bool :=
  existsb (fun j =>
             match j, v with
             | JNum Number.NaN, VNum Number.NaN => true
             | JArr _, _ | JObj _, _ => false
             | _, _ => strict_eq (of_json j) v
             end) l.

(** [new Date(v)] for a value that has a primitive: the time value of the
    new date, [None] when invalid. *)
Definition newDate (e : env) (v : value) : option Z :=
  match v, ToPrimitive v with
  | VDate t _, _ => Calendar.TimeClip t
  | _, VStr s =>
      match Calendar.parse s with
      | Some r => r
      | None => dateParse e s
      end
  | _, p =>
      match number_of_primitive p with
      | Number.Fin m x =>
          Calendar.TimeClip
            (if 0 <=? x then m * Number.pow2 x else Z.quot m (Number.pow2 (- x)))
      | _ => None
      end
  end.

(** [a >= b], [a <= b] and [a > b] on two dates (on their time values): a
    comparison with NaN is false. *)
Definition ge (a b : option Z) : bool :=
  match a, b with Some x, Some y => y <=? x | _, _ => false end.
Definition le (a b : option Z) : bool :=
  match a, b with Some x, Some y => x <=? y | _, _ => false end.
Definition gt (a b : option Z) : bool :=
  match a, b with Some x, Some y => y <? x | _, _ => false end.

(** [{...a, ...b}]: the properties of [b] win. *)
Definition spread (a b : obj) : obj := b ∪ a.

End JS.

(** ** JSON texts

    [JSON.stringify] of an array and [JSON.parse].  [parse] answers [None]
    where [JSON.parse] throws a SyntaxError.  Texts are UTF-8; a code unit
    that is half of a pair on its own is written the way its pair would
    be. *)

Module JSON.

(** The double quote character. *)
Definition dquote : ascii := ascii_of_N 34.

Definition hex_char (d : N) : ascii :=
  match String.get (N.to_nat d) "0123456789abcdef" with
  | Some c => c
  | None => "0"%char
  end.

(** The escape of one character inside a JSON string literal. *)
Definition escape_char (c : ascii) : string :=
  let n := N_of_ascii c in
  if (n =? 34)%N then String "\" (String dquote EmptyString)
  else if (n =? 92)%N then "\\"
  else if (n =? 8)%N then "\b"
  else if (n =? 9)%N then "\t"
  else if (n =? 10)%N then "\n"
  else if (n =? 12)%N then "\f"
  else if (n =? 13)%N then "\r"
  else if (n <? 32)%N then
    String "\" (String "u" (String "0" (String "0"
      (String (hex_char (n / 16)) (String (hex_char (n mod 16)) EmptyString)))))
  else String c EmptyString.

Fixpoint escape (s : string) : string :=
  match s with
  | EmptyString => EmptyString
  | String c s' => escape_char c +:+ escape s'
  end.

Definition quote (s : string) : string :=
  String dquote (escape s +:+ String dquote EmptyString).

(** The JSON text of a value: a number that is not finite is written
    [null]. *)
Fixpoint text (j : json) : string :=
  match j with
  | JNull => "null"
  | JBool true => "true"
  | JBool false => "false"
  | JNum x =>
      match x with
      | Number.Fin _ _ => Number.to_string x
      | _ => "null"
      end
  | JStr s => quote s
  | JArr l =>
      String "["
        ((fix items (l : list json) : string :=
            match l with
            | [] => EmptyString
            | [x] => text x
            | x :: l' => text x +:+ String "," (items l')
            end) l +:+ "]")
  | JObj f =>
      String "{"
        ((fix members (f : list (string * json)) : string :=
            match f with
            | [] => EmptyString
            | [(k, v)] => quote k +:+ String ":" (text v)
            | (k, v) :: f' => quote k +:+ String ":" (text v) +:+ String "," (members f')
            end) f +:+ "}")
  end.

(** [JSON.stringify(l)] for an array [l]. *)
Definition stringify (l : list json) : string := text (JArr l).

(** The elements of an array of strings as [stringify] writes them. *)
Fixpoint elems_text (l : list string) : string :=
  match l with
  | [] => EmptyString
  | [x] => quote x
  | x :: l' => quote x +:+ String "," (elems_text l')
  end.

Definition is_ws (c : ascii) : bool :=
  let n := N_of_ascii c in
  ((n =? 32) || (n =? 9) || (n =? 10) || (n =? 13))%N.

Fixpoint skip_ws (s : string) : string :=
  match s with
  | String c s' => if is_ws c then skip_ws s' else s
  | EmptyString => EmptyString
  end.

Definition hex_val (c : ascii) : option N :=
  let n := N_of_ascii c in
  if ((48 <=? n) && (n <=? 57))%N then Some (n - 48)%N
  else if ((97 <=? n) && (n <=? 102))%N then Some (n - 87)%N
  else if ((65 <=? n) && (n <=? 70))%N then Some (n - 55)%N
  else None.

(** The code unit of four hexadecimal digits and what follows them. *)
Definition code_unit (s : string) : option (N * string) :=
  match s with
  | String h1 (String h2 (String h3 (String h4 r))) =>
      match hex_val h1, hex_val h2, hex_val h3, hex_val h4 with
      | Some a, Some b, Some c, Some d => Some ((((a * 16 + b) * 16 + c) * 16 + d)%N, r)
      | _, _, _, _ => None
      end
  | _ => None
  end.

(** The UTF-8 bytes of a code point. *)
Definition utf8 (cp : N) : string :=
  if (cp <? 128)%N then String (ascii_of_N cp) EmptyString
  else if (cp <? 2048)%N then
    String (ascii_of_N (192 + cp / 64))
      (String (ascii_of_N (128 + cp mod 64)) EmptyString)
  else if (cp <? 65536)%N then
    String (ascii_of_N (224 + cp / 4096))
      (String (ascii_of_N (128 + cp / 64 mod 64))
         (String (ascii_of_N (128 + cp mod 64)) EmptyString))
  else
    String (ascii_of_N (240 + cp / 262144))
      (String (ascii_of_N (128 + cp / 4096 mod 64))
         (String (ascii_of_N (128 + cp / 64 mod 64))
            (String (ascii_of_N (128 + cp mod 64)) EmptyString))).

Definition cons_text (p : string) (r : option (string * string))
  : option (string * string) :=
  match r with
  | Some (str, rest) => Some (p +:+ str, rest)
  | None => None
  end.

(** The low half that follows a high half [hi], as the escape \uXXXX at
    the head of [s], if there is one: the code point of the pair and the
    rest. *)
Definition low_half (hi : N) (s : string) : option (N * string) :=
  if ((55296 <=? hi) && (hi <=? 56319))%N then
    match s with
    | String "\" (String "u" r) =>
        match code_unit r with
        | Some (lo, rest) =>
            if ((56320 <=? lo) && (lo <=? 57343))%N
            then Some ((65536 + (hi - 55296) * 1024 + (lo - 56320))%N, rest)
            else None
        | None => None
        end
    | _ => None
    end
  else None.

(** The characters of a string literal after its opening quote, up to the
    closing quote: the text they denote and what follows the literal. *)
Fixpoint string_chars (fuel : nat) (s : string) : option (string * string) :=
  match fuel with
  | O => None
  | S f =>
      match s with
      | EmptyString => None
      | String c r =>
          if Ascii.eqb c dquote then Some (EmptyString, r)
          else if Ascii.eqb c "\" then
            match r with
            | String e r' =>
                if Ascii.eqb e dquote
                then cons_text (String dquote EmptyString) (string_chars f r')
                else if Ascii.eqb e "\" then cons_text "\" (string_chars f r')
                else if Ascii.eqb e "/" then cons_text "/" (string_chars f r')
                else if Ascii.eqb e "b" then cons_text (String "008" EmptyString) (string_chars f r')
                else if Ascii.eqb e "f" then cons_text (String "012" EmptyString) (string_chars f r')
                else if Ascii.eqb e "n" then cons_text (String "010" EmptyString) (string_chars f r')
                else if Ascii.eqb e "r" then cons_text (String "013" EmptyString) (string_chars f r')
                else if Ascii.eqb e "t" then cons_text (String "009" EmptyString) (string_chars f r')
                else if Ascii.eqb e "u" then
                  match code_unit r' with
                  | Some (cu, r'') =>
                      match low_half cu r'' with
                      | Some (cp, r''') => cons_text (utf8 cp) (string_chars f r''')
                      | None => cons_text (utf8 cu) (string_chars f r'')
                      end
                  | None => None
                  end
                else None
            | EmptyString => None
            end
          else if (N_of_ascii c <? 32)%N then None
          else cons_text (String c EmptyString) (string_chars f r)
      end
  end.

(** The property names that are array indices, 0 to 2^32 - 2 in their
    plain decimal form: an object lists these first, in rising order. *)
Definition array_index (k : string) : option Z :=
  match k with
  | String "0" (String _ _) => None
  | _ =>
      match Text.nat_literal k with
      | Some n => if n <=? 4294967294 then Some n else None
      | None => None
      end
  end.

(** A property set on an object: the value of a name there already is
    replaced where it stands; a new index goes before the first greater
    index or the first other name, another new name goes last. *)
Fixpoint set_field (k : string) (v : json) (fields : list (string * json))
  : list (string * json) :=
  match fields with
  | [] => [(k, v)]
  | (k', v') :: rest =>
      if String.eqb k k' then (k, v) :: rest
      else if existsb (fun p => String.eqb k (fst p)) rest
      then (k', v') :: set_field k v rest
      else
        match array_index k, array_index k' with
        | Some n, Some n' =>
            if n <? n' then (k, v) :: fields else (k', v') :: set_field k v rest
        | Some _, None => (k, v) :: fields
        | None, _ => (k', v') :: set_field k v rest
        end
  end.

(** A number of JSON: an optional minus, 0 or digits that do not start
    with 0, then maybe a point and digits, then maybe an exponent. *)
Definition number_token (s : string) : option (number * string) :=
  let '(negative, s1) :=
    match s with String "-" r => (true, r) | _ => (false, s) end in
  let '(whole, r1) := Number.span_digits s1 in
  match whole with
  | EmptyString => None
  | String "0" (String _ _) => None
  | _ =>
      let '(fraction, r2, pointed) :=
        match r1 with
        | String "." r => let '(f, r') := Number.span_digits r in (f, r', true)
        | _ => (EmptyString, r1, false)
        end in
      if pointed && negb (Text.nonempty fraction) then None
      else
        let exponent :=
          match r2 with
          | String c r =>
              if Ascii.eqb c "e" || Ascii.eqb c "E" then
                let '(sign, r3) :=
                  match r with
                  | String "-" x => (-1, x)
                  | String "+" x => (1, x)
                  | _ => (1, r)
                  end in
                let '(d, r4) := Number.span_digits r3 in
                if Text.nonempty d then Some (sign * Number.digits_value d, r4)
                else None
              else Some (0, r2)
          | EmptyString => Some (0, r2)
          end in
        match exponent with
        | Some (x, rest) =>
            let m := Number.digits_value (whole +:+ fraction) in
            Some (Number.of_decimal (if negative then - m else m)
                    (x - Z.of_nat (String.length fraction)), rest)
        | None => None
        end
  end.

Fixpoint drop_text (n : nat) (s : string) : string :=
  match n, s with
  | S n', String _ s' => drop_text n' s'
  | _, _ => s
  end.

(** A JSON value at the head of [s] and what follows it; the elements of
    an array after its opening bracket; the members of an object after its
    opening brace, added to [acc]. *)
Fixpoint value_at (fuel : nat) (s : string) {struct fuel} : option (json * string) :=
  match fuel with
  | O => None
  | S f =>
      match skip_ws s with
      | String c r =>
          if Ascii.eqb c dquote then
            match string_chars (String.length r) r with
            | Some (x, rest) => Some (JStr x, rest)
            | None => None
            end
          else if Ascii.eqb c "[" then
            match skip_ws r with
            | String "]" r' => Some (JArr [], r')
            | _ =>
                match elements f r with
                | Some (l, rest) => Some (JArr l, rest)
                | None => None
                end
            end
          else if Ascii.eqb c "{" then
            match skip_ws r with
            | String "}" r' => Some (JObj [], r')
            | _ =>
                match members f r [] with
                | Some (fs, rest) => Some (JObj fs, rest)
                | None => None
                end
            end
          else if Text.starts_with "true" (String c r)
          then Some (JBool true, drop_text 4 (String c r))
          else if Text.starts_with "false" (String c r)
          then Some (JBool false, drop_text 5 (String c r))
          else if Text.starts_with "null" (String c r)
          then Some (JNull, drop_text 4 (String c r))
          else
            match number_token (String c r) with
            | Some (x, rest) => Some (JNum x, rest)
            | None => None
            end
      | EmptyString => None
      end
  end
with elements (fuel : nat) (s : string) {struct fuel} : option (list json * string) :=
  match fuel with
  | O => None
  | S f =>
      match value_at f s with
      | Some (x, rest) =>
          match skip_ws rest with
          | String "," rest' =>
              match elements f rest' with
              | Some (xs, r) => Some (x :: xs, r)
              | None => None
              end
          | String "]" rest' => Some ([x], rest')
          | _ => None
          end
      | None => None
      end
  end
with members (fuel : nat) (s : string) (acc : list (string * json)) {struct fuel}
  : option (list (string * json) * string) :=
  match fuel with
  | O => None
  | S f =>
      match skip_ws s with
      | String c r =>
          if Ascii.eqb c dquote then
            match string_chars (String.length r) r with
            | Some (k, rest) =>
                match skip_ws rest with
                | String ":" rest1 =>
                    match value_at f rest1 with
                    | Some (v, rest2) =>
                        match skip_ws rest2 with
                        | String "," rest3 => members f rest3 (set_field k v acc)
                        | String "}" rest3 => Some (set_field k v acc, rest3)
                        | _ => None
                        end
                    | None => None
                    end
                | _ => None
                end
            | None => None
            end
          else None
      | EmptyString => None
      end
  end.

(** [JSON.parse(text)]. *)
Definition parse (text : string) : option json :=
  match value_at (2 * String.length text + 2) text with
  | Some (j, rest) =>
      match skip_ws rest with
      | EmptyString => Some j
      | _ => None
      end
  | None => None
  end.

End JSON.

(** ** The spreadsheet, the script execution and its effects *)

(** A sheet: its header row, each cell by the property name it gives, and
    the data rows below it.  A sheet without content is [Sheet [] []]. *)
Record sheet : Type := Sheet { headers : list string; rows : list (list value) }.

(** A spreadsheet: its sheets by name. *)
Abbreviation database := (gmap string sheet).

(** [SPREADSHEET_NAME] and [TIMEZONE = 'Asia/Bangkok']. *)
Definition SPREADSHEET_NAME : string := "School Equipment DB".
Definition TIMEZONE : Calendar.zone := Calendar.Asia_Bangkok.

(** [DB_CONFIG]: the sheet names and their headers. *)
Definition DB_CONFIG : list (string * list string) :=
  [ ("Users", ["id"; "name"; "username"; "password"; "role"]);
    ("Bookings", ["id"; "userId"; "type"; "teacherName"; "program"; "classroom";
                  "period"; "date"; "equipment"; "learningPlan"; "status";
                  "createdAt"; "returnedAt"; "returnedBy"]);
    ("Classrooms", ["id"; "program"; "name_th"; "name_en"]);
    ("Equipment", ["id"; "name_th"; "name_en"]) ].

(** The headers [DB_CONFIG] gives the sheet [name]. *)
Definition config_headers (name : string) : list string :=
  default [] (snd <$> List.find (fun entry => String.eqb entry.1 name) DB_CONFIG).

(** The effects of an execution that others can observe, in order. *)
Inductive event : Type :=
  | EvWaitLock
  | EvReleaseLock
  | EvCreate (id : string)
  | EvSetProperty (key text : string)
  | EvInsertSheet (sheetName : string)
  | EvAppendRow (sheetName : string) (row : list value)
  | EvSetValues (sheetName : string) (index : nat) (row : list value)
  | EvSetRows (sheetName : string) (count : nat)
  | EvDeleteRow (sheetName : string) (index : nat).

(** What the script works on: the script properties, the files of the
    Drive (id and name, in the order [getFilesByName] lists them), the
    spreadsheets by id, the spreadsheet this execution has opened
    ([_spreadsheet], by its id), the script lock and the events so far. *)
Record state : Type :=
  State { properties : gmap string string;
          drive : list (string * string);
          spreadsheets : gmap string database;
          opened : option string;
          lockHeld : bool;
          trace : list event }.

#[global] Instance sheet_eq_dec : EqDecision sheet.
Proof. solve_decision. Defined.
#[global] Instance event_eq_dec : EqDecision event.
Proof. solve_decision. Defined.
#[global] Instance state_eq_dec : EqDecision state.
Proof. solve_decision. Defined.

(** The fast path of [ensureDatabaseInitialized]:
    [DB_INITIALIZED === 'true' && SPREADSHEET_ID]. *)
Definition set_up (st : state) : bool :=
  bool_decide (properties st !! "DB_INITIALIZED" = Some "true")
  && match properties st !! "SPREADSHEET_ID" with
     | Some id => Text.nonempty id
     | None => false
     end.

(** The sheets of the spreadsheet [ss]. *)
Definition sheets_of (st : state) (ss : string) : database :=
  default ∅ (spreadsheets st !! ss).

(** The database: the spreadsheet this execution has opened or, before it
    opens one, the spreadsheet the properties name once the set-up is
    done.  Without either there is none yet and [db] is empty. *)
Definition db (st : state) : database :=
  match opened st with
  | Some ss => sheets_of st ss
  | None =>
      if set_up st
      then sheets_of st (default "" (properties st !! "SPREADSHEET_ID"))
      else ∅
  end.

(** A computation of the backend. *)
Definition M (A : Type) : Type := state -> result A * state.

Definition ret {A} (a : A) : M A := fun st => (Ok a, st).
Definition throw {A} (message : string) : M A := fun st => (Throw message, st).
Definition bind {A B} (m : M A) (k : A -> M B) : M B :=
  fun st =>
    match m st with
    | (Ok a, st') => k a st'
    | (Throw e, st') => (Throw e, st')
    end.

(** [try { body } finally { cleanup }]. *)
Definition try_finally {A} (body : M A) (cleanup : M unit) : M A :=
  fun st =>
    let '(r, st1) := body st in
    match cleanup st1 with
    | (Ok _, st2) => (r, st2)
    | (Throw e, st2) => (Throw e, st2)
    end.

(** [try { body } catch (e) { handler }]. *)
Definition try_catch {A} (body : M A) (handler : string -> M A) : M A :=
  fun st =>
    match body st with
    | (Ok a, st1) => (Ok a, st1)
    | (Throw m, st1) => handler m st1
    end.

Notation "'let*' x ':=' m 'in' k" := (bind m (fun x => k))
  (at level 10, x name, m at level 100, k at level 200, only parsing).

Definition lift {A} (r : result A) : M A := fun st => (r, st).

Definition emit (ev : event) : M unit :=
  fun st =>
    (Ok tt, State (properties st) (drive st) (spreadsheets st) (opened st)
                  (lockHeld st) (trace st ++ [ev])).

(** [SCRIPT_LOCK.waitLock(ms)] and [SCRIPT_LOCK.releaseLock()], within one
    execution: the lock is the script's, whichever call of the execution
    took it. *)
Definition waitLock : M unit :=
  fun st =>
    (Ok tt, State (properties st) (drive st) (spreadsheets st) (opened st)
                  true (trace st ++ [EvWaitLock])).
Definition releaseLock : M unit :=
  fun st =>
    (Ok tt, State (properties st) (drive st) (spreadsheets st) (opened st)
                  false (trace st ++ [EvReleaseLock])).

(** [SCRIPT_PROPERTIES.getProperty(key)] and [setProperty(key, text)]. *)
Definition getProperty (key : string) : M (option string) :=
  fun st => (Ok (properties st !! key), st).
Definition setProperty (key text : string) : M unit :=
  fun st =>
    (Ok tt, State (<[key := text]> (properties st)) (drive st) (spreadsheets st)
                  (opened st) (lockHeld st) (trace st ++ [EvSetProperty key text])).

(** The ids of the files [DriveApp.getFilesByName(name)] lists. *)
Definition getFilesByName (name : string) : M (list string) :=
  fun st =>
    (Ok (fst <$> List.filter (fun file => String.eqb file.2 name) (drive st)), st).

(** The platform's errors: a spreadsheet that cannot be opened, and a range
    without columns. *)
Definition missing_document (id : string) : string :=
  "Document " +:+ id +:+ " is missing (perhaps it was deleted, or you don't have read access?)".
Definition empty_range_error : string :=
  "The number of columns in the range must be at least 1.".

(** [SpreadsheetApp.openById(id)]: the spreadsheet, by its id. *)
Definition openById (id : string) : M string :=
  fun st =>
    match spreadsheets st !! id with
    | Some _ => (Ok id, st)
    | None => (Throw (missing_document id), st)
    end.

(** [SpreadsheetApp.create(name)]: a new spreadsheet with one sheet and
    nothing in it, under the id the platform gives it. *)
Definition create (e : env) (name : string) : M string :=
  fun st =>
    (Ok (createdId e),
     State (properties st) (drive st ++ [(createdId e, name)])
           (<[createdId e := {["Sheet1" := Sheet [] []]}]> (spreadsheets st))
           (opened st) (lockHeld st) (trace st ++ [EvCreate (createdId e)])).

(** [spreadsheet.getSheetByName(name)]: [None] is JavaScript's [null]. *)
Definition getSheetByName (ss : string) (name : string) : M (option sheet) :=
  fun st => (Ok (sheets_of st ss !! name), st).

(** The sheet [name] of the spreadsheet [ss] becomes [sh], with the event
    [ev]. *)
Definition write (ss name : string) (sh : sheet) (ev : event) : M unit :=
  fun st =>
    (Ok tt, State (properties st) (drive st)
                  (<[ss := <[name := sh]> (sheets_of st ss)]> (spreadsheets st))
                  (opened st) (lockHeld st) (trace st ++ [ev])).

(** [spreadsheet.insertSheet(name)]. *)
Definition insertSheet (ss name : string) : M sheet :=
  let* _ := write ss name (Sheet [] []) (EvInsertSheet name) in
  ret (Sheet [] []).

(** [sheet.getLastRow()] and [sheet.getLastColumn()]: the last row and the
    last column that have content. *)
Definition getLastRow (sh : sheet) : Z :=
  match rows sh with
  | [] => if forallb (fun h => negb (Text.nonempty h)) (headers sh) then 0 else 1
  | _ => 1 + Z.of_nat (length (rows sh))
  end.
Definition getLastColumn (sh : sheet) : Z :=
  if getLastRow sh =? 0 then 0 else Z.of_nat (length (headers sh)).

(** The sheet writes: [sheet.appendRow(row)], which on a sheet without
    content fills the first row, [sheet.getRange(i + 2, 1, 1, n)
    .setValues([row])] for the data row at position [i] (counted from 0),
    [sheet.getRange(2, 1, n, m).setValues(rows)] on a sheet that has its
    header row only, and [sheet.deleteRow(i + 2)]. *)
Definition appendRow (ss name : string) (sh : sheet) (row : list value) : M unit :=
  write ss name
    (if getLastRow sh =? 0 then Sheet (JS.ToString <$> row) []
     else Sheet (headers sh) (rows sh ++ [row]))
    (EvAppendRow name row).

Definition setValues (ss name : string) (sh : sheet) (i : nat) (row : list value) : M unit :=
  write ss name (Sheet (headers sh) (<[i := row]> (rows sh))) (EvSetValues name i row).

Definition setRows (ss name : string) (sh : sheet) (new : list (list value)) : M unit :=
  write ss name (Sheet (headers sh) new) (EvSetRows name (length new)).

Definition deleteRow (ss name : string) (sh : sheet) (i : nat) : M unit :=
  write ss name (Sheet (headers sh) (delete i (rows sh))) (EvDeleteRow name i).

(** [list.forEach(f)]. *)
Fixpoint forEach {A} (f : A -> M unit) (l : list A) : M unit :=
  match l with
  | [] => ret tt
  | x :: l' => let* _ := f x in forEach f l'
  end.

(** ** The seed users *)

(** [initialUsers] of [initializeDefaultData]: id, name, username, password
    and role of each. *)
Definition initialUsers : list (string * string * string * string * string) :=
  [
    ("1", "นายพสิษฐ์ สัตบุตร", "admin", "admin1234", "admin");
    ("2", "นายกฤษณะ สุขเกษม", "A0941799831", "A0941799831", "teacher");
    ("3", "น.ส.วรทัย ปิ่นกง", "A0994897060", "A0994897060", "teacher");
    ("4", "น.ส.เบนน่า มาซาโกวา", "A0965477097", "A0965477097", "teacher");
    ("5", "Ms. Honey Joy Corolado", "A0643805904", "A0643805904", "teacher");
    ("6", "Miss Kimberly Mae G. Lopez", "A0949138028", "A0949138028", "teacher");
    ("7", "น.ส.คุณัญญา สาเจริญ", "A0636698561", "A0636698561", "teacher");
    ("8", "น.ส.นนทชา รัชตโชติสกุล", "A0659398155", "A0659398155", "teacher");
    ("9", "น.ส.วลัยลักษณ์ ศรีวรสาร", "A0826061421", "A0826061421", "teacher");
    ("10", "น.ส.สิริศร อยู่ในสุข", "A0839948836", "A0839948836", "teacher");
    ("11", "น.ส.อัญมณี ไวยรัตน์", "A0653497243", "A0653497243", "teacher");
    ("12", "น.ส.แพรวพรรณ ยุทธนาวา", "A0876001180", "A0876001180", "teacher");
    ("13", "Miss Airen Ratunil Dela Cruz", "A0996481679", "A0996481679", "teacher");
    ("14", "Ms. May Dolor G. Magpale", "A0841356630", "A0841356630", "teacher");
    ("15", "Ms. Melanie Castro", "A0826676248", "A0826676248", "teacher");
    ("16", "Ms. Melodith Jane Berido", "A0918904792", "A0918904792", "teacher");
    ("17", "Ms.Jerly D. Cosinero", "A0811485912", "A0811485912", "teacher");
    ("18", "น.ส.กรนัท เพิ่มพูล", "A0656465798", "A0656465798", "teacher");
    ("19", "น.ส.กัญจรี สามัคคี", "A0834268748", "A0834268748", "teacher");
    ("20", "นางณัฐชยา ชนูนันท์", "A0644386047", "A0644386047", "teacher");
    ("21", "น.ส.ธนาภรณ์ ทับทิมทอง", "A0946186182", "A0946186182", "teacher");
    ("22", "น.ส.นาฎอนงค์ ขอรวมกลาง", "A0801283641", "A0801283641", "teacher");
    ("23", "นางนิตยา พัฒนา", "A0657081336", "A0657081336", "teacher");
    ("24", "นางปานทิพย์ พรหมมา", "A0916981703", "A0916981703", "teacher");
    ("25", "น.ส.พิชชาพร ยอดเกิด", "A0986428993", "A0986428993", "teacher");
    ("26", "น.ส.วัชรีกร จันพิศาล", "A0818751373", "A0818751373", "teacher");
    ("27", "น.ส.สาคร หลองทุ่ง", "A0875865529", "A0875865529", "teacher");
    ("28", "นางอรัญญา ช่างถม", "A0844484839", "A0844484839", "teacher");
    ("29", "น.ส.อารียา ปานพรหม", "A0817272165", "A0817272165", "teacher");
    ("30", "น.ส.อำไพ เผ่าดี", "A0986567059", "A0986567059", "teacher");
    ("31", "Mrs.Quenie Lou M. Lesigufz", "A0639868522", "A0639868522", "teacher");
    ("32", "น.ส.ศิริลักษณ์ สังข์ทอง", "A0878381856", "A0878381856", "teacher");
    ("33", "Ms. Baby Joy Pansaon Naquila", "A0948024527", "A0948024527", "teacher");
    ("34", "Mr. Benjamin Galve Jr.", "A0822370241", "A0822370241", "teacher");
    ("35", "Miss Jelsie M. Tuyac", "A0997135792", "A0997135792", "teacher");
    ("36", "Mr. Marvin R. Cubos", "A0946911328", "A0946911328", "teacher");
    ("37", "Ms. Precious Anne Rosales", "A0948683809", "A0948683809", "teacher");
    ("38", "น.ส.ณัฐธิกานต์ อ่อนนาดี", "A0816621045", "A0816621045", "teacher");
    ("39", "น.ส.ณัฐมนต์ กลิ่นถาวร", "A0968366383", "A0968366383", "teacher");
    ("40", "น.ส.ปภัสรา อัจนา", "A0902960425", "A0902960425", "teacher");
    ("41", "น.ส.รจสุคนธ์ คำเพชรดี", "A0615052434", "A0615052434", "teacher");
    ("42", "นางอุทุมภรณ์ เสืออิ่ม", "A0642602986", "A0642602986", "teacher");
    ("43", "Ms. Emma Gocela Bendana", "A0951130440", "A0951130440", "teacher");
    ("44", "Ms. Janet C.Ybanez", "A0970410790", "A0970410790", "teacher");
    ("45", "Mr. Jerex John S. Matas", "A0929610115", "A0929610115", "teacher");
    ("46", "Ms. Lordelina B. Engbino", "A0825240918", "A0825240918", "teacher");
    ("47", "Ms. Mary Noreen E. Malagum", "A0853730447", "A0853730447", "teacher");
    ("48", "Ms. Rizpah A. Ogang", "A0851997405", "A0851997405", "teacher");
    ("49", "Ms. Romileene Kabigting", "A0946412800", "A0946412800", "teacher");
    ("50", "Mr. Wayne Longhurst", "A0983243861", "A0983243861", "teacher");
    ("51", "Mr.Frank Andrew", "A0820051362", "A0820051362", "teacher");
    ("52", "Mr.Marvin Dave Polonan", "A0621408009", "A0621408009", "teacher");
    ("53", "Mr.Sabet Aris", "A0801087095", "A0801087095", "teacher");
    ("54", "น.ส.ภณิดา งามขำ", "A0988641351", "A0988641351", "teacher");
    ("55", "น.ส.กรชนก โพธิ์มี", "A0802649877", "A0802649877", "teacher");
    ("56", "น.ส.จุฑามาศ มะปรางอ่อน", "A0982859413", "A0982859413", "teacher");
    ("57", "น.ส.ชลธิชา เปียสันเทียะ", "A0953905236", "A0953905236", "teacher");
    ("58", "น.ส.ญาณศรณ์ ทัพมงคล", "A0827566780", "A0827566780", "teacher");
    ("59", "น.ส.ณัฐธิกา กามะ", "A0936971610", "A0936971610", "teacher");
    ("60", "น.ส.ประกายกุล คงกุทอง", "A0906208621", "A0906208621", "teacher");
    ("61", "น.ส.พรพิมล นาเจริญ", "A0971543391", "A0971543391", "teacher");
    ("62", "น.ส.ศุภัคชญา มะโรงทอง", "A0985055869", "A0985055869", "teacher");
    ("63", "นายไตรภพ ไกรวงษ์", "A0802957374", "A0802957374", "teacher");
    ("64", "Ms. Angelica S. Quinlog", "A0946070851", "A0946070851", "teacher");
    ("65", "Ms. Camel Joy Genolos", "A0827062604", "A0827062604", "teacher");
    ("66", "Mr. John Michael Valera", "A0649597108", "A0649597108", "teacher");
    ("67", "Mr.Red Billones", "A0654153586", "A0654153586", "teacher");
    ("68", "น.ส.จินจิรา กลมพันธ์", "A0924747229", "A0924747229", "teacher");
    ("69", "นายภัทรภณ สุขน้ำคำ", "A0913764752", "A0913764752", "teacher");
    ("70", "น.ส.ศิรินันท์ ปราบคนชั่ว", "A0959479561", "A0959479561", "teacher");
    ("71", "น.ส.สุธินี สิทธิโชค", "A0985099986", "A0985099986", "teacher");
    ("72", "น.ส.อัจฉรา ฝั่งชลจิตต์", "A0917329316", "A0917329316", "teacher");
    ("73", "Mr.Helie Fritz Sazon", "A0823754486", "A0823754486", "teacher");
    ("74", "นางชมนภัส วงศ์โดยหวัง", "A0931183213", "A0931183213", "teacher");
    ("75", "น.ส.ช่อมณี ผ่องฤกษ์", "A0619943628", "A0619943628", "teacher");
    ("76", "นายณัฐพงษ์ คงกุทอง", "A0807444591", "A0807444591", "teacher");
    ("77", "น.ส.ธัญญลักษณ์ ศิลาขาว", "A0857469287", "A0857469287", "teacher");
    ("78", "น.ส.ธีรพร ชะอุ้ม", "A0876962717", "A0876962717", "teacher");
    ("79", "นายวิศรุต กันทอง", "A0802139967", "A0802139967", "teacher");
    ("80", "Ms. Ruby Lyn T. Dumdum", "A0803282358", "A0803282358", "teacher");
    ("81", "Mr.Windson L. Comom", "A0812564785", "A0812564785", "teacher");
    ("82", "น.ส.จรียา สีเทพ", "A0996167632", "A0996167632", "teacher");
    ("83", "น.ส.จุฬารัตน์ พิพันเพียง", "A0974955361", "A0974955361", "teacher");
    ("84", "นายณัฐวุฒิ ปั้นคล้าย", "A0820277548", "A0820277548", "teacher");
    ("85", "น.ส.ปิยะพร โชติอริยทรัพย์", "A0811971310", "A0811971310", "teacher");
    ("86", "น.ส.ศศิธร ชาร์ป", "A0967071073", "A0967071073", "teacher");
    ("87", "น.ส.ศิริรัตน์ เศวตวงษ์", "A0956624361", "A0956624361", "teacher");
    ("88", "นายสิทธิโชค ขุมมา", "A0901308678", "A0901308678", "teacher");
    ("89", "Mr. Arbee Garcia Pineda", "A0969477299", "A0969477299", "teacher");
    ("90", "Mr.Ryan T. Kenio", "A0653133861", "A0653133861", "teacher");
    ("91", "น.ส.ทัศนีย์วรรณ จันโทวาท", "A0980271586", "A0980271586", "teacher");
    ("92", "นายปฎิพล ไชยพอ", "A0982466705", "A0982466705", "teacher");
    ("93", "นายรังสิมันต์ พิมพ์โคตร", "A06486399122", "A06486399122", "teacher");
    ("94", "นายอภิชา วัฒนะวิโรฒ", "A0831113023", "A0831113023", "teacher");
    ("95", "นายภักดี ปินะถา", "A0883045231", "A0883045231", "admin");
    ("96", "นางอรทัย ครูเอิน", "A0903212310", "A0903212310", "teacher");
    ("97", "นายสมศักดิ์ เนียมงาม", "A0892299905", "A0892299905", "teacher");
    ("98", "Mr. Edmhar M. Alborte", "A0830613757", "A0830613757", "teacher");
    ("99", "นายกฤษฎา แอสุวรรณ", "A0875380556", "A0875380556", "teacher");
    ("100", "น.ส.ชมพูนุท จิรดิฐพาณิชยกุล", "A0614646395", "A0614646395", "teacher");
    ("101", "นายชานุวัฒน์ บุระพันธ์", "A0902594288", "A0902594288", "teacher");
    ("102", "นายธนาธร คชภูติ", "A0998146358", "A0998146358", "teacher");
    ("103", "นางนราวรรณ สุ่นตระกูล", "A0970601930", "A0970601930", "teacher");
    ("104", "น.ส.นาถนรี ปรียานนท์", "A0949647964", "A0949647964", "teacher");
    ("105", "น.ส.บุศรัตน์ พลอยเลิศ", "A0651562457", "A0651562457", "teacher");
    ("106", "นางพรวิภา หมั่นภักดี", "A0912455949", "A0912455949", "teacher");
    ("107", "นายพสิษฐ์ สัตบุตร", "A0833759527", "A0833759527", "teacher");
    ("108", "นางพิมภัสร์ อ่อนยั่งยืน", "A0819891463", "A0819891463", "teacher");
    ("109", "น.ส.พิไลภรณ์ หะธรรมวงษ์", "A0868372374", "A0868372374", "teacher");
    ("110", "นางมนทิชา เนียมงาม", "A0857402739", "A0857402739", "teacher");
    ("111", "น.ส.รุ่งนภา พรมบุตร", "A0969780682", "A0969780682", "teacher");
    ("112", "นางอมรรัตน์ ยี่ผาสุข", "A0818648757", "A0818648757", "teacher");
    ("113", "น.ส.อมรรัตน์ ศรีเล็ก", "A0930728037", "A0930728037", "teacher");
    ("114", "นางอรวรรณ ไชยบาล", "A0651561755", "A0651561755", "teacher");
    ("115", "น.ส.อ้อยใจ ปิงเมือง", "A0817620531", "A0817620531", "teacher");
    ("116", "นายเฉลิมพล พันธ์เฉลิมชัย", "A0909289254", "A0909289254", "teacher");
    ("117", "น.ส.เพชรพัชรี สุระปัญญา", "A0924606190", "A0924606190", "teacher");
    ("118", "นายเสฎฐวุฒิ แก้วมรกต", "A06526309655", "A06526309655", "teacher");
    ("119", "นายเอื้อวิช วัฒนะวิโรฒ", "A0958607873", "A0958607873", "teacher");
    ("120", "นายเฮนรี เจอาร์ มิซาจอน อาริมัส", "A0614704421", "A0614704421", "teacher");
    ("121", "น.ส.จิริยา นีระพงษ์", "A0639500476", "A0639500476", "teacher");
    ("122", "นางสายฝน ชาญเขตกรณ์", "A0961588673", "A0961588673", "teacher");
    ("123", "นางสุพรรณ พรมอ่อน", "A0988758526", "A0988758526", "teacher");
    ("124", "นายวิศัลย์ เพ็ชรตระกูล", "A0818343465", "A0818343465", "admin");
    ("125", "นางปราณี เรียนรู้", "A08802105933", "A08802105933", "teacher");
    ("126", "น.ส.ทิตธัญญา จันทร์ทอง", "A0865153455", "A0865153455", "teacher");
    ("127", "นางน้ำอ้อย เปลี่ยนทอง", "A0625122420", "A0625122420", "teacher");
    ("128", "น.ส.มาลัย ศรีนอก", "A0925533830", "A0925533830", "teacher");
    ("129", "นายวันชัย พลอยประดับ", "A0610451017", "A0610451017", "teacher");
    ("130", "น.ส.ศุจินทรา ครบพร", "A0988404282", "A0988404282", "teacher");
    ("131", "นายจรุง มัณยานน์", "A0819966244", "A0819966244", "teacher");
    ("132", "นายภัทรพล คงมั่น", "A0894999464", "A0894999464", "teacher");
    ("133", "นายธีรยุทธ ประภัศศร", "A0929323900", "A0929323900", "teacher");
    ("134", "นางจีระนันท์ สุภาชาติ", "A0660768326", "A0660768326", "teacher");
    ("135", "นางมานิตย์ น้อยจริง", "A0822527232", "A0822527232", "teacher");
    ("136", "น.ส.ยาใจ วงศ์ผาบุตร", "A0958481727", "A0958481727", "teacher");
    ("137", "น.ส.วงเดือน สร้อยที", "A0984436701", "A0984436701", "teacher");
    ("138", "น.ส.พิสมัย วงศ์ผาบุตร", "A0890916292", "A0890916292", "teacher");
    ("139", "นางสุนันทา สุวรรณวงค์", "A0968154693", "A0968154693", "teacher");
    ("140", "นางเพ็ญศรี ไชยสลี", "A0915519538", "A0915519538", "teacher");
    ("141", "นายเรือง เริ่มหาสุข", "A0860542239", "A0860542239", "teacher");
    ("142", "น.ส.วาสนา สุขแท้", "A0861508025", "A0861508025", "teacher");
    ("143", "น.ส.ศรีดา ชินดร", "A0868284206", "A0868284206", "teacher") ].

(** ** Helper functions of the backend *)

Definition generateId (e : env) : string := uuid e.

Definition hashPassword (password : string) : string :=
  Utilities.base64Encode (Utilities.computeDigest_SHA_256 password).


(** ** The one-time set-up *)

(** [userWithHashedPassword[header] || ''] for a seed user: the password is
    hashed and the runs of white space of the name are single spaces.  A
    header that names a member of [Object.prototype] reads as that member,
    which is no value for a cell: [None]. *)
Definition seed_cell (user : string * string * string * string * string)
    (header : string) : option value :=
  let '(id, name, username, password, role) := user in
  if String.eqb header "id" then Some (VStr id)
  else if String.eqb header "name"
  then Some (VStr (Text.trim (Text.collapse_spaces name)))
  else if String.eqb header "username" then Some (VStr username)
  else if String.eqb header "password" then Some (VStr (hashPassword password))
  else if String.eqb header "role" then Some (VStr role)
  else if bool_decide (header ∈ JS.inherited) then None
  else Some (VStr "").

(** The rows of the seed users under the headers [hs]. *)
Definition seed_rows (hs : list string) : option (list (list value)) :=
  mapM (fun user => mapM (seed_cell user) hs) initialUsers.

Definition cell_type_error : string :=
  "The parameters don't match the method signature for SpreadsheetApp.Range.setValues.".

(** [initializeDefaultData(spreadsheet)]: a Users sheet that has at most
    its header row gets the seed users. *)
Definition initializeDefaultData (ss : string) : M unit :=
  let* usersSheet := getSheetByName ss "Users" in
  match usersSheet with
  | Some sh =>
      if getLastRow sh <? 2 then
        if getLastColumn sh =? 0 then throw empty_range_error
        else
          match seed_rows (headers sh) with
          | Some new => setRows ss "Users" sh new
          | None => throw cell_type_error
          end
      else ret tt
  | None => ret tt
  end.

Definition initialization_error : string :=
  "Could not initialize the database structure. Please try again or check script permissions.".

(** The locked section of [ensureDatabaseInitialized]: the spreadsheet is
    found by its name or created, every sheet of [DB_CONFIG] that is
    missing is inserted and every one without content gets its headers. *)
Definition createStructure (e : env) : M string :=
  let* files := getFilesByName SPREADSHEET_NAME in
  let* ss :=
    match files with
    | id :: _ => openById id
    | [] => create e SPREADSHEET_NAME
    end in
  let* _ := setProperty "SPREADSHEET_ID" ss in
  let* _ :=
    forEach (fun entry : string * list string =>
               let* found := getSheetByName ss entry.1 in
               let* sh :=
                 match found with
                 | Some sh => ret sh
                 | None => insertSheet ss entry.1
                 end in
               if getLastRow sh =? 0
               then appendRow ss entry.1 sh (VStr <$> entry.2)
               else ret tt)
            DB_CONFIG in
  let* _ := setProperty "DB_INITIALIZED" "true" in
  ret ss.

(** [ensureDatabaseInitialized()]: nothing once the set-up is done; else
    the structure is created under the script lock and the seed users are
    written after the lock is released, an error there being logged
    only. *)
Definition ensureDatabaseInitialized (e : env) : M unit :=
  fun st =>
    if set_up st then (Ok tt, st)
    else
      (let* _ := waitLock in
       let* spreadsheetForPopulation :=
         try_finally
           (try_catch
              (fun st' =>
                 if set_up st' then (Ok None, st')
                 else (let* ss := createStructure e in ret (Some ss)) st')
              (fun _ => throw initialization_error))
           releaseLock in
       match spreadsheetForPopulation with
       | Some ss => try_catch (initializeDefaultData ss) (fun _ => ret tt)
       | None => ret tt
       end) st.

Definition no_id_error : string :=
  "Could not retrieve Spreadsheet ID. The initialization might have failed.".

(** [getDB()]: the spreadsheet this execution has opened, else the one the
    properties name after [ensureDatabaseInitialized]. *)
Definition getDB (e : env) : M string :=
  fun st =>
    match opened st with
    | Some ss => (Ok ss, st)
    | None =>
        (let* _ := ensureDatabaseInitialized e in
         let* spreadsheetId := getProperty "SPREADSHEET_ID" in
         match spreadsheetId with
         | Some (String c id) =>
             let* ss := openById (String c id) in
             fun st' =>
               (Ok ss, State (properties st') (drive st') (spreadsheets st')
                             (Some ss) (lockHeld st') (trace st'))
         | _ => throw no_id_error
         end) st
    end.

(** ** Reading and writing rows *)

(** The value [sheetDataToObject] stores under [header] for a cell: the
    equipment cell, when truthy, is parsed as JSON, and split at commas when
    that fails. *)
Definition readCell (header : string) (v : value) : value :=
  if String.eqb header "equipment" && JS.truthy v then
    match JSON.parse (JS.ToString v) with
    | Some parsed => of_json parsed
    | None =>
        VArr (strings (List.filter Text.nonempty
                         (map Text.trim (Text.split_on "," (JS.ToString v) ""))))
    end
  else v.

(** One data row as an object: [headers.reduce(...)], the cell of column
    [i] under the header of column [i].  An assignment to [__proto__] makes
    no property. *)
Fixpoint rowObject (hs : list string) (row : list value) (o : obj) : obj :=
  match hs with
  | [] => o
  | h :: hs' =>
      rowObject hs' (tail row)
        (if String.eqb h "__proto__" then o
         else <[h := readCell h (default VUndef (head row))]> o)
  end.

Definition sheetObjects (sh : sheet) : list obj :=
  map (fun row => rowObject (headers sh) row ∅) (rows sh).

Definition sheetDataToObject (sh : option sheet) : list obj :=
  match sh with
  | None => []
  | Some s => sheetObjects s
  end.

(** [prepareRow] of [addOrUpdateRecord]; [record[header]] is read among the
    record's own properties, the headers of [DB_CONFIG] naming no other. *)
Definition prepareCell (v : value) : value :=
  match v with
  | VArr l => VStr (JSON.stringify l)
  | VUndef => VStr ""
  | _ => v
  end.

Definition prepareRow (hs : list string) (record : obj) : list value :=
  map (fun header => prepareCell (JS.get record header)) hs.

(** [array.findIndex(p)]: [None] stands for -1. *)
Fixpoint findIndex {A} (p : A -> bool) (l : list A) : option nat :=
  match l with
  | [] => None
  | x :: l' => if p x then Some O else option_map S (findIndex p l')
  end.

(** [array.find(p)]. *)
Fixpoint find {A} (p : A -> bool) (l : list A) : option A :=
  match l with
  | [] => None
  | x :: l' => if p x then Some x else find p l'
  end.

(** [array.find(p)] for a test that can throw. *)
Fixpoint find_result {A} (p : A -> result bool) (l : list A) : result (option A) :=
  match l with
  | [] => Ok None
  | x :: l' =>
      match p x with
      | Ok true => Ok (Some x)
      | Ok false => find_result p l'
      | Throw m => Throw m
      end
  end.

(** [array.map(f)] for a callback that can throw. *)
Fixpoint map_result {A B} (f : A -> result B) (l : list A) : result (list B) :=
  match l with
  | [] => Ok []
  | x :: l' =>
      match f x with
      | Ok y =>
          match map_result f l' with
          | Ok ys => Ok (y :: ys)
          | Throw m => Throw m
          end
      | Throw m => Throw m
      end
  end.

Definition has_id (id : value) (row : obj) : bool :=
  JS.strict_eq (JS.get row "id") id.

Definition null_sheet_error : string :=
  "Cannot read properties of null (reading 'getRange')".
Definition undefined_index_error : string :=
  "Cannot read properties of undefined (reading '0')".
Definition digest_argument_error : string :=
  "The parameters don't match the method signature for Utilities.computeDigest.".

(** ** The API endpoint functions *)

(** *** Authentication *)


(** *** Derived status *)

(** [periodTimes]: for each period its start and its end, each as hours and
    minutes. *)
Definition periodTimes : list (string * ((Z * Z) * (Z * Z))) :=
  [ ("1", ((8, 40), (9, 40)));   ("2", ((9, 40), (10, 40)));
    ("3", ((10, 40), (11, 40))); ("4", ((12, 40), (13, 40)));
    ("5", ((13, 40), (14, 40))); ("6", ((14, 50), (15, 50))) ].

(** What [periodTimes[key]] is: the window of a period, a member of
    [Object.prototype] (a function, or the prototype itself), or
    [undefined]. *)
Inductive period_entry : Type :=
  | Window (start finish : Z * Z)
  | Member
  | Missing.

(** [periodTimes[key]]: the property named by the text of [key]. *)
Definition periodInfo (key : value) : period_entry :=
  match List.find (fun entry => String.eqb entry.1 (JS.ToString key)) periodTimes with
  | Some (_, (start, finish)) => Window start finish
  | None =>
      if bool_decide (JS.ToString key ∈ JS.inherited) then Member else Missing
  end.

Definition terminal_statuses : list string := ["Returned"; "Not Used"; "Cancelled"].

(** [new Date(y, m, d, hours, minutes)] on the day of the booking date [t],
    in the script's time zone. *)
Definition timeOnDay (e : env) (t : Z) (hm : Z * Z) : option Z :=
  Calendar.newDateLocal (scriptTz e)
    (Calendar.getFullYear (scriptTz e) t) (Calendar.getMonth (scriptTz e) t)
    (Calendar.getDate (scriptTz e) t) hm.1 hm.2.

(** The body of the [map] in [calculateBookingStatus].  A member of
    [Object.prototype] is truthy and has no [start]: reading
    [periodInfo.start[0]] throws a TypeError. *)
Definition bookingStatus (e : env) (b : obj) : result obj :=
  if JS.includes terminal_statuses (JS.get b "status") then Ok b
  else
    match JS.get b "date" with
    | VDate t _ =>
        match periodInfo (JS.get b "period") with
        | Missing => Ok b
        | Member => Throw undefined_index_error
        | Window start finish =>
            let startTime := timeOnDay e t start in
            let endTime := timeOnDay e t finish in
            let current := Some (now e) in
            if JS.ge current startTime && JS.le current endTime
            then Ok (<["status" := VStr "In Use"]> b)
            else if JS.gt current endTime
            then Ok (<["status" := VStr "Pending Return"]> b)
            else Ok (<["status" := VStr "Booked"]> b)
        end
    | _ => Ok b
    end.

Definition calculateBookingStatus (e : env) (bookings : list obj) : result (list obj) :=
  map_result (bookingStatus e) bookings.

(** *** Getters *)

(** The comparator of [getBookingsWithStatus]:
    [new Date(b.createdAt) - new Date(a.createdAt)], NaN counting as 0. *)
Definition byCreatedAtDesc (e : env) (a b : obj) : Z :=
  match JS.newDate e (JS.get b "createdAt"), JS.newDate e (JS.get a "createdAt") with
  | Some tb, Some ta => tb - ta
  | _, _ => 0
  end.

(** [array.sort(cmp)]: a stable sort. *)
Fixpoint insert_sorted {A} (cmp : A -> A -> Z) (x : A) (l : list A) : list A :=
  match l with
  | [] => [x]
  | y :: l' => if 0 <? cmp x y then y :: insert_sorted cmp x l' else x :: l
  end.

Definition sort {A} (cmp : A -> A -> Z) (l : list A) : list A :=
  foldr (insert_sorted cmp) [] l.

Definition getBookingsWithStatus (e : env) : M (list obj) :=
  let* ss := getDB e in
  let* sh := getSheetByName ss "Bookings" in
  let allBookings := sheetDataToObject sh in
  let sorted := sort (byCreatedAtDesc e) allBookings in
  lift (calculateBookingStatus e sorted).

Definition getBookingsByDate (e : env) (date : value) : M (list obj) :=
  let* ss := getDB e in
  let* sh := getSheetByName ss "Bookings" in
  let allBookings := sheetDataToObject sh in
  let filtered :=
    List.filter (fun b =>
                   match JS.get b "date" with
                   | VDate t _ =>
                       JS.strict_eq (VStr (Calendar.format_yyyy_MM_dd TIMEZONE t)) date
                   | _ => false
                   end) allBookings in
  lift (calculateBookingStatus e filtered).

Definition withoutPassword (u : obj) : obj := delete "password" u.

Definition getUsers (e : env) : M (list obj) :=
  let* ss := getDB e in
  let* sh := getSheetByName ss "Users" in
  ret (withoutPassword <$> sheetDataToObject sh).

Definition getEquipment (e : env) : M (list obj) :=
  let* ss := getDB e in
  let* sh := getSheetByName ss "Equipment" in
  ret (sheetDataToObject sh).

Definition getAllClassrooms (e : env) : M (list obj) :=
  let* ss := getDB e in
  let* sh := getSheetByName ss "Classrooms" in
  ret (sheetDataToObject sh).

Definition getClassroomsByProgram (e : env) (program : value) : M (list obj) :=
  let* all := getAllClassrooms e in
  ret (List.filter (fun c => JS.strict_eq (JS.get c "program") program) all).

(** *** CRUD operations (with locking) *)

(** [Utilities.computeDigest] takes a text or an array of bytes. *)
Fixpoint bytes_of (l : list json) : option (list Z) :=
  match l with
  | [] => Some []
  | JNum x :: l' =>
      match Number.to_Z x, bytes_of l' with
      | Some n, Some bs =>
          if (-128 <=? n) && (n <=? 127) then Some (n mod 256 :: bs) else None
      | _, _ => None
      end
  | _ :: _ => None
  end.

(** [hashPassword(v)] for any value. *)
Definition hashValue (v : value) : result string :=
  match v with
  | VStr s => Ok (hashPassword s)
  | VArr l =>
      match bytes_of l with
      | Some bs => Ok (Utilities.base64Encode (Utilities.sha256 bs))
      | None => Throw digest_argument_error
      end
  | _ => Throw digest_argument_error
  end.

(** [v.length] of a truthy value. *)
Definition length_of (v : value) : value :=
  match v with
  | VStr s => VNum (Z.of_nat (String.length s))
  | VArr l => VNum (Z.of_nat (length l))
  | VObj f =>
      match List.find (fun p => String.eqb p.1 "length") f with
      | Some (_, j) => of_json j
      | None => VUndef
      end
  | _ => VUndef
  end.

(** The password of an update to a user: hashed when given and of a
    length above 0, else the property is deleted so the stored hash
    stays. *)
Definition updatePassword (sheetName : string) (data : obj) : result obj :=
  if String.eqb sheetName "Users" then
    if JS.truthy (JS.get data "password") then
      match JS.positive (length_of (JS.get data "password")) with
      | Ok true =>
          match hashValue (JS.get data "password") with
          | Ok h => Ok (<["password" := VStr h]> data)
          | Throw m => Throw m
          end
      | Ok false => Ok (delete "password" data)
      | Throw m => Throw m
      end
    else Ok (delete "password" data)
  else Ok data.

(** The password of a new user. *)
Definition newPassword (sheetName : string) (record : obj) : result obj :=
  if String.eqb sheetName "Users" && JS.truthy (JS.get record "password") then
    match hashValue (JS.get record "password") with
    | Ok h => Ok (<["password" := VStr h]> record)
    | Throw m => Throw m
    end
  else Ok record.

(** The message of the error [throw new Error(`Record with ID ${id} not
    found in ${sheetName}.`)] throws: that of the Error or, for an id that
    has no text, that of the TypeError the template throws. *)
Definition not_found_in (id : value) (sheetName : string) : string :=
  if JS.convertible id
  then "Record with ID " +:+ JS.ToString id +:+ " not found in " +:+ sheetName +:+ "."
  else JS.cannot_convert.

(** The [try] block of [addOrUpdateRecord]. *)
Definition addOrUpdateRecord_body (e : env) (sheetName : string) (data : obj)
    (id : value) : M obj :=
  let* ss := getDB e in
  let* found := getSheetByName ss sheetName in
  match found with
  | None => throw null_sheet_error
  | Some sh =>
      if getLastColumn sh =? 0 then throw empty_range_error
      else
        let hs := headers sh in
        if JS.truthy id then
          let* dataToUpdate := lift (updatePassword sheetName data) in
          let dataObjects := sheetObjects sh in
          match findIndex (has_id id) dataObjects with
          | Some i =>
              let updatedData :=
                JS.spread (default ∅ (dataObjects !! i)) dataToUpdate in
              let* _ := setValues ss sheetName sh i (prepareRow hs updatedData) in
              ret updatedData
          | None => throw (not_found_in id sheetName)
          end
        else
          let newId := generateId e in
          let record := <["id" := VStr newId]> data in
          let record :=
            if String.eqb sheetName "Bookings"
            then <["status" := VStr "Booked"]>
                   (<["createdAt" := VStr (Calendar.toISOString (now e))]> record)
            else record in
          let* record := lift (newPassword sheetName record) in
          let* _ := appendRow ss sheetName sh (prepareRow hs record) in
          ret record
  end.

Definition addOrUpdateRecord (e : env) (sheetName : string) (data : obj)
    (id : value) : M obj :=
  let* _ := waitLock in
  try_finally (addOrUpdateRecord_body e sheetName data id) releaseLock.

(** The message of the error [throw new Error(`Record with ID ${id} not
    found.`)] throws, likewise. *)
Definition not_found (id : value) : string :=
  if JS.convertible id
  then "Record with ID " +:+ JS.ToString id +:+ " not found."
  else JS.cannot_convert.

(** The [try] block of [deleteRecord]: [sheetDataToObject] answers the empty
    list for a missing sheet, so the record is then not found. *)
Definition deleteRecord_body (e : env) (sheetName : string) (id : value) : M unit :=
  let* ss := getDB e in
  let* found := getSheetByName ss sheetName in
  let dataObjects := sheetDataToObject found in
  match found, findIndex (has_id id) dataObjects with
  | Some sh, Some i => deleteRow ss sheetName sh i
  | _, _ => throw (not_found id)
  end.

Definition deleteRecord (e : env) (sheetName : string) (id : value) : M unit :=
  let* _ := waitLock in
  try_finally (deleteRecord_body e sheetName id) releaseLock.

(** *** Bookings *)

(** The test of [addBooking]'s [find]: an active booking of the same
    classroom and period whose date, in [TIMEZONE], is the requested one;
    the comparisons are made in this order and only as far as needed. *)
Definition conflicts (data b : obj) : result bool :=
  match JS.get b "date" with
  | VDate t _ =>
      if JS.strict_eq (VStr (Calendar.format_yyyy_MM_dd TIMEZONE t)) (JS.get data "date")
         && JS.strict_eq (JS.get b "classroom") (JS.get data "classroom")
      then
        match JS.loose_eq (JS.get b "period") (JS.get data "period") with
        | Ok true => Ok (negb (JS.includes terminal_statuses (JS.get b "status")))
        | Ok false => Ok false
        | Throw m => Throw m
        end
      else Ok false
  | _ => Ok false
  end.

Definition addBooking (e : env) (data : obj) : M obj :=
  let* ss := getDB e in
  let* sh := getSheetByName ss "Bookings" in
  let allBookings := sheetDataToObject sh in
  let* conflict := lift (find_result (conflicts data) allBookings) in
  match conflict with
  | Some _ => throw "Booking conflict"
  | None => addOrUpdateRecord e "Bookings" data VNull
  end.

Definition updateBooking (e : env) (id : value) (data : obj) : M obj :=
  addOrUpdateRecord e "Bookings" data id.

Definition deleteBooking (e : env) (id : value) : M unit :=
  deleteRecord e "Bookings" id.

Definition confirmReturn (e : env) (bookingId adminName : value) : M obj :=
  addOrUpdateRecord e "Bookings"
    (<["status" := VStr "Returned"]>
       (<["returnedAt" := VStr (Calendar.toISOString (now e))]>
          (<["returnedBy" := adminName]> ∅)))
    bookingId.

Definition cancelBooking (e : env) (bookingId : value) : M obj :=
  let* ss := getDB e in
  let* sh := getSheetByName ss "Bookings" in
  let bookings := sheetDataToObject sh in
  match find (has_id bookingId) bookings with
  | None => throw "Booking not found"
  | Some booking =>
      if negb (JS.strict_eq (JS.get booking "status") (VStr "Booked"))
      then throw "Cannot cancel a booking that is already in use or completed."
      else addOrUpdateRecord e "Bookings" (<["status" := VStr "Not Used"]> ∅) bookingId
  end.

(** *** Users, classrooms and equipment *)

Definition addUser (e : env) (data : obj) : M obj :=
  addOrUpdateRecord e "Users" data VNull.
Definition updateUser (e : env) (id : value) (data : obj) : M obj :=
  addOrUpdateRecord e "Users" data id.
Definition deleteUser (e : env) (id : value) : M unit := deleteRecord e "Users" id.

Definition addClassroom (e : env) (data : obj) : M obj :=
  addOrUpdateRecord e "Classrooms" data VNull.
Definition updateClassroom (e : env) (id : value) (data : obj) : M obj :=
  addOrUpdateRecord e "Classrooms" data id.
Definition deleteClassroom (e : env) (id : value) : M unit :=
  deleteRecord e "Classrooms" id.

Definition addEquipment (e : env) (data : obj) : M obj :=
  addOrUpdateRecord e "Equipment" data VNull.
Definition updateEquipment (e : env) (id : value) (data : obj) : M obj :=
  addOrUpdateRecord e "Equipment" data id.
Definition deleteEquipment (e : env) (id : value) : M unit :=
  deleteRecord e "Equipment" id.

(** *** Reporting *)

Definition filterIf (given : value) (p : obj -> bool) (data : list obj) : list obj :=
  if JS.truthy given then List.filter p data else data.

Definition getReportData (e : env) (filters : obj) : M (list obj) :=
  let* data := getBookingsWithStatus e in
  if negb (JS.convertible (JS.get filters "startDate"))
     || negb (JS.convertible (JS.get filters "endDate"))
  then throw JS.cannot_convert
  else
    let data :=
      filterIf (JS.get filters "startDate")
        (fun b => JS.truthy (JS.get b "date")
                  && JS.ge (JS.newDate e (JS.get b "date"))
                           (JS.newDate e (JS.get filters "startDate"))) data in
    let data :=
      filterIf (JS.get filters "endDate")
        (fun b => JS.truthy (JS.get b "date")
                  && JS.le (JS.newDate e (JS.get b "date"))
                           (JS.newDate e (JS.get filters "endDate"))) data in
    let data :=
      filterIf (JS.get filters "program")
        (fun b => JS.strict_eq (JS.get b "program") (JS.get filters "program")) data in
    let data :=
      filterIf (JS.get filters "teacherId")
        (fun b => JS.strict_eq (JS.get b "userId") (JS.get filters "teacherId")) data in
    let data :=
      filterIf (JS.get filters "equipmentId")
        (fun b => match JS.get b "equipment" with
                  | VArr l => JS.array_includes l (JS.get filters "equipmentId")
                  | _ => false
                  end) data in
    ret data.

(** ** The front end: where the web-app URL is kept and looked up *)

Module Frontend.

(** The browser's [localStorage]. *)
Abbreviation storage := (gmap string string).

Definition script_url_prefix : string := "https://script.google.com/macros/s/".

(** The key [GoogleSheetService.getScriptUrl] reads. *)
Definition service_key : string :=
  "https://script.google.com/macros/s/AKfycbwWPYD-ZtPi61mPOZtMPlJl-elP1tFIRVbrNtGRusqCIBE0bSRZt3BMd0NyL5Yf0OI8/exec".

(** The key the setup page writes and [App] checks. *)
Definition setup_key : string := "google_script_url".

Definition not_configured : string :=
  "Google Apps Script URL is not configured. Please complete the setup.".

(** [GoogleSheetService.getScriptUrl]. *)
Definition getScriptUrl (ls : storage) : result string :=
  match ls !! service_key with
  | Some (String c url) => Ok (String c url)
  | _ => Throw not_configured
  end.

(** [handleSaveUrl] of the connection setup page, for the text [scriptUrl]
    of its input field: the storage after it. *)
Definition handleSaveUrl (scriptUrl : string) (ls : storage) : storage :=
  if Text.nonempty scriptUrl && Text.starts_with script_url_prefix scriptUrl
  then <[setup_key := scriptUrl]> ls
  else ls.

(** Whether [handleSaveUrl] accepted the URL (the success dialog, then the
    reload). *)
Definition setupAccepted (scriptUrl : string) : bool :=
  Text.nonempty scriptUrl && Text.starts_with script_url_prefix scriptUrl.

(** [App]'s effect: [isUrlSet]. *)
Definition isUrlSet (ls : storage) : bool :=
  match ls !! setup_key with
  | Some (String _ _) => true
  | _ => false
  end.

Inductive httpMethod : Type := GET | POST.

(** What [fetch] and the decoding of its answer give for a request: the
    [data] of a successful answer, or the error thrown. *)
Definition network := string -> httpMethod -> string -> obj -> result value.

(** [GoogleSheetService.apiRequest]. *)
Definition apiRequest (net : network) (ls : storage) (method : httpMethod)
    (action : string) (paramsOrPayload : obj) : result value :=
  match getScriptUrl ls with
  | Throw e => Throw e
  | Ok url => net url method action paramsOrPayload
  end.

(** The methods that pass the outcome of [apiRequest] on. *)
Definition passing_methods : list (httpMethod * string) :=
  [ (POST, "authenticate"); (GET, "getEquipment"); (GET, "getClassroomsByProgram");
    (GET, "getAllClassrooms"); (GET, "getBookingsWithStatus");
    (GET, "getBookingsByDate"); (POST, "confirmReturn"); (POST, "getReportData");
    (GET, "getUsers"); (POST, "addUser"); (POST, "updateUser"); (POST, "deleteUser");
    (POST, "addClassroom"); (POST, "updateClassroom"); (POST, "deleteClassroom");
    (POST, "addEquipment"); (POST, "updateEquipment"); (POST, "deleteEquipment") ].

(** The methods that catch the error and answer [{ success: false }]. *)
Definition catching_methods : list (httpMethod * string) :=
  [ (POST, "addBooking"); (POST, "updateBooking"); (POST, "deleteBooking");
    (POST, "cancelBooking") ].

(** [addBooking], [updateBooking], [deleteBooking] and [cancelBooking]:
    the [success] flag of their answer. *)
Definition succeeds (net : network) (ls : storage) (action : string)
    (payload : obj) : bool :=
  match apiRequest net ls POST action payload with
  | Ok _ => true
  | Throw _ => false
  end.

End Frontend.

(** ** The specification's notions

    Definitions that follow the words of the specification, to be compared
    with the code above. *)

(** The state [st] once the execution has opened the spreadsheet [ss]. *)
Definition with_opened (ss : string) (st : state) : state :=
  State (properties st) (drive st) (spreadsheets st) (Some ss) (lockHeld st) (trace st).

(** The database is set up as the spreadsheet [ss]: this execution has
    opened it, or the properties name it and say the set-up is done. *)
Definition ready (st : state) (ss : string) : Prop :=
  is_Some (spreadsheets st !! ss)
  /\ (opened st = Some ss
      \/ (opened st = None /\ set_up st = true
          /\ properties st !! "SPREADSHEET_ID" = Some ss)).

(** The state a locked operation leaves: the spreadsheet [ss] opened, its
    sheets [d], the lock released, and the trace grown by the lock events
    around [writes]. *)
Definition after_lock (ss : string) (d : database) (st : state) (writes : list event)
    : state :=
  State (properties st) (drive st) (<[ss := d]> (spreadsheets st)) (Some ss) false
        (trace st ++ EvWaitLock :: writes ++ [EvReleaseLock]).

(** The record [addOrUpdateRecord] builds for a new booking. *)
Definition new_booking (e : env) (data : obj) : obj :=
  <["status" := VStr "Booked"]>
    (<["createdAt" := VStr (Calendar.toISOString (now e))]>
       (<["id" := VStr (generateId e)]> data)).

(** The properties [confirmReturn] sets. *)
Definition returned (e : env) (adminName : value) (b : obj) : obj :=
  <["status" := VStr "Returned"]>
    (<["returnedAt" := VStr (Calendar.toISOString (now e))]>
       (<["returnedBy" := adminName]> b)).

(** ** Well-formed sheets *)

(** The spreadsheet as [ensureDatabaseInitialized] leaves it: every sheet of
    [DB_CONFIG] is there, under its headers. *)
Definition initialized (d : database) : Prop :=
  forall name hs, (name, hs) ∈ DB_CONFIG ->
    exists sh, d !! name = Some sh /\ headers sh = hs.

(** What a cell holds when read: text, a number, a boolean or a date. *)
Definition storable (v : value) : Prop :=
  match v with
  | VStr _ | VNum _ | VBool _ | VDate _ _ => True
  | _ => False
  end.

(** An equipment cell as the backend writes it: empty, or a text that reads
    as a list of ids. *)
Definition equipment_readable (c : value) : Prop :=
  JS.truthy c = false \/ exists l, readCell "equipment" c = VArr (strings l).

(** A data row under the headers [hs]: one storable cell for each header,
    the equipment cell readable. *)
Definition wellformed_row (hs : list string) (row : list value) : Prop :=
  length row = length hs
  /\ Forall storable row
  /\ forall k c, hs !! k = Some "equipment" -> row !! k = Some c ->
                 equipment_readable c.

(** [x] is the first element of [l] that satisfies [p], at position [i]. *)
Definition first_at {A} (p : A -> bool) (l : list A) (i : nat) (x : A) : Prop :=
  l !! i = Some x /\ p x = true
  /\ forall j y, (j < i)%nat -> l !! j = Some y -> p y = false.

Module Spec.

(** The fixed windows of the periods, start and end as hours and minutes:
    1: 08:40-09:40, 2: 09:40-10:40, 3: 10:40-11:40, 4: 12:40-13:40,
    5: 13:40-14:40, 6: 14:50-15:50. *)
Definition window (p : Z) : option ((Z * Z) * (Z * Z)) :=
  match p with
  | 1 => Some ((8, 40), (9, 40))
  | 2 => Some ((9, 40), (10, 40))
  | 3 => Some ((10, 40), (11, 40))
  | 4 => Some ((12, 40), (13, 40))
  | 5 => Some ((13, 40), (14, 40))
  | 6 => Some ((14, 50), (15, 50))
  | _ => None
  end.

(** At or after the window start and at or before the window end. *)
Definition within (current : Z) (startTime endTime : option Z) : Prop :=
  exists s f, startTime = Some s /\ endTime = Some f /\ s <= current <= f.

(** Strictly after the window end. *)
Definition after (current : Z) (endTime : option Z) : Prop :=
  exists f, endTime = Some f /\ f < current.

(** A status that is one of Returned, Not Used, Cancelled. *)
Definition terminal (status : value) : Prop :=
  status = VStr "Returned" \/ status = VStr "Not Used" \/ status = VStr "Cancelled".



(** The stored booking [b] is of the same classroom, the same period and
    the same date as the request [data] and its status is not one of
    Returned, Not Used, Cancelled.  The classroom is compared as [===]
    does and the period as [==] does, and the stored date, a date cell, by
    its calendar day in [TIMEZONE] written yyyy-MM-dd. *)
Definition conflicting (data b : obj) : Prop :=
  JS.strict_eq (JS.get b "classroom") (JS.get data "classroom") = true
  /\ JS.loose_eq (JS.get b "period") (JS.get data "period") = Ok true
  /\ (exists t text, JS.get b "date" = VDate t text
                /\ JS.get data "date" = VStr (Calendar.format_yyyy_MM_dd TIMEZONE t))
  /\ ~ terminal (JS.get b "status").

(** A booking whose status is outside Returned, Not Used, Cancelled. *)
Definition active (b : obj) : Prop := ~ terminal (JS.get b "status").

(** Two bookings of the same (classroom, date, period). *)
Definition same_slot (a b : obj) : Prop :=
  JS.get a "classroom" = JS.get b "classroom"
  /\ JS.get a "date" = JS.get b "date"
  /\ JS.get a "period" = JS.get b "period".

(** At most one active booking for any (classroom, date, period). *)
Definition slot_invariant (bookings : list obj) : Prop :=
  forall i j a b,
    bookings !! i = Some a -> bookings !! j = Some b -> i <> j ->
    active a -> active b -> ~ same_slot a b.

(** Whether every write of a trace happens while the script lock is held,
    the lock being [held] at its start. *)
Fixpoint writes_locked (held : bool) (t : list event) : bool :=
  match t with
  | [] => true
  | EvWaitLock :: t' => writes_locked true t'
  | EvReleaseLock :: t' => writes_locked false t'
  | (EvAppendRow _ _ | EvSetValues _ _ _ | EvSetRows _ _ | EvDeleteRow _ _) :: t' =>
      held && writes_locked held t'
  | _ :: t' => writes_locked held t'
  end.

End Spec.

(** ** Sample data: a small school *)

Module Sample.

Definition database_of (users bookings : list (list value)) : database :=
  <["Users" := Sheet (config_headers "Users") users]>
    (<["Bookings" := Sheet (config_headers "Bookings") bookings]>
       (<["Classrooms" := Sheet (config_headers "Classrooms")
                            [[VStr "room-1"; VStr "Thai Programme"; VStr "ป.1/1"; VStr "P.1/1"]]]>
          (<["Equipment" := Sheet (config_headers "Equipment")
                              [[VStr "eq-1"; VStr "โปรเจคเตอร์"; VStr "Projector"]]]> ∅))).

Definition spreadsheet1 : string := "1sEdB-7Qx0aVnW3kTq9uYp2Lr5Zc8HfJm4Go6Nb1Xy".

(** A database that is set up, before an execution starts. *)
Definition state_of (users bookings : list (list value)) : state :=
  State (<["DB_INITIALIZED" := "true"]> (<["SPREADSHEET_ID" := spreadsheet1]> ∅))
        [(spreadsheet1, SPREADSHEET_NAME)]
        (<[spreadsheet1 := database_of users bookings]> ∅)
        None false [].

(** A script that has never run, with no spreadsheet of the name in the
    Drive. *)
Definition first_run : state := State ∅ [] ∅ None false [].

(** 2024-01-15T00:00 in Bangkok, the cell of a booking dated 2024-01-15. *)
Definition jan15 : Z := 1705251600000.
(** 2024-01-16T00:00 in Bangkok. *)
Definition jan16 : Z := 1705338000000.

(** A date cell as a script in Bangkok's time zone reads it. *)
Definition date_cell (t : Z) : value :=
  VDate t (Calendar.dateText Calendar.Asia_Bangkok "Indochina Time" t).

Definition booking_row (id classroom : string) (period : value) (date : Z)
    (equipment : list string) (status createdAt : string) : list value :=
  [ VStr id; VStr "user-7"; VStr "Booking"; VStr "Kru Mali"; VStr "Thai Programme";
    VStr classroom; period; date_cell date; VStr (JSON.stringify (strings equipment));
    VStr "Science 3"; VStr status; VStr createdAt; VStr ""; VStr "" ].


Definition uuid1 : string := "3f2b8c1e-5d4a-4e6f-9a7b-0c1d2e3f4a5b".

(** An execution at the instant [t], the script in Bangkok's time zone. *)
Definition at_time (t : Z) : env :=
  Env t Calendar.Asia_Bangkok uuid1 spreadsheet1 (fun _ => None).

(** An execution on 2024-01-15 at 09:00 in Bangkok: within period 1. *)
Definition morning : env := at_time 1705284000000.
(** An execution on 2024-01-15 at 16:30 in Bangkok: after every period. *)
Definition evening : env := at_time 1705311000000.
(** An execution on 2024-01-14 at 20:00 in Bangkok: the evening before. *)
Definition eve : env := at_time 1705237200000.


Definition one_booking : list (list value) :=
  [ booking_row "b-1" "room-1" (VNum 1) jan15 ["eq-1"] "Booked" "2024-01-10T02:00:00.000Z" ].

Definition two_bookings : list (list value) :=
  [ booking_row "b-1" "room-1" (VNum 1) jan15 ["eq-1"] "Booked" "2024-01-10T02:00:00.000Z";
    booking_row "b-2" "room-1" (VNum 2) jan15 ["eq-1"] "Booked" "2024-01-11T02:00:00.000Z" ].

(** The request of the booking form for room-1, period 1 on 2024-01-15. *)
Definition request (classroom : string) (period : Z) (date : string) : obj :=
  <["userId" := VStr "user-7"]> (<["type" := VStr "Booking"]>
  (<["teacherName" := VStr "Kru Mali"]> (<["program" := VStr "Thai Programme"]>
  (<["classroom" := VStr classroom]> (<["period" := VNum period]>
  (<["date" := VStr date]> (<["equipment" := VArr (strings ["eq-1"])]>
  (<["learningPlan" := VStr "Science 3"]> ∅)))))))).

End Sample.
Example of_Z_samples :
  Text.of_Z 0 = "0" /\ Text.of_Z 2024 = "2024" /\ Text.of_Z (-15) = "-15"
  /\ Text.pad 2 7 = "07" /\ Text.pad 4 33 = "0033" /\ Text.pad 2 123 = "123".
Proof. repeat split; reflexivity. Qed.

Example text_samples :
  Text.trim "  a b " = "a b"
  /\ Text.split_on "," "a, b,,c" "" = ["a"; " b"; ""; "c"]
  /\ Text.nat_literal "0042" = Some 42 /\ Text.nat_literal "4x" = None.
Proof. repeat split; reflexivity. Qed.

(** ** Decimal numerals *)

Section Numerals.

Lemma append_cons (x : ascii) (a b : string) :
  String x a +:+ b = String x (a +:+ b).
Proof. reflexivity. Qed.

Lemma append_nil (b : string) : "" +:+ b = b.
Proof. reflexivity. Qed.

Lemma append_nonempty_l (a b : string) : a ≠ "" -> a +:+ b ≠ "".
Proof. destruct a; [congruence | rewrite append_cons; discriminate]. Qed.

Lemma append_assoc (a b c : string) : (a +:+ b) +:+ c = a +:+ (b +:+ c).
Proof.
  induction a as [|x a IH]; [reflexivity |].
  rewrite !append_cons. now rewrite IH.
Qed.

(** [dec_digits] only puts digits in front of its accumulator, and at
    least one when it has fuel. *)
Lemma dec_digits_prefix (f : nat) (n : Z) (acc : string) :
  exists pre, Text.dec_digits f n acc = pre +:+ acc /\ (f ≠ O -> pre ≠ "").
Proof.
  revert n acc. induction f as [|f IH]; intros n acc; simpl.
  - exists "". split; [reflexivity | congruence].
  - destruct (n / 10 =? 0).
    + exists (String (Text.digit_char n) ""). split; [reflexivity | discriminate].
    + destruct (IH (n / 10) (String (Text.digit_char n) acc)) as (pre & Hpre & _).
      rewrite Hpre.
      exists (pre +:+ String (Text.digit_char n) ""). split.
      * now rewrite append_assoc.
      * intros _. clear. destruct pre; discriminate.
Qed.

Lemma of_nat_Z_nonempty (n : Z) : Text.of_nat_Z n ≠ "".
Proof.
  unfold Text.of_nat_Z.
  destruct (dec_digits_prefix (S (Z.to_nat (Z.log2 n))) n "") as (pre & Hpre & Hne).
  rewrite Hpre.
  apply append_nonempty_l, Hne. discriminate.
Qed.

(** A numeral of one character is a digit's. *)
Lemma of_Z_one_char (p : Z) (c : ascii) :
  Text.of_Z p = String c "" -> 0 <= p <= 9.
Proof.
  unfold Text.of_Z. destruct (Z.ltb_spec p 0) as [Hneg | Hpos].
  - rewrite append_cons, append_nil. intros [= _ H]. now apply of_nat_Z_nonempty in H.
  - unfold Text.of_nat_Z. simpl Text.dec_digits.
    destruct (Z.eqb_spec (p / 10) 0) as [Hq | Hq].
    + intros _. split; [exact Hpos |].
      destruct (Z.le_gt_cases p 9) as [|Hbig]; [assumption |].
      assert (1 <= p / 10) by (apply Z.div_le_lower_bound; lia). lia.
    + assert (Hp : 10 <= p).
      { destruct (Z.le_gt_cases 10 p); [assumption |].
        exfalso. apply Hq. apply Z.div_small. lia. }
      assert (Hlog : 3 <= Z.log2 p).
      { change 3 with (Z.log2 8). apply Z.log2_le_mono. lia. }
      destruct (Z.to_nat (Z.log2 p)) as [|k] eqn:Hk; [lia |].
      destruct (dec_digits_prefix (S k) (p / 10) (String (Text.digit_char p) ""))
        as (pre & Hpre & Hne).
      rewrite Hpre.
      specialize (Hne ltac:(discriminate)).
      destruct pre as [|a pre]; [congruence |].
      rewrite append_cons. intros [= _ H]. destruct pre; discriminate H.
Qed.

End Numerals.

Example calendar_samples :
  Calendar.days_from_civil 1970 1 1 = 0
  /\ Calendar.days_from_civil 2024 1 15 = 19737
  /\ Calendar.civil_from_days 19737 = (2024, 1, 15)
  /\ Calendar.civil_from_days (-1) = (1969, 12, 31)
  /\ Calendar.civil_from_days 11016 = (2000, 2, 29).
Proof. repeat split; reflexivity. Qed.

Example iso_samples :
  Calendar.toISOString 1705251600000 = "2024-01-14T17:00:00.000Z"
  /\ Calendar.parse "2024-01-15" = Some (Some 1705276800000)
  /\ Calendar.parse "2024-01-14T17:00:00.000Z" = Some (Some 1705251600000)
  /\ Calendar.parse "2024-01-10T00:00:00Z" = Some (Some 1704844800000)
  /\ Calendar.parse "2024-02-30" = Some (Some 1709251200000)
  /\ Calendar.parse "2024-13-01" = Some None
  /\ Calendar.parse "15/01/2024" = None
  /\ Calendar.format_yyyy_MM_dd TIMEZONE 1705251600000 = "2024-01-15"
  /\ Calendar.newDateLocal TIMEZONE 2024 0 15 8 40 = Some 1705282800000.
Proof. repeat split; vm_compute; reflexivity. Qed.

(** Bangkok's clocks before and after 1 April 1920. *)
Example zone_samples :
  Calendar.dateText TIMEZONE "Indochina Time" 1705251600000
  = "Mon Jan 15 2024 00:00:00 GMT+0700 (Indochina Time)"
  /\ Calendar.dateText TIMEZONE "Indochina Time" (-1600000000000)
     = "Sun Apr 20 1919 18:15:24 GMT+0642 (Indochina Time)"
  /\ Calendar.format_yyyy_MM_dd TIMEZONE (-1577947324000) = "1920-01-01"
  /\ Calendar.newDateLocal TIMEZONE 1920 0 1 0 0 = Some (-1577947324000)
  /\ Calendar.format_yyyy_MM_dd TIMEZONE (-1570084924001) = "1920-03-31"
  /\ Calendar.format_yyyy_MM_dd TIMEZONE (-1570084924000) = "1920-04-01"
  /\ Calendar.newDateLocal TIMEZONE 1920 3 1 0 10 = Some (-1570084324000).
Proof. repeat split; vm_compute; reflexivity. Qed.

(** ** The calendar: a day number is the day number of its date *)

Section CalendarRoundTrip.

(** A check run over the numbers below [n]. *)
Lemma range_check (ok : Z -> bool) (n : positive) :
  snd (Pos.iter (fun s => (fst s + 1, snd s && ok (fst s))) (0, true) n) = true ->
  forall z, 0 <= z < Z.pos n -> ok z = true.
Proof.
  set (f := fun s : Z * bool => (fst s + 1, snd s && ok (fst s))).
  assert (Hinv : fst (Pos.iter f (0, true) n) = Z.pos n
                 /\ (snd (Pos.iter f (0, true) n) = true ->
                     forall z, 0 <= z < Z.pos n -> ok z = true)).
  { induction n as [|n [IHfst IHsnd]] using Pos.peano_ind.
    - simpl. split; [reflexivity |]. intros H z Hz.
      replace z with 0 by lia. exact H.
    - rewrite Pos.iter_succ. unfold f at 1 3. cbn [fst snd]. rewrite IHfst.
      split; [lia |]. intros H z Hz. apply andb_prop in H as [Hn Hlast].
      destruct (Z.eq_dec z (Z.pos n)) as [-> | Hne]; [exact Hlast |].
      apply IHsnd; [exact Hn | lia]. }
  exact (proj2 Hinv).
Qed.

(** The day of an era (of 400 years, 146097 days) determines the year of
    the era, the month and the day, and these give the day of the era back:
    checked day by day. *)
Lemma day_of_era (doe : Z) :
  0 <= doe < 146097 ->
  let yoe := (doe - doe / 1460 + doe / 36524 - doe / 146096) / 365 in
  let doy := doe - (365 * yoe + yoe / 4 - yoe / 100) in
  let mp := (5 * doy + 2) / 153 in
  let d := doy - (153 * mp + 2) / 5 + 1 in
  0 <= yoe <= 399
  /\ 0 <= mp <= 11
  /\ 1 <= d <= 31
  /\ yoe * 365 + yoe / 4 - yoe / 100 + ((153 * mp + 2) / 5 + d - 1) = doe.
Proof.
  intros Hdoe.
  pose (ok := fun doe : Z =>
    let yoe := (doe - doe / 1460 + doe / 36524 - doe / 146096) / 365 in
    let doy := doe - (365 * yoe + yoe / 4 - yoe / 100) in
    let mp := (5 * doy + 2) / 153 in
    let d := doy - (153 * mp + 2) / 5 + 1 in
    (0 <=? yoe) && (yoe <=? 399) && (0 <=? mp) && (mp <=? 11)
    && (1 <=? d) && (d <=? 31)
    && (yoe * 365 + yoe / 4 - yoe / 100 + ((153 * mp + 2) / 5 + d - 1) =? doe)).
  assert (Hall : ok doe = true).
  { apply (range_check ok 146097); [vm_compute; reflexivity | exact Hdoe]. }
  unfold ok in Hall. cbv zeta in Hall |- *.
  repeat (apply andb_prop in Hall as [Hall ?]). lia.
Qed.

Lemma days_from_civil_day (y m d : Z) :
  Calendar.days_from_civil y m d = Calendar.days_from_civil y m 1 + d - 1.
Proof. unfold Calendar.days_from_civil. cbv zeta. lia. Qed.

(** The date of a day number: its month is in 1..12, its day in 1..31, and
    its day number is the one it came from. *)
Lemma civil_from_days_spec (z : Z) :
  let '(y, m, d) := Calendar.civil_from_days z in
  1 <= m <= 12 /\ 1 <= d <= 31 /\ Calendar.days_from_civil y m d = z.
Proof.
  unfold Calendar.civil_from_days. cbv zeta.
  set (z' := z + 719468).
  set (era := z' / 146097).
  set (doe := z' - era * 146097).
  assert (Hdoe : 0 <= doe < 146097).
  { subst doe era. Z.div_mod_to_equations. lia. }
  assert (Hz : z = era * 146097 + doe - 719468) by (subst doe z'; lia).
  clearbody doe era. clear z'.
  pose proof (day_of_era doe Hdoe) as H. cbv zeta in H.
  set (yoe := (doe - doe / 1460 + doe / 36524 - doe / 146096) / 365) in *.
  set (doy := doe - (365 * yoe + yoe / 4 - yoe / 100)) in *.
  set (mp := (5 * doy + 2) / 153) in *.
  set (d := doy - (153 * mp + 2) / 5 + 1) in *.
  destruct H as (Hyoe & Hmp & Hd & Hback).
  assert (Hera : (yoe + era * 400) / 400 = era).
  { clearbody yoe. Z.div_mod_to_equations. lia. }
  unfold Calendar.days_from_civil. cbv zeta.
  destruct (mp <? 10) eqn:Emp.
  - apply Z.ltb_lt in Emp.
    destruct (mp + 3 <=? 2) eqn:E1; [apply Z.leb_le in E1; lia |].
    destruct (2 <? mp + 3) eqn:E2; [| apply Z.ltb_ge in E2; lia].
    split; [lia |]. split; [lia |].
    rewrite Hera. replace (mp + 3 - 3) with mp by lia.
    replace (yoe + era * 400 - era * 400) with yoe by lia. lia.
  - apply Z.ltb_ge in Emp.
    destruct (mp - 9 <=? 2) eqn:E1; [| apply Z.leb_gt in E1; lia].
    destruct (2 <? mp - 9) eqn:E2; [apply Z.ltb_lt in E2; lia |].
    split; [lia |]. split; [lia |].
    replace (yoe + era * 400 + 1 - 1) with (yoe + era * 400) by lia.
    rewrite Hera. replace (mp - 9 + 9) with mp by lia.
    replace (yoe + era * 400 - era * 400) with yoe by lia. lia.
Qed.

(** [MakeDay] of the year, month and date of a time is the day of that
    time. *)
Lemma MakeDay_of_time (t : Z) :
  Calendar.MakeDay (Calendar.YearFromTime t) (Calendar.MonthFromTime t)
    (Calendar.DateFromTime t)
  = Calendar.Day t.
Proof.
  unfold Calendar.MakeDay, Calendar.YearFromTime, Calendar.MonthFromTime,
    Calendar.DateFromTime.
  pose proof (civil_from_days_spec (Calendar.Day t)) as H.
  destruct (Calendar.civil_from_days (Calendar.Day t)) as [[y m] d].
  destruct H as (Hm & _ & Hback). cbn [fst snd].
  rewrite (Z.div_small (m - 1) 12), (Z.mod_small (m - 1) 12) by lia.
  rewrite Z.add_0_r. replace (m - 1 + 1) with m by lia.
  rewrite <- days_from_civil_day. exact Hback.
Qed.

End CalendarRoundTrip.

Example sha256_base64_vectors :
  Utilities.base64Encode (Utilities.computeDigest_SHA_256 "abc")
    = "ungWv48Bz+pBQUDeXa4iI7ADYaOWF3qctBD/YfIAFa0="
  /\ Utilities.base64Encode (Utilities.computeDigest_SHA_256 "")
    = "47DEQpj8HBSa+/TImW+5JCeuQeRkm5NMpJWZG3hSuFU="
  /\ Utilities.base64Encode (Utilities.computeDigest_SHA_256 "admin1234")
    = "rJaJ4ickJwheNbnT4+i+2IyzQ0gotDuG/AWWytTG4nA="
  /\ Utilities.base64Encode (Utilities.computeDigest_SHA_256
       "aaaaaaaaaaaaaaaaaaaaaaaaaaaaaaaaaaaaaaaaaaaaaaaaaaaaaaaaaaaaaaaaaaaaaa")
    = "a9XlA0hVoRJB8N7o/HKFD/2ZVbKDR6hkKLX6GRGfatA=".
Proof. repeat split; vm_compute; reflexivity. Qed.

Example loose_eq_samples :
  JS.loose_eq (VNum 3) (VStr "3") = Ok true
  /\ JS.loose_eq (VStr " 3 ") (VNum 3) = Ok true
  /\ JS.loose_eq (VNum 1) (VStr "1.0") = Ok true
  /\ JS.loose_eq (VNum 1) (VStr "0x1") = Ok true
  /\ JS.loose_eq (VNum 1) (VStr "1e0") = Ok true
  /\ JS.loose_eq (VNum 3) (VNum 4) = Ok false
  /\ JS.loose_eq (VStr "3") (VStr "03") = Ok false
  /\ JS.loose_eq (VBool true) (VStr "1") = Ok true
  /\ JS.loose_eq VNull VUndef = Ok true
  /\ JS.loose_eq VNull (VNum 0) = Ok false
  /\ JS.loose_eq (VArr [JStr "3"]) (VNum 3) = Ok true
  /\ JS.loose_eq (VArr [JNum 3]) (VArr [JNum 3]) = Ok false
  /\ JS.loose_eq (VNum 3) (VObj [("toString", JNum 3)]) = Throw JS.cannot_convert
  /\ JS.loose_eq (VStr "[object Object]") (VObj []) = Ok true.
Proof. repeat split; vm_compute; reflexivity. Qed.

Example number_samples :
  Number.to_string (Number.of_Z 1) = "1"
  /\ Number.to_string (Number.of_decimal 15 (-1)) = "1.5"
  /\ Number.to_string (Number.of_decimal 1 21) = "1e+21"
  /\ Number.to_string (Number.of_decimal 1 (-7)) = "1e-7"
  /\ Number.to_string (Number.of_string "0.1") = "0.1"
  /\ Number.of_string " 12 " = Number.of_Z 12
  /\ Number.of_string "" = Number.zero
  /\ Number.of_string "1e400" = Number.Inf false
  /\ Number.of_string "12px" = Number.NaN
  /\ JS.ToString (VArr [JNum 1; JNull; JArr [JStr "a"; JBool true]; JObj []])
     = "1,,a,true,[object Object]".
Proof. repeat split; vm_compute; reflexivity. Qed.

(** JSON texts written and read; [q s] is [s] between double quotes. *)
Example json_samples :
  let q s := String JSON.dquote (s +:+ String JSON.dquote EmptyString) in
  JSON.stringify (strings ["eq-1"; "b\c"]) = "[" +:+ q "eq-1" +:+ "," +:+ q "b\\c" +:+ "]"
  /\ JSON.parse ("[" +:+ q "eq-1" +:+ "," +:+ q "b\\c" +:+ "]")
     = Some (JArr (strings ["eq-1"; "b\c"]))
  /\ JSON.parse (" [ " +:+ q "x" +:+ " , " +:+ q "A\n" +:+ " ] ")
     = Some (JArr (strings ["x"; String "A" (String "010" "")]))
  /\ JSON.parse "[]" = Some (JArr [])
  /\ JSON.parse "[1,2]" = Some (JArr [JNum 1; JNum 2])
  /\ JSON.parse ("{" +:+ q "b" +:+ ":[true,null]," +:+ q "2" +:+ ":-1.5e3}")
     = Some (JObj [("2", JNum (-1500)); ("b", JArr [JBool true; JNull])])
  /\ JSON.parse "a, b" = None
  /\ JSON.parse ("[" +:+ q "a" +:+ ",]") = None
  /\ JSON.parse (q "x") = Some (JStr "x")
  /\ JSON.parse (q "ก😀") = Some (JStr "ก😀")
  /\ JSON.parse "-12" = Some (JNum (-12))
  /\ JSON.parse "012" = None
  /\ JSON.parse " null " = Some JNull
  /\ readCell "equipment" (VStr "[1,2]") = VArr [JNum 1; JNum 2]
  /\ readCell "equipment" (VStr "a, b,,c") = VArr (strings ["a"; "b"; "c"]).
Proof. intros q. repeat split; vm_compute; reflexivity. Qed.

(** ** [JSON.parse] undoes [JSON.stringify] on a list of strings *)

Section JsonRoundTrip.

Lemma string_length_append (a b : string) :
  String.length (a +:+ b) = (String.length a + String.length b)%nat.
Proof.
  induction a as [|x a IH]; [reflexivity |].
  rewrite append_cons. simpl. now rewrite IH.
Qed.

(** One escaped character is read back as that character. *)
Lemma string_chars_escape_char (c : ascii) (r : string) (fuel : nat) :
  JSON.string_chars (S fuel) (JSON.escape_char c +:+ r)
  = JSON.cons_text (String c "") (JSON.string_chars fuel r).
Proof.
  destruct c as [b0 b1 b2 b3 b4 b5 b6 b7].
  destruct b0, b1, b2, b3, b4, b5, b6, b7; reflexivity.
Qed.

Lemma string_chars_escape (s rest : string) (fuel : nat) :
  (String.length s < fuel)%nat ->
  JSON.string_chars fuel (JSON.escape s +:+ String JSON.dquote rest) = Some (s, rest).
Proof.
  revert fuel. induction s as [|c s IH]; intros fuel Hfuel.
  - destruct fuel; [simpl in Hfuel; lia | reflexivity].
  - destruct fuel as [|fuel]; [simpl in Hfuel; lia |].
    cbn [JSON.escape]. rewrite append_assoc, string_chars_escape_char, IH.
    + reflexivity.
    + simpl in Hfuel. lia.
Qed.

Lemma escape_length (s : string) :
  (String.length s <= String.length (JSON.escape s))%nat.
Proof.
  induction s as [|c s IH]; [reflexivity |].
  cbn [JSON.escape]. rewrite string_length_append.
  assert (1 <= String.length (JSON.escape_char c))%nat.
  { destruct c as [b0 b1 b2 b3 b4 b5 b6 b7].
    destruct b0, b1, b2, b3, b4, b5, b6, b7; vm_compute; lia. }
  simpl. lia.
Qed.

(** A quoted string at the head of a text is read back. *)
Lemma string_chars_quoted (x rest : string) :
  JSON.string_chars (String.length (JSON.escape x +:+ String JSON.dquote rest))
    (JSON.escape x +:+ String JSON.dquote rest) = Some (x, rest).
Proof.
  apply string_chars_escape. rewrite string_length_append.
  pose proof (escape_length x). simpl. lia.
Qed.

Lemma quote_append (x rest : string) :
  JSON.quote x +:+ rest
  = String JSON.dquote (JSON.escape x +:+ String JSON.dquote rest).
Proof.
  unfold JSON.quote. rewrite append_cons, append_assoc, append_cons, append_nil.
  reflexivity.
Qed.

Lemma stringify_strings (l : list string) :
  JSON.stringify (strings l) = String "[" (JSON.elems_text l +:+ "]").
Proof.
  unfold JSON.stringify, strings. cbn [JSON.text]. do 2 f_equal.
  induction l as [|x l IH]; [reflexivity |].
  destruct l as [|y l]; [reflexivity |].
  cbn [map] in *. rewrite IH. reflexivity.
Qed.

Lemma value_at_quoted (x rest : string) (fuel : nat) :
  JSON.value_at (S fuel) (JSON.quote x +:+ rest) = Some (JStr x, rest).
Proof.
  rewrite quote_append. cbn [JSON.value_at JSON.skip_ws].
  change (JSON.is_ws JSON.dquote) with false. cbv iota.
  change (Ascii.eqb JSON.dquote JSON.dquote) with true. cbv iota.
  now rewrite string_chars_quoted.
Qed.

Lemma elements_S (fuel : nat) (s : string) :
  JSON.elements (S fuel) s
  = match JSON.value_at fuel s with
    | Some (x, rest) =>
        match JSON.skip_ws rest with
        | String "," rest' =>
            match JSON.elements fuel rest' with
            | Some (xs, r) => Some (x :: xs, r)
            | None => None
            end
        | String "]" rest' => Some ([x], rest')
        | _ => None
        end
    | None => None
    end.
Proof. reflexivity. Qed.

Lemma elements_elems_text (l : list string) (fuel : nat) (rest : string) :
  l <> [] -> (length l < fuel)%nat ->
  JSON.elements fuel (JSON.elems_text l +:+ String "]" rest)
  = Some (strings l, rest).
Proof.
  revert fuel. induction l as [|x l IH]; intros fuel Hne Hfuel; [congruence |].
  destruct fuel as [|fuel]; [simpl in Hfuel; lia |].
  destruct fuel as [|fuel]; [simpl in Hfuel; lia |].
  destruct l as [|y l].
  - cbn [JSON.elems_text]. rewrite elements_S.
    rewrite value_at_quoted. reflexivity.
  - change (JSON.elems_text (x :: y :: l))
      with (JSON.quote x +:+ String "," (JSON.elems_text (y :: l))).
    rewrite append_assoc. rewrite elements_S, value_at_quoted.
    rewrite append_cons. cbn [JSON.skip_ws].
    change (JSON.is_ws ",") with false. cbv iota.
    rewrite IH; [reflexivity | discriminate | simpl in *; lia].
Qed.

Lemma elems_text_length (l : list string) :
  (length l <= String.length (JSON.elems_text l))%nat.
Proof.
  induction l as [|x l IH]; [simpl; lia |].
  destruct l as [|y l].
  - cbn [JSON.elems_text]. unfold JSON.quote. simpl. lia.
  - change (JSON.elems_text (x :: y :: l))
      with (JSON.quote x +:+ String "," (JSON.elems_text (y :: l))).
    rewrite string_length_append. unfold JSON.quote. simpl in *. lia.
Qed.

Lemma elems_text_head (x : string) (l : list string) :
  exists r, JSON.elems_text (x :: l) = String JSON.dquote r.
Proof.
  destruct l as [|y l].
  - cbn [JSON.elems_text]. unfold JSON.quote. eauto.
  - change (JSON.elems_text (x :: y :: l))
      with (JSON.quote x +:+ String "," (JSON.elems_text (y :: l))).
    unfold JSON.quote. rewrite append_cons. eauto.
Qed.

(** The text [JSON.stringify] writes for a list of strings parses back to
    that list. *)
Lemma parse_stringify (l : list string) :
  JSON.parse (JSON.stringify (strings l)) = Some (JArr (strings l)).
Proof.
  destruct l as [|x l]; [reflexivity |].
  rewrite stringify_strings.
  assert (Hlen : (length (x :: l)
                  <= String.length (String "[" (JSON.elems_text (x :: l) +:+ "]")))%nat).
  { change (String.length (String "[" ?s)) with (S (String.length s)).
    rewrite string_length_append.
    pose proof (elems_text_length (x :: l)). lia. }
  unfold JSON.parse. set (n := String.length _) in *.
  replace (2 * n + 2)%nat with (S (S (2 * n))) by lia.
  cbn [JSON.value_at JSON.skip_ws]. change (JSON.is_ws "[") with false. cbv iota.
  change (Ascii.eqb "[" JSON.dquote) with false.
  change (Ascii.eqb "[" "[") with true. cbv iota.
  destruct (elems_text_head x l) as (r & Hr).
  rewrite Hr at 1. rewrite append_cons.
  cbn [JSON.skip_ws]. change (JSON.is_ws JSON.dquote) with false. cbv iota.
  rewrite elements_elems_text; [reflexivity | discriminate | lia].
Qed.

End JsonRoundTrip.

(** A closed, decidable fact, by evaluation. *)
Ltac by_compute := apply (bool_decide_unpack _); vm_compute; exact I.

(** ** [find], [findIndex] and strict equality *)

Section Finding.

Context {A : Type}.
Implicit Types (p : A -> bool) (l : list A).

Lemma findIndex_Some p l i :
  findIndex p l = Some i <-> exists x, first_at p l i x.
Proof.
  revert i. induction l as [|a l IH]; intros i; simpl.
  - split; [discriminate | intros (x & H & _); discriminate H].
  - destruct (p a) eqn:Hpa.
    + split.
      * intros [= <-]. exists a. repeat split; auto. intros j y Hj. lia.
      * intros (x & Hi & Hx & Hfirst). destruct i as [|i]; [reflexivity |].
        specialize (Hfirst O a ltac:(lia) eq_refl). congruence.
    + split.
      * destruct (findIndex p l) as [k|] eqn:Hk; [|discriminate].
        intros [= <-]. destruct (proj1 (IH k) eq_refl) as (x & Hi & Hx & Hfirst).
        exists x. repeat split; auto.
        intros [|j] y Hj Hy; simpl in Hy; [congruence |].
        apply (Hfirst j); [lia | exact Hy].
      * intros (x & Hi & Hx & Hfirst). destruct i as [|i]; simpl in Hi.
        { congruence. }
        assert (findIndex p l = Some i) as ->; [|reflexivity].
        apply IH. exists x. repeat split; auto.
        intros j y Hj Hy. apply (Hfirst (S j)); [lia | exact Hy].
Qed.

Lemma findIndex_None p l :
  findIndex p l = None <-> forall x, x ∈ l -> p x = false.
Proof.
  induction l as [|a l IH]; simpl.
  - split; [intros _ x Hx; inversion Hx | reflexivity].
  - destruct (p a) eqn:Hpa.
    + split; [discriminate |]. intros H. specialize (H a ltac:(left)). congruence.
    + destruct (findIndex p l); simpl.
      * split; [discriminate |]. intros H.
        assert (Some n = None) as Hn; [|discriminate Hn].
        apply IH. intros x Hx. apply H. now right.
      * split; [|reflexivity]. intros _ x Hx.
        apply elem_of_cons in Hx as [-> | Hx]; [assumption |].
        now apply IH.
Qed.

Lemma find_findIndex p l :
  find p l = match findIndex p l with Some i => l !! i | None => None end.
Proof.
  induction l as [|a l IH]; simpl; [reflexivity |].
  destruct (p a); [reflexivity |]. rewrite IH.
  now destruct (findIndex p l).
Qed.

Lemma find_Some p l x :
  find p l = Some x <-> exists i, first_at p l i x.
Proof.
  rewrite find_findIndex. split.
  - destruct (findIndex p l) as [i|] eqn:Hi; [|discriminate].
    intros Hx. exists i. apply findIndex_Some in Hi as (y & Hy).
    destruct Hy as (Hl & Hp & Hfirst). rewrite Hl in Hx.
    injection Hx as <-. repeat split; auto.
  - intros (i & Hfirst).
    assert (findIndex p l = Some i) as -> by (apply findIndex_Some; eauto).
    apply Hfirst.
Qed.

Lemma find_None p l :
  find p l = None <-> forall x, x ∈ l -> p x = false.
Proof.
  rewrite <- findIndex_None, find_findIndex.
  destruct (findIndex p l) as [i|] eqn:Hi; [|tauto].
  apply findIndex_Some in Hi as (x & Hl & _). rewrite Hl. split; discriminate.
Qed.

Lemma find_exists p l :
  (exists x, find p l = Some x) <-> exists x, x ∈ l /\ p x = true.
Proof.
  split.
  - intros (x & (i & Hl & Hp & _)%find_Some). exists x. split; [|assumption].
    apply list_elem_of_lookup. eauto.
  - intros (x & Hx & Hp). destruct (find p l) as [y|] eqn:Hf; [eauto |].
    rewrite find_None in Hf. specialize (Hf x Hx). congruence.
Qed.

End Finding.

Section StrictEquality.

Lemma strict_eq_VStr (v : value) (s : string) :
  JS.strict_eq v (VStr s) = true <-> v = VStr s.
Proof.
  destruct v; simpl; try (split; [discriminate | intros [=]]).
  rewrite String.eqb_eq. split; [now intros -> | now intros [= ->]].
Qed.

Lemma strict_eq_true (x y : value) : JS.strict_eq x y = true -> x = y.
Proof.
  destruct x, y; simpl; try discriminate; try reflexivity.
  - intros H. apply Bool.eqb_prop in H. now subst.
  - unfold Number.eqb. destruct x, x0; try discriminate;
      intros H%bool_decide_eq_true; now rewrite H.
  - intros H%String.eqb_eq. now subst.
Qed.

Lemma strict_eq_truthy (x y : value) :
  JS.strict_eq x y = true -> JS.truthy x = JS.truthy y.
Proof. intros H. now rewrite (strict_eq_true _ _ H). Qed.

End StrictEquality.

(** ** Terminal statuses *)

Section Terminal.

Lemma includes_terminal (v : value) :
  JS.includes terminal_statuses v = true <-> Spec.terminal v.
Proof.
  unfold Spec.terminal, terminal_statuses. destruct v; simpl;
    try (split; [discriminate | intros [H | [H | H]]; discriminate H]).
  rewrite bool_decide_eq_true. rewrite !elem_of_cons, elem_of_nil.
  split.
  - intros [-> | [-> | [-> | []]]]; auto.
  - intros [[= ->] | [[= ->] | [= ->]]]; auto.
Qed.

Lemma includes_not_terminal (v : value) :
  JS.includes terminal_statuses v = false <-> ~ Spec.terminal v.
Proof.
  rewrite <- includes_terminal. destruct (JS.includes _ _); split; congruence.
Qed.

End Terminal.

(** ** Derived status: [calculateBookingStatus] *)

Section DerivedStatus.

Lemma map_result_lookup {A B} (f : A -> result B) (l : list A) (r : list B)
    (i : nat) (x : A) :
  map_result f l = Ok r -> l !! i = Some x ->
  exists y, f x = Ok y /\ r !! i = Some y.
Proof.
  revert r i. induction l as [|a l IH]; intros r i Hr Hi; [discriminate |].
  simpl in Hr. destruct (f a) as [y|] eqn:Ha; [| discriminate].
  destruct (map_result f l) as [ys|] eqn:Hl; [| discriminate].
  injection Hr as <-. destruct i as [|i]; simpl in Hi.
  - injection Hi as <-. eauto.
  - exact (IH ys i eq_refl Hi).
Qed.

Lemma map_result_total {A B} (f : A -> result B) (l : list A) :
  (forall x, x ∈ l -> exists y, f x = Ok y) ->
  exists r, map_result f l = Ok r /\ length r = length l.
Proof.
  induction l as [|a l IH]; intros Hall; [now exists [] |].
  destruct (Hall a ltac:(left)) as [y Hy].
  destruct IH as (ys & Hys & Hlen); [intros x Hx; apply Hall; now right |].
  exists (y :: ys). simpl. rewrite Hy, Hys. split; [reflexivity | now rewrite Hlen].
Qed.

(** [periodTimes] under the text of the key: the window of the
    specification for the numerals 1 to 6, a member of [Object.prototype]
    for the names every object inherits, nothing otherwise. *)
Lemma periodInfo_window (key : value) (p : Z) (start finish : Z * Z) :
  Spec.window p = Some (start, finish) -> JS.ToString key = Text.of_Z p ->
  periodInfo key = Window start finish.
Proof.
  intros Hw Hk. unfold periodInfo. rewrite Hk.
  destruct p as [|[[|[]|]|[[]|[]|]|]|]; try discriminate Hw;
    injection Hw as <- <-; reflexivity.
Qed.

Lemma periodInfo_inherited (key : value) :
  JS.ToString key ∈ JS.inherited -> periodInfo key = Member.
Proof.
  intros Hk. unfold periodInfo.
  assert (Hnone : List.find (fun entry : string * ((Z * Z) * (Z * Z)) =>
                               String.eqb entry.1 (JS.ToString key)) periodTimes = None).
  { unfold JS.inherited in Hk. rewrite !elem_of_cons, elem_of_nil in Hk.
    repeat (destruct Hk as [-> | Hk]; [reflexivity |]). contradiction. }
  rewrite Hnone. now rewrite bool_decide_eq_true_2.
Qed.

Lemma periodInfo_missing (key : value) :
  (forall p, 1 <= p <= 6 -> JS.ToString key <> Text.of_Z p) ->
  JS.ToString key ∉ JS.inherited -> periodInfo key = Missing.
Proof.
  intros Hp Hk. unfold periodInfo, periodTimes. cbn [List.find fst].
  destruct (String.eqb_spec "1" (JS.ToString key)) as [E|_];
    [symmetry in E; now apply (Hp 1) in E |].
  destruct (String.eqb_spec "2" (JS.ToString key)) as [E|_];
    [symmetry in E; now apply (Hp 2) in E |].
  destruct (String.eqb_spec "3" (JS.ToString key)) as [E|_];
    [symmetry in E; now apply (Hp 3) in E |].
  destruct (String.eqb_spec "4" (JS.ToString key)) as [E|_];
    [symmetry in E; now apply (Hp 4) in E |].
  destruct (String.eqb_spec "5" (JS.ToString key)) as [E|_];
    [symmetry in E; now apply (Hp 5) in E |].
  destruct (String.eqb_spec "6" (JS.ToString key)) as [E|_];
    [symmetry in E; now apply (Hp 6) in E |].
  now rewrite bool_decide_eq_false_2.
Qed.

Lemma within_spec (n : Z) (s f : option Z) :
  JS.ge (Some n) s && JS.le (Some n) f = true <-> Spec.within n s f.
Proof.
  unfold Spec.within, JS.ge, JS.le. split.
  - destruct s as [s|], f as [f|]; simpl; try discriminate;
      rewrite ?andb_false_r; try discriminate.
    intros [H1 H2]%andb_prop. exists s, f.
    apply Z.leb_le in H1, H2. auto.
  - intros (s' & f' & -> & -> & H1 & H2).
    apply andb_true_intro. split; now apply Z.leb_le.
Qed.

Lemma after_spec (n : Z) (f : option Z) :
  JS.gt (Some n) f = true <-> Spec.after n f.
Proof.
  unfold Spec.after, JS.gt. split.
  - destruct f as [f|]; [|discriminate]. intros H%Z.ltb_lt. eauto.
  - intros (f' & -> & H). now apply Z.ltb_lt.
Qed.

(** What the [map] body does to an active booking with a valid date whose
    period has a window. *)
Lemma bookingStatus_active (e : env) (b : obj) (t : Z) (text : string)
    (start finish : Z * Z) :
  ~ Spec.terminal (JS.get b "status") ->
  JS.get b "date" = VDate t text ->
  periodInfo (JS.get b "period") = Window start finish ->
  exists status,
    bookingStatus e b = Ok (<["status" := VStr status]> b)
    /\ (status = "In Use"
        <-> Spec.within (now e) (timeOnDay e t start) (timeOnDay e t finish))
    /\ (status = "Pending Return" <-> Spec.after (now e) (timeOnDay e t finish))
    /\ (status = "Booked"
        <-> ~ Spec.within (now e) (timeOnDay e t start) (timeOnDay e t finish)
            /\ ~ Spec.after (now e) (timeOnDay e t finish)).
Proof.
  intros Hact Hdate Hper. unfold bookingStatus.
  apply includes_not_terminal in Hact. rewrite Hact, Hdate, Hper.
  pose proof (within_spec (now e) (timeOnDay e t start) (timeOnDay e t finish)) as Hw.
  pose proof (after_spec (now e) (timeOnDay e t finish)) as Ha.
  assert (Hexcl : Spec.within (now e) (timeOnDay e t start) (timeOnDay e t finish) ->
                  ~ Spec.after (now e) (timeOnDay e t finish)).
  { intros (s & f & _ & Hf & _ & Hle) (f' & Hf' & Hlt). rewrite Hf in Hf'.
    injection Hf' as <-. lia. }
  destruct (JS.ge _ _ && JS.le _ _) eqn:Hin.
  - exists "In Use". split; [reflexivity |].
    assert (Hyes := proj1 Hw eq_refl).
    repeat split; try discriminate; try tauto.
  - assert (Hno : ~ Spec.within (now e) (timeOnDay e t start) (timeOnDay e t finish)).
    { intros H. apply Hw in H. discriminate. }
    destruct (JS.gt _ _) eqn:Hgt.
    + exists "Pending Return". split; [reflexivity |].
      assert (Hyes := proj1 Ha eq_refl).
      repeat split; try discriminate; try tauto.
    + assert (Hno' : ~ Spec.after (now e) (timeOnDay e t finish)).
      { intros H. apply Ha in H. discriminate. }
      exists "Booked". split; [reflexivity |].
      repeat split; try discriminate; try tauto.
Qed.

Lemma bookingStatus_terminal (e : env) (b : obj) :
  Spec.terminal (JS.get b "status") -> bookingStatus e b = Ok b.
Proof.
  intros H. apply includes_terminal in H. unfold bookingStatus. now rewrite H.
Qed.

(** C4. For a booking whose stored status is Returned or Not Used the body
    of the [map] in [calculateBookingStatus] returns the booking itself,
    whatever the current time, its date and its period: it never throws
    for it and changes nothing of it.  So whenever [calculateBookingStatus]
    returns, that booking is at its place in the result exactly as it went
    in, and [calculateBookingStatus] does return when the body throws for
    no other booking of the list. *)
Theorem calculateBookingStatus_terminal_unchanged
    (e : env) (bookings : list obj) (i : nat) (b : obj) :
  bookings !! i = Some b ->
  JS.get b "status" = VStr "Returned" \/ JS.get b "status" = VStr "Not Used" ->
  bookingStatus e b = Ok b
  /\ (forall result,
        calculateBookingStatus e bookings = Ok result -> result !! i = Some b)
  /\ ((forall j other, j <> i -> bookings !! j = Some other ->
                       exists r, bookingStatus e other = Ok r) ->
      exists result,
        calculateBookingStatus e bookings = Ok result
        /\ length result = length bookings).
Proof.
  intros Hi Hst.
  assert (Hb : bookingStatus e b = Ok b).
  { apply bookingStatus_terminal. unfold Spec.terminal. tauto. }
  split; [exact Hb |]. split.
  - intros result Hres.
    destruct (map_result_lookup _ _ _ _ _ Hres Hi) as (y & Hy & Hl). congruence.
  - intros Hothers. apply map_result_total. intros x Hx.
    apply list_elem_of_lookup in Hx as [j Hj].
    destruct (decide (j = i)) as [-> | Hne]; [| eauto].
    assert (x = b) as -> by congruence. eauto.
Qed.

(** The start or the end of a window on the day of the booking date [t]:
    so many hours and minutes after the midnight that begins that day in
    the script's time zone, read as a local time there.  (A year 0..99 of
    the date is read by [new Date(y, m, d, h, min)] as 1900 + y.) *)
Lemma timeOnDay_local (e : env) (t : Z) (hm : Z * Z) :
  ~ (0 <= Calendar.getFullYear (scriptTz e) t <= 99) ->
  timeOnDay e t hm
  = Calendar.TimeClip
      (Calendar.UTC (scriptTz e)
         (Calendar.MakeDate (Calendar.Day (Calendar.LocalTime (scriptTz e) t))
            (Calendar.MakeTime hm.1 hm.2 0 0))).
Proof.
  intros Hy. unfold timeOnDay, Calendar.newDateLocal.
  unfold Calendar.getFullYear in *. unfold Calendar.getMonth, Calendar.getDate.
  set (y := Calendar.YearFromTime (Calendar.LocalTime (scriptTz e) t)) in *.
  assert ((0 <=? y) && (y <=? 99) = false) as ->.
  { destruct (0 <=? y) eqn:E1; [| reflexivity].
    destruct (y <=? 99) eqn:E2; [| reflexivity].
    apply Z.leb_le in E1, E2. lia. }
  subst y. now rewrite MakeDay_of_time.
Qed.

(** C2 fails for a period that names a member of [Object.prototype]: the
    booking below is active, its date is a valid date and its period,
    'constructor', is outside 1..6, yet [calculateBookingStatus] does not
    return it unchanged: [periodTimes['constructor']] is the function
    [Object], which is truthy and has no [start], and reading
    [periodInfo.start[0]] throws a TypeError, for the whole list. *)
Theorem calculateBookingStatus_inherited_period_throws :
  let row := Sample.booking_row "b-1" "room-1" (VStr "constructor") Sample.jan15
               ["eq-1"] "Booked" "2024-01-10T02:00:00.000Z" in
  let b := rowObject (config_headers "Bookings") row ∅ in
  let st := Sample.state_of [] (Sample.one_booking ++ [row]) in
  JS.get b "status" = VStr "Booked"
  /\ JS.get b "date" = Sample.date_cell Sample.jan15
  /\ JS.get b "period" = VStr "constructor"
  /\ (forall p, 1 <= p <= 6 -> JS.get b "period" <> VNum p
                               /\ JS.get b "period" <> VStr (Text.of_Z p))
  /\ bookingStatus Sample.morning b = Throw undefined_index_error
  /\ calculateBookingStatus Sample.morning [b] = Throw undefined_index_error
  /\ fst (getBookingsWithStatus Sample.morning st) = Throw undefined_index_error
  /\ fst (getBookingsByDate Sample.morning (VStr "2024-01-15") st)
     = Throw undefined_index_error.
Proof.
  intros row b st.
  assert (Hper : JS.get b "period" = VStr "constructor") by by_compute.
  split; [by_compute |]. split; [by_compute |]. split; [exact Hper |].
  split; [| repeat split; by_compute].
  intros p Hp. rewrite Hper. split; [discriminate |].
  assert (p = 1 \/ p = 2 \/ p = 3 \/ p = 4 \/ p = 5 \/ p = 6) as H by lia.
  destruct H as [-> | [-> | [-> | [-> | [-> | ->]]]]]; discriminate.
Qed.

(** An active booking with a valid date gets its status from the current
    time and the window its period names, on the day of its date: the
    periods 1 to 6, as numbers or as their numerals, name the windows of
    the specification.  A period that names a member of [Object.prototype]
    makes the body throw, and any other period leaves the booking
    unchanged, as does a date that is no date cell. *)
Theorem bookingStatus_windows (e : env) (b : obj) :
  ~ Spec.terminal (JS.get b "status") ->
  (forall t text p start finish,
      JS.get b "date" = VDate t text ->
      Spec.window p = Some (start, finish) ->
      JS.get b "period" = VNum p \/ JS.get b "period" = VStr (Text.of_Z p) ->
      exists status,
        bookingStatus e b = Ok (<["status" := VStr status]> b)
        /\ (status = "In Use"
            <-> Spec.within (now e) (timeOnDay e t start) (timeOnDay e t finish))
        /\ (status = "Pending Return" <-> Spec.after (now e) (timeOnDay e t finish))
        /\ (status = "Booked"
            <-> ~ Spec.within (now e) (timeOnDay e t start) (timeOnDay e t finish)
                /\ ~ Spec.after (now e) (timeOnDay e t finish)))
  /\ (forall t text,
        JS.get b "date" = VDate t text ->
        JS.ToString (JS.get b "period") ∈ JS.inherited ->
        bookingStatus e b = Throw undefined_index_error)
  /\ ((forall p, 1 <= p <= 6 -> JS.ToString (JS.get b "period") <> Text.of_Z p) ->
      JS.ToString (JS.get b "period") ∉ JS.inherited ->
      bookingStatus e b = Ok b)
  /\ ((forall t text, JS.get b "date" <> VDate t text) -> bookingStatus e b = Ok b)
  /\ (forall t hm,
        ~ (0 <= Calendar.getFullYear (scriptTz e) t <= 99) ->
        timeOnDay e t hm
        = Calendar.TimeClip
            (Calendar.UTC (scriptTz e)
               (Calendar.MakeDate (Calendar.Day (Calendar.LocalTime (scriptTz e) t))
                  (Calendar.MakeTime hm.1 hm.2 0 0)))).
Proof.
  intros Hact.
  split; [| split; [| split; [| split; [| apply timeOnDay_local]]]].
  - intros t text p start finish Hdate Hw Hper.
    apply (bookingStatus_active e b t text start finish Hact Hdate).
    apply (periodInfo_window _ p); [assumption |].
    destruct Hper as [-> | ->]; [| reflexivity].
    destruct p as [|[[|[]|]|[[]|[]|]|]|]; try discriminate Hw; reflexivity.
  - intros t text Hdate Hk. unfold bookingStatus.
    apply includes_not_terminal in Hact. rewrite Hact, Hdate.
    now rewrite periodInfo_inherited.
  - intros Hp Hk. unfold bookingStatus.
    destruct (JS.includes _ _); [reflexivity |].
    destruct (JS.get b "date"); try reflexivity.
    now rewrite periodInfo_missing.
  - intros Hdate. unfold bookingStatus.
    destruct (JS.includes _ _); [reflexivity |].
    destruct (JS.get b "date") as [| | | | |t text| |]; try reflexivity.
    now destruct (Hdate t text).
Qed.

End DerivedStatus.

(** ** The setup flow and the service's URL lookup *)

Section SetupFlow.

Import Frontend.

Lemma keys_differ : service_key <> setup_key.
Proof. discriminate. Qed.

Lemma handleSaveUrl_service_key (scriptUrl : string) (ls : storage) :
  handleSaveUrl scriptUrl ls !! service_key = ls !! service_key.
Proof.
  unfold handleSaveUrl. destruct (_ && _); [|reflexivity].
  apply lookup_insert_ne. intros H. now apply keys_differ.
Qed.

Lemma getScriptUrl_handleSaveUrl (scriptUrl : string) (ls : storage) :
  getScriptUrl (handleSaveUrl scriptUrl ls) = getScriptUrl ls.
Proof. unfold getScriptUrl. now rewrite handleSaveUrl_service_key. Qed.

(** C8. [getScriptUrl] reads the key that is the literal URL while the
    setup page stores the configured URL under 'google_script_url', the
    key [App] checks.  So where [getScriptUrl] throws before the setup
    flow it still throws after it, whatever URL was entered: [App] then
    sees a configured URL, yet every request of the service is refused with
    the same error, and the methods that catch it answer success false. *)
Theorem setup_leaves_service_unconfigured
    (net : network) (ls : storage) (scriptUrl : string) :
  getScriptUrl ls = Throw not_configured ->
  let ls' := handleSaveUrl scriptUrl ls in
  getScriptUrl ls' = Throw not_configured
  /\ (setupAccepted scriptUrl = true ->
      ls' !! setup_key = Some scriptUrl /\ isUrlSet ls' = true)
  /\ (forall method action params,
        apiRequest net ls' method action params = Throw not_configured)
  /\ (forall action payload, succeeds net ls' action payload = false).
Proof.
  intros Hbefore ls'.
  assert (Hafter : getScriptUrl ls' = Throw not_configured).
  { subst ls'. now rewrite getScriptUrl_handleSaveUrl. }
  split; [exact Hafter |]. split; [|split].
  - intros Hok. subst ls'. unfold handleSaveUrl, setupAccepted in *.
    rewrite Hok. unfold isUrlSet. rewrite lookup_insert_eq.
    split; [reflexivity |]. destruct scriptUrl; [discriminate Hok | reflexivity].
  - intros method action params. unfold apiRequest. now rewrite Hafter.
  - intros action payload. unfold succeeds, apiRequest. now rewrite Hafter.
Qed.

(** A fresh browser, and the URL of a deployment entered in the setup
    page. *)
Lemma setup_leaves_service_unconfigured_witness :
  let url := "https://script.google.com/macros/s/AKfycbx0/exec" in
  let ls' := handleSaveUrl url ∅ in
  getScriptUrl ls' = Throw not_configured
  /\ isUrlSet ls' = true
  /\ apiRequest (fun _ _ _ _ => Ok VNull) ls' POST "authenticate" ∅
     = Throw not_configured.
Proof.
  pose proof (setup_leaves_service_unconfigured (fun _ _ _ _ => Ok VNull) ∅
                "https://script.google.com/macros/s/AKfycbx0/exec" eq_refl)
    as (H1 & H2 & H3 & _).
  split; [exact H1 |]. split; [exact (proj2 (H2 eq_refl)) | apply H3].
Defined.

End SetupFlow.

(** ** Rows and objects *)

Section Rows.

Lemma strict_eq_spec (x y : value) :
  JS.strict_eq x y = true
  <-> x = y /\ JS.is_object x = false /\ x <> VNum Number.NaN.
Proof.
  split.
  - intros H. pose proof (strict_eq_true _ _ H) as <-.
    split; [reflexivity |].
    destruct x; simpl in *; try discriminate; (split; [reflexivity |]);
      try discriminate.
    intros [= ->]. discriminate.
  - intros (<- & Hx & Hnan).
    destruct x as [| | b | x | s | t text | l | f]; simpl in *;
      try reflexivity; try discriminate.
    + now destruct b.
    + destruct x; [congruence | |]; unfold Number.eqb;
        now rewrite bool_decide_eq_true_2.
    + apply String.eqb_refl.
Qed.

(** A header that is not in [hs] keeps the value it has in [o]. *)
Lemma rowObject_lookup_other (hs : list string) (row : list value) (o : obj) (h : string) :
  h ∉ hs -> rowObject hs row o !! h = o !! h.
Proof.
  revert row o. induction hs as [|h' hs IH]; intros row o Hnot; [reflexivity |].
  simpl. apply not_elem_of_cons in Hnot as [Hne Hnot].
  rewrite IH by assumption.
  destruct (String.eqb h' "__proto__"); [reflexivity | now apply lookup_insert_ne].
Qed.

(** Under distinct headers, the header of column [k] holds the cell of
    column [k] as [readCell] reads it ([undefined] past the end of the
    row). *)
Lemma rowObject_lookup (hs : list string) (row : list value) (o : obj) (k : nat) (h : string) :
  NoDup hs -> "__proto__" ∉ hs -> hs !! k = Some h ->
  rowObject hs row o !! h = Some (readCell h (default VUndef (row !! k))).
Proof.
  revert row o k. induction hs as [|h' hs IH]; intros row o k Hnd Hp Hk; [discriminate |].
  apply NoDup_cons in Hnd as [Hnot Hnd]. apply not_elem_of_cons in Hp as [Hp1 Hp2].
  simpl. destruct (String.eqb_spec h' "__proto__") as [-> | _]; [congruence |].
  destruct k as [|k]; simpl in Hk.
  - injection Hk as ->. rewrite rowObject_lookup_other by assumption.
    rewrite lookup_insert_eq. now destruct row.
  - rewrite (IH _ _ k) by assumption. now destruct row.
Qed.

Lemma rowObject_lookup_None (hs : list string) (row : list value) (h : string) :
  h ∉ hs -> rowObject hs row ∅ !! h = None.
Proof. intros H. now rewrite rowObject_lookup_other. Qed.

Lemma prepareRow_lookup (hs : list string) (record : obj) (k : nat) (h : string) :
  hs !! k = Some h ->
  prepareRow hs record !! k = Some (prepareCell (JS.get record h)).
Proof. intros Hk. unfold prepareRow. now rewrite list_lookup_fmap, Hk. Qed.

(** A written row read back: each header holds what [prepareRow] wrote for
    it, as [readCell] reads it. *)
Lemma rowObject_prepareRow (hs : list string) (record : obj) (h : string) :
  NoDup hs -> "__proto__" ∉ hs ->
  rowObject hs (prepareRow hs record) ∅ !! h
  = if bool_decide (h ∈ hs)
    then Some (readCell h (prepareCell (JS.get record h)))
    else None.
Proof.
  intros Hnd Hproto. case_bool_decide as Hin.
  - apply list_elem_of_lookup in Hin as [k Hk].
    rewrite (rowObject_lookup _ _ _ k) by assumption.
    now rewrite (prepareRow_lookup _ _ _ _ Hk).
  - now apply rowObject_lookup_None.
Qed.

Lemma readCell_other (h : string) (v : value) :
  h <> "equipment" -> readCell h v = v.
Proof.
  intros Hne. unfold readCell.
  destruct (String.eqb_spec h "equipment"); [contradiction | reflexivity].
Qed.

Lemma stringify_nonempty (l : list json) : JSON.stringify l <> "".
Proof. unfold JSON.stringify. cbn [JSON.text]. discriminate. Qed.

Lemma readCell_stringify (l : list string) :
  readCell "equipment" (VStr (JSON.stringify (strings l))) = VArr (strings l).
Proof.
  unfold readCell.
  change (JS.ToString (VStr ?s)) with s. rewrite parse_stringify.
  cbn [String.eqb Ascii.eqb Bool.eqb andb JS.truthy].
  destruct (JSON.stringify (strings l)) eqn:E; [now apply stringify_nonempty in E |].
  reflexivity.
Qed.

(** Reading a cell, writing the value back and reading it again gives the
    value of the first reading. *)
Lemma readCell_stable (h : string) (c : value) :
  storable c -> (h = "equipment" -> equipment_readable c) ->
  readCell h (prepareCell (readCell h c)) = readCell h c.
Proof.
  intros Hc Heq. destruct (decide (h = "equipment")) as [-> | Hne].
  - destruct (Heq eq_refl) as [Hfalsy | [l Hl]].
    + assert (readCell "equipment" c = c) as Hr.
      { unfold readCell. now rewrite Hfalsy, andb_false_r. }
      rewrite Hr. destruct c; simpl in Hc; try contradiction;
        simpl prepareCell; exact Hr.
    + rewrite Hl. simpl prepareCell. apply readCell_stringify.
  - rewrite !readCell_other by assumption.
    now destruct c; simpl in Hc; try contradiction.
Qed.

(** The object of a well-formed row has exactly the headers as its
    properties. *)
Lemma rowObject_get (hs : list string) (row : list value) (k : nat) (h : string) (c : value) :
  NoDup hs -> "__proto__" ∉ hs -> hs !! k = Some h -> row !! k = Some c ->
  JS.get (rowObject hs row ∅) h = readCell h c.
Proof.
  intros Hnd Hproto Hk Hc. unfold JS.get.
  now rewrite (rowObject_lookup _ _ _ k), Hc by assumption.
Qed.

(** Writing back the object of a well-formed row, changed in the
    properties of [patch] only, and reading the row again gives that
    object with the properties of [patch] (as written and read) put in. *)
Lemma rowObject_update (hs : list string) (row : list value) (patch : obj) :
  NoDup hs -> "__proto__" ∉ hs -> wellformed_row hs row ->
  (forall h v, patch !! h = Some v -> h ∈ hs /\ readCell h (prepareCell v) = v) ->
  rowObject hs (prepareRow hs (JS.spread (rowObject hs row ∅) patch)) ∅
  = JS.spread (rowObject hs row ∅) patch.
Proof.
  intros Hnd Hproto (Hlen & Hst & Heq) Hpatch. apply map_eq. intros h.
  rewrite rowObject_prepareRow by assumption. unfold JS.spread, JS.get.
  case_bool_decide as Hin.
  - destruct (patch !! h) as [v|] eqn:Hp.
    + rewrite (lookup_union_Some_l _ _ _ _ Hp).
      destruct (Hpatch h v Hp) as [_ ->].
      now destruct (rowObject hs row ∅ !! h).
    + rewrite lookup_union_r by assumption.
      apply list_elem_of_lookup in Hin as [k Hk].
      assert (exists c, row !! k = Some c) as [c Hc].
      { apply lookup_lt_is_Some. rewrite Hlen. now apply lookup_lt_Some in Hk. }
      rewrite (rowObject_lookup _ _ _ k) by assumption. rewrite Hc. simpl.
      f_equal. apply readCell_stable.
      * rewrite Forall_forall in Hst. apply Hst. apply list_elem_of_lookup. eauto.
      * intros ->. eauto.
  - destruct (patch !! h) as [v|] eqn:Hp.
    + destruct (Hpatch h v Hp) as [Hh _]. contradiction.
    + rewrite lookup_union_r by assumption. now rewrite rowObject_lookup_None.
Qed.

End Rows.

(** ** The database once it is set up *)

Section Database.

Lemma with_opened_id (st : state) (ss : string) :
  opened st = Some ss -> with_opened ss st = st.
Proof. destruct st. simpl. now intros ->. Qed.

Lemma ready_db (st : state) (ss : string) :
  ready st ss -> db st = sheets_of st ss.
Proof.
  intros [_ [Ho | (Ho & Hs & Hid)]]; unfold db; rewrite Ho; [reflexivity |].
  now rewrite Hs, Hid.
Qed.

Lemma ready_lookup (st : state) (ss : string) :
  ready st ss -> spreadsheets st !! ss = Some (db st).
Proof.
  intros H. rewrite (ready_db _ _ H). destruct H as [[d Hd] _].
  unfold sheets_of. now rewrite Hd.
Qed.

(** A database that has a sheet is set up. *)
Lemma db_ready (st : state) (name : string) (sh : sheet) :
  db st !! name = Some sh -> exists ss, ready st ss.
Proof.
  unfold db, ready. destruct (opened st) as [ss|] eqn:Ho.
  - intros H. exists ss. split; [| now left].
    unfold sheets_of in H. destruct (spreadsheets st !! ss); [eauto |].
    simpl in H. now rewrite lookup_empty in H.
  - destruct (set_up st) eqn:Hs; [| intros H; now rewrite lookup_empty in H].
    unfold set_up in Hs. apply andb_true_iff in Hs as [_ Hs].
    destruct (properties st !! "SPREADSHEET_ID") as [id|] eqn:Hid; [| discriminate].
    intros H. exists id. split; [| right; repeat split; try reflexivity].
    unfold sheets_of in H. simpl in H. destruct (spreadsheets st !! id); [eauto |].
      simpl in H. now rewrite lookup_empty in H.
Qed.

(** On a database that is set up [getDB()] opens the spreadsheet and does
    nothing else. *)
Lemma getDB_ready (e : env) (st : state) (ss : string) :
  ready st ss -> getDB e st = (Ok ss, with_opened ss st).
Proof.
  intros [[d Hd] [Ho | (Ho & Hs & Hid)]]; unfold getDB; rewrite Ho.
  - now rewrite with_opened_id.
  - unfold bind, ensureDatabaseInitialized. rewrite Hs.
    unfold getProperty. cbn [properties]. rewrite Hid.
    unfold set_up in Hs. rewrite Hid in Hs. apply andb_true_iff in Hs as [_ Hs].
    destruct ss as [|c id]; [discriminate |].
    unfold openById. rewrite Hd. reflexivity.
Qed.

Lemma bind_getDB {A} (e : env) (k : string -> M A) (st : state) (ss : string) :
  ready st ss -> bind (getDB e) k st = k ss (with_opened ss st).
Proof. intros H. unfold bind. now rewrite (getDB_ready _ _ _ H). Qed.

Lemma ready_with_opened (st : state) (ss : string) :
  ready st ss -> ready (with_opened ss st) ss.
Proof. intros [H _]. split; [exact H | now left]. Qed.

Lemma db_with_opened (st : state) (ss : string) :
  ready st ss -> db (with_opened ss st) = db st.
Proof. intros H. now rewrite (ready_db _ _ H). Qed.

(** What [getDB()] returns is the spreadsheet the execution has then
    opened. *)
Lemma getDB_opened (e : env) (st st0 : state) (ss : string) :
  getDB e st = (Ok ss, st0) -> opened st0 = Some ss.
Proof.
  unfold getDB. destruct (opened st) as [ss'|] eqn:Ho.
  - now intros [= <- <-].
  - unfold bind. destruct (ensureDatabaseInitialized e st) as [[[]|m] st1];
      [| discriminate].
    unfold getProperty. destruct (properties st1 !! "SPREADSHEET_ID") as [[|c id]|];
      try discriminate.
    unfold openById. destruct (spreadsheets st1 !! String c id); [| discriminate].
    now intros [= <- <-].
Qed.

Lemma getDB_ready_after (e : env) (st st0 : state) (ss : string) (name : string)
    (sh : sheet) :
  getDB e st = (Ok ss, st0) -> db st0 !! name = Some sh -> ready st0 ss.
Proof.
  intros Hdb Hsh. pose proof (getDB_opened _ _ _ _ Hdb) as Ho.
  destruct (db_ready _ _ _ Hsh) as (ss' & Hex & [Ho' | (Ho' & _)]); [| congruence].
  assert (ss' = ss) as -> by congruence. split; [assumption | now left].
Qed.

End Database.

(** ** Authentication *)

Section Authentication.






End Authentication.

(** ** The locked CRUD helpers on a database that is set up *)

Section Crud.

Lemma trace_two (l : list event) (a b : event) : (l ++ [a]) ++ [b] = l ++ [a; b].
Proof. now rewrite <- app_assoc. Qed.

Lemma trace_three (l : list event) (a b c : event) :
  ((l ++ [a]) ++ [b]) ++ [c] = l ++ [a; b; c].
Proof. now rewrite <- !app_assoc. Qed.

Lemma ready_locked (st : state) (ss : string) :
  ready st ss ->
  ready (State (properties st) (drive st) (spreadsheets st) (opened st) true
               (trace st ++ [EvWaitLock])) ss.
Proof. intros H. exact H. Qed.

(** A state that differs from [st] in the lock and the trace only. *)
Lemma after_lock_same (st : state) (ss : string) (t : list event) :
  ready st ss ->
  State (properties st) (drive st) (spreadsheets st) (Some ss) false
        (trace st ++ EvWaitLock :: t ++ [EvReleaseLock])
  = after_lock ss (db st) st t.
Proof.
  intros H. unfold after_lock. f_equal. symmetry. apply insert_id.
  now apply ready_lookup.
Qed.

Lemma sheets_of_ready (st' st : state) (ss : string) :
  spreadsheets st' = spreadsheets st -> ready st ss -> sheets_of st' ss = db st.
Proof.
  intros Hs Hr. unfold sheets_of. rewrite Hs, (ready_lookup _ _ Hr). reflexivity.
Qed.

(** [addOrUpdateRecord] with an id, on a sheet other than Users. *)
Lemma addOrUpdateRecord_update (e : env) (name : string) (data : obj) (id : value)
    (st : state) (ss : string) :
  ready st ss -> JS.truthy id = true -> String.eqb name "Users" = false ->
  addOrUpdateRecord e name data id st =
    match db st !! name with
    | None => (Throw null_sheet_error, after_lock ss (db st) st [])
    | Some sh =>
        if getLastColumn sh =? 0
        then (Throw empty_range_error, after_lock ss (db st) st [])
        else
          match findIndex (has_id id) (sheetObjects sh) with
          | Some i =>
              let updated := JS.spread (default ∅ (sheetObjects sh !! i)) data in
              let row := prepareRow (headers sh) updated in
              (Ok updated,
               after_lock ss
                 (<[name := Sheet (headers sh) (<[i := row]> (rows sh))]> (db st))
                 st [EvSetValues name i row])
          | None => (Throw (not_found_in id name), after_lock ss (db st) st [])
          end
    end.
Proof.
  intros Hr Hid Hname. pose proof (ready_lookup _ _ Hr) as Hl.
  unfold addOrUpdateRecord. unfold bind at 1, waitLock.
  unfold try_finally, addOrUpdateRecord_body.
  rewrite (bind_getDB _ _ _ ss) by exact Hr.
  unfold bind at 1, getSheetByName.
  rewrite (sheets_of_ready _ st ss) by (reflexivity || assumption).
  destruct (db st !! name) as [sh|].
  - destruct (getLastColumn sh =? 0).
    + unfold throw, releaseLock. cbn. rewrite trace_two.
      now rewrite <- (after_lock_same _ _ [] Hr).
    + rewrite Hid. unfold lift, updatePassword. rewrite Hname. unfold bind at 1.
      destruct (findIndex (has_id id) (sheetObjects sh)) as [i|].
      * unfold bind, setValues, write, ret, releaseLock, sheets_of, after_lock. cbn.
        rewrite Hl. change (default ∅ (Some (db st))) with (db st).
        now rewrite trace_three.
      * unfold throw, releaseLock. cbn. rewrite trace_two.
        now rewrite <- (after_lock_same _ _ [] Hr).
  - unfold throw, releaseLock. cbn. rewrite trace_two.
    now rewrite <- (after_lock_same _ _ [] Hr).
Qed.

(** [addOrUpdateRecord] without an id, on the Bookings sheet. *)
Lemma addOrUpdateRecord_add (e : env) (data : obj) (id : value) (st : state)
    (ss : string) :
  ready st ss -> JS.truthy id = false ->
  addOrUpdateRecord e "Bookings" data id st =
    match db st !! "Bookings" with
    | None => (Throw null_sheet_error, after_lock ss (db st) st [])
    | Some sh =>
        if getLastColumn sh =? 0
        then (Throw empty_range_error, after_lock ss (db st) st [])
        else
          let row := prepareRow (headers sh) (new_booking e data) in
          (Ok (new_booking e data),
           after_lock ss
             (<["Bookings" := Sheet (headers sh) (rows sh ++ [row])]> (db st))
             st [EvAppendRow "Bookings" row])
    end.
Proof.
  intros Hr Hid. pose proof (ready_lookup _ _ Hr) as Hl.
  unfold addOrUpdateRecord. unfold bind at 1, waitLock.
  unfold try_finally, addOrUpdateRecord_body.
  rewrite (bind_getDB _ _ _ ss) by exact Hr.
  unfold bind at 1, getSheetByName.
  rewrite (sheets_of_ready _ st ss) by (reflexivity || assumption).
  destruct (db st !! "Bookings") as [sh|].
  - destruct (getLastColumn sh =? 0) eqn:Hcol.
    + unfold throw, releaseLock. cbn. rewrite trace_two.
      now rewrite <- (after_lock_same _ _ [] Hr).
    + rewrite Hid.
      assert (Hrow : (getLastRow sh =? 0) = false).
      { unfold getLastColumn in Hcol. destruct (getLastRow sh =? 0); [discriminate | reflexivity]. }
      unfold bind, lift, newPassword, appendRow, write, ret, releaseLock, sheets_of,
        after_lock, new_booking. cbn. rewrite Hrow, Hl.
      change (default ∅ (Some (db st))) with (db st). now rewrite trace_three.
  - unfold throw, releaseLock. cbn. rewrite trace_two.
    now rewrite <- (after_lock_same _ _ [] Hr).
Qed.

(** [deleteRecord]. *)
Lemma deleteRecord_eq (e : env) (name : string) (id : value) (st : state)
    (ss : string) :
  ready st ss ->
  deleteRecord e name id st =
    match db st !! name with
    | None => (Throw (not_found id), after_lock ss (db st) st [])
    | Some sh =>
        match findIndex (has_id id) (sheetObjects sh) with
        | Some i =>
            (Ok tt,
             after_lock ss (<[name := Sheet (headers sh) (delete i (rows sh))]> (db st))
               st [EvDeleteRow name i])
        | None => (Throw (not_found id), after_lock ss (db st) st [])
        end
    end.
Proof.
  intros Hr. pose proof (ready_lookup _ _ Hr) as Hl.
  unfold deleteRecord. unfold bind at 1, waitLock.
  unfold try_finally, deleteRecord_body.
  rewrite (bind_getDB _ _ _ ss) by exact Hr.
  unfold bind at 1, getSheetByName.
  rewrite (sheets_of_ready _ st ss) by (reflexivity || assumption).
  destruct (db st !! name) as [sh|]; cbn [sheetDataToObject].
  - destruct (findIndex (has_id id) (sheetObjects sh)) as [i|].
    + unfold deleteRow, write, releaseLock, sheets_of, after_lock. cbn.
      rewrite Hl. change (default ∅ (Some (db st))) with (db st).
      now rewrite trace_three.
    + unfold throw, releaseLock. cbn. rewrite trace_two.
      now rewrite <- (after_lock_same _ _ [] Hr).
  - unfold throw, releaseLock. cbn. rewrite trace_two.
    now rewrite <- (after_lock_same _ _ [] Hr).
Qed.

Lemma config_bookings_NoDup : NoDup (config_headers "Bookings").
Proof. by_compute. Qed.

Lemma config_bookings_plain : "__proto__" ∉ config_headers "Bookings".
Proof. by_compute. Qed.

(** A sheet under headers that are not all blank has a last column. *)
Lemma config_bookings_columns (sh : sheet) :
  headers sh = config_headers "Bookings" -> (getLastColumn sh =? 0) = false.
Proof.
  intros H. unfold getLastColumn, getLastRow. rewrite H.
  destruct (rows sh); [reflexivity |].
  change (forallb _ (config_headers "Bookings")) with false.
  assert ((1 + Z.of_nat (length (l :: l0)) =? 0) = false) as -> by (apply Z.eqb_neq; lia).
  reflexivity.
Qed.

Lemma insert_empty_union (k : string) (v : value) (m : obj) :
  <[k := v]> (∅ : obj) ∪ m = <[k := v]> m.
Proof. now rewrite <- insert_union_l, (left_id ∅ (∪)). Qed.

Lemma db_after_lock (ss : string) (d : database) (st : state) (ws : list event) :
  db (after_lock ss d st ws) = d.
Proof.
  unfold db, after_lock, sheets_of. cbn [opened spreadsheets].
  now rewrite lookup_insert_eq.
Qed.

End Crud.

(** ** Adding a booking *)

Section AddBooking.

Lemma strict_eq_VStr_l (s : string) (v : value) :
  JS.strict_eq (VStr s) v = true <-> v = VStr s.
Proof.
  destruct v; simpl; try (split; [discriminate | intros [=]]).
  rewrite String.eqb_eq. split; [now intros -> | now intros [= ->]].
Qed.

(** What a property of a stored booking can be: a cell, or [undefined]. *)
Lemma loose_eq_cell (x y : value) :
  storable x \/ x = VUndef ->
  (JS.convertible y = true -> exists r, JS.loose_eq x y = Ok r)
  /\ (JS.loose_eq x y = Ok true -> JS.convertible y = true).
Proof.
  intros Hx. unfold JS.loose_eq.
  destruct (JS.is_object x && JS.is_object y); [split; [eauto | discriminate] |].
  destruct Hx as [Hx | ->].
  - assert (Hcx : JS.convertible x = true)
      by (destruct x; try contradiction Hx; reflexivity).
    destruct x; try contradiction Hx;
      destruct y; cbv beta iota;
      try solve [split; [eauto | intros _; reflexivity]];
      rewrite Hcx; cbn [andb];
      (split; [intros ->; eauto |]);
      match goal with
      | |- (if ?c then _ else _) = _ -> _ => destruct c; [reflexivity | discriminate]
      end.
  - destruct y; cbv beta iota delta [JS.loose_eq_primitive]; split; eauto;
      first [discriminate | intros _; reflexivity].
Qed.

(** The test of [addBooking]'s [find] is the specification's conflict. *)
Lemma conflicts_spec (data b : obj) :
  conflicts data b = Ok true <-> Spec.conflicting data b.
Proof.
  unfold conflicts, Spec.conflicting. split.
  - destruct (JS.get b "date") as [| | | | |t text| |]; try discriminate.
    destruct (JS.strict_eq (VStr _) _) eqn:Hdate; [| discriminate].
    destruct (JS.strict_eq (JS.get b "classroom") _) eqn:Hroom; [| discriminate].
    cbn [andb]. destruct (JS.loose_eq _ _) as [[|]|] eqn:Hper; try discriminate.
    intros [= Hst]. apply strict_eq_VStr_l in Hdate.
    apply negb_true_iff, includes_not_terminal in Hst.
    repeat split; try assumption. eauto.
  - intros (Hroom & Hper & (t & text & Hb & Hd) & Hst). rewrite Hb.
    apply includes_not_terminal in Hst. rewrite Hst, Hper, Hroom.
    assert (JS.strict_eq (VStr (Calendar.format_yyyy_MM_dd TIMEZONE t)) (JS.get data "date") = true)
      as -> by now apply strict_eq_VStr_l.
    reflexivity.
Qed.

(** A stored booking for which the test does not throw. *)
Lemma conflicts_total (data b : obj) :
  storable (JS.get b "period") \/ JS.get b "period" = VUndef ->
  JS.convertible (JS.get data "period") = true ->
  exists r, conflicts data b = Ok r.
Proof.
  intros Hb Hd. unfold conflicts.
  destruct (JS.get b "date"); eauto.
  destruct (_ && _); eauto.
  destruct (proj1 (loose_eq_cell _ _ Hb) Hd) as [[|] ->]; eauto.
Qed.

(** [find] with a test that does not throw finds the first element that
    passes. *)
Lemma find_result_Some {A} (p : A -> result bool) (l : list A) (x : A) :
  find_result p l = Ok (Some x) -> x ∈ l /\ p x = Ok true.
Proof.
  induction l as [|y l IH]; [discriminate |]. simpl.
  destruct (p y) as [[|]|] eqn:Hy; try discriminate.
  - intros [= <-]. split; [left | assumption].
  - intros H. destruct (IH H). split; [now right | assumption].
Qed.

Lemma find_result_total {A} (p : A -> result bool) (l : list A) :
  (forall x, x ∈ l -> exists r, p x = Ok r) ->
  (exists x, find_result p l = Ok (Some x))
  \/ (find_result p l = Ok None /\ forall x, x ∈ l -> p x = Ok false).
Proof.
  induction l as [|y l IH]; intros Hall.
  - right. split; [reflexivity |]. intros x Hx. inversion Hx.
  - simpl. destruct (Hall y ltac:(left)) as [[|] Hy]; rewrite Hy; [left; eauto |].
    destruct IH as [Hsome | [Hnone Hfalse]].
    + intros x Hx. apply Hall. now right.
    + now left.
    + right. split; [assumption |]. intros x [-> | Hx]%elem_of_cons; auto.
Qed.

(** A text written under a header other than equipment is read back. *)
Lemma get_text_written (hs : list string) (u : obj) (h s : string) :
  NoDup hs -> "__proto__" ∉ hs -> h ∈ hs -> h <> "equipment" -> JS.get u h = VStr s ->
  JS.get (rowObject hs (prepareRow hs u) ∅) h = VStr s.
Proof.
  intros Hnd Hp Hin Hne Hu. unfold JS.get at 1.
  rewrite rowObject_prepareRow by assumption.
  rewrite bool_decide_eq_true_2 by assumption.
  now rewrite Hu, readCell_other.
Qed.

Lemma sheetObjects_app (hs : list string) (rs : list (list value)) (row : list value) :
  sheetObjects (Sheet hs (rs ++ [row]))
  = sheetObjects (Sheet hs rs) ++ [rowObject hs row ∅].
Proof. unfold sheetObjects. simpl. now rewrite map_app. Qed.

(** The period of a booking read from a row of cells under the headers of
    [DB_CONFIG] is a cell. *)
Lemma stored_period (sh : sheet) (b : obj) :
  headers sh = config_headers "Bookings" ->
  Forall (Forall storable) (rows sh) ->
  b ∈ sheetObjects sh ->
  storable (JS.get b "period") \/ JS.get b "period" = VUndef.
Proof.
  intros Hhs Hrows Hb. unfold sheetObjects in Hb.
  apply list_elem_of_fmap in Hb as (row & -> & Hrow). rewrite Hhs.
  unfold JS.get.
  rewrite (rowObject_lookup _ _ _ 6 "period")
    by (first [apply config_bookings_NoDup | apply config_bookings_plain | reflexivity]).
  rewrite readCell_other by discriminate.
  destruct (row !! 6%nat) as [c|] eqn:Hc; [left | now right].
  rewrite Forall_forall in Hrows. specialize (Hrows row Hrow).
  rewrite Forall_forall in Hrows. apply Hrows. apply list_elem_of_lookup. eauto.
Qed.

(** C1. Let [getDB()] succeed, as it does on a database that is set up or
    that the first call sets up, and let the Bookings sheet it then has be
    one under the headers of [DB_CONFIG] whose rows are rows of cells.
    [addBooking] throws 'Booking conflict' exactly when that sheet holds an
    active booking of the same classroom, period and date as the request.
    Whenever it throws, the spreadsheet is left as [getDB()] gave it.
    Without such a booking, and for a period that has a primitive (any
    text, number or boolean, or a list of such), it does not throw.  When
    it does not throw, it returns the request with the generated id,
    status 'Booked' and createdAt the current time, the Bookings sheet has
    grown by exactly that one row and no other sheet has changed; the
    bookings read afterwards are those read before and then the new one,
    which reads with that id, status and createdAt and is, when no booking
    had the generated id before, the only booking with it. *)
Theorem addBooking_conflict_or_append (e : env) (data : obj) (st st0 : state)
    (ss : string) (sh : sheet) :
  getDB e st = (Ok ss, st0) ->
  db st0 !! "Bookings" = Some sh ->
  headers sh = config_headers "Bookings" ->
  Forall (Forall storable) (rows sh) ->
  let bookings := sheetObjects sh in
  let outcome := addBooking e data st in
  let stored :=
    rowObject (headers sh) (prepareRow (headers sh) (new_booking e data)) ∅ in
  (fst outcome = Throw "Booking conflict"
   <-> exists b, b ∈ bookings /\ Spec.conflicting data b)
  /\ (forall message, fst outcome = Throw message -> db (snd outcome) = db st0)
  /\ ((forall b, b ∈ bookings -> ~ Spec.conflicting data b) ->
      JS.convertible (JS.get data "period") = true ->
      fst outcome = Ok (new_booking e data))
  /\ (forall record,
        fst outcome = Ok record ->
        record = new_booking e data
        /\ JS.get record "id" = VStr (uuid e)
        /\ JS.get record "status" = VStr "Booked"
        /\ JS.get record "createdAt" = VStr (Calendar.toISOString (now e))
        /\ db (snd outcome)
           = <["Bookings" := Sheet (headers sh)
                               (rows sh ++ [prepareRow (headers sh) record])]> (db st0)
        /\ sheetDataToObject (db (snd outcome) !! "Bookings") = bookings ++ [stored]
        /\ JS.get stored "id" = VStr (uuid e)
        /\ JS.get stored "status" = VStr "Booked"
        /\ JS.get stored "createdAt" = VStr (Calendar.toISOString (now e))
        /\ ((forall b, b ∈ bookings -> JS.get b "id" <> VStr (uuid e)) ->
            forall j b, (bookings ++ [stored]) !! j = Some b ->
                        JS.get b "id" = VStr (uuid e) -> j = length bookings)).
Proof.
  intros Hdb Hsh Hhs Hcells bookings outcome stored. subst outcome.
  pose proof (getDB_ready_after _ _ _ _ _ _ Hdb Hsh) as Hr.
  assert (Hperiod : forall b, b ∈ bookings ->
             storable (JS.get b "period") \/ JS.get b "period" = VUndef).
  { intros b Hb. now apply (stored_period sh). }
  assert (Hstored : JS.get stored "id" = VStr (uuid e)
                    /\ JS.get stored "status" = VStr "Booked"
                    /\ JS.get stored "createdAt" = VStr (Calendar.toISOString (now e))).
  { unfold stored. rewrite Hhs.
    repeat split;
      (apply get_text_written;
       [apply config_bookings_NoDup | apply config_bookings_plain | by_compute
       | discriminate
       | unfold new_booking, JS.get, generateId; now simplify_map_eq]). }
  assert (Hadd : forall record,
             addOrUpdateRecord e "Bookings" data VNull st0
             = (Ok record, snd (addOrUpdateRecord e "Bookings" data VNull st0)) ->
             record = new_booking e data
             /\ db (snd (addOrUpdateRecord e "Bookings" data VNull st0))
                = <["Bookings" := Sheet (headers sh)
                                    (rows sh ++ [prepareRow (headers sh) record])]> (db st0)).
  { intros record. rewrite (addOrUpdateRecord_add _ _ _ _ ss) by (assumption || reflexivity).
    rewrite Hsh, (config_bookings_columns _ Hhs). cbv zeta. cbn [snd].
    rewrite db_after_lock. now intros [= <-]. }
  assert (Hok : fst (addOrUpdateRecord e "Bookings" data VNull st0)
                = Ok (new_booking e data)).
  { rewrite (addOrUpdateRecord_add _ _ _ _ ss) by (assumption || reflexivity).
    now rewrite Hsh, (config_bookings_columns _ Hhs). }
  assert (Heq : addBooking e data st
                = match find_result (conflicts data) bookings with
                  | Ok (Some _) => (Throw "Booking conflict", st0)
                  | Ok None => addOrUpdateRecord e "Bookings" data VNull st0
                  | Throw m => (Throw m, st0)
                  end).
  { unfold addBooking. unfold bind at 1. rewrite Hdb.
    unfold bind at 1, getSheetByName.
    rewrite (sheets_of_ready _ st0 ss) by (reflexivity || assumption).
    rewrite Hsh. change (sheetDataToObject (Some sh)) with bookings.
    unfold bind at 1, lift.
    now destruct (find_result (conflicts data) bookings) as [[b|]|m]. }
  rewrite Heq. clear Heq.
  destruct (find_result (conflicts data) bookings) as [[b|]|m] eqn:Hfind.
  - apply find_result_Some in Hfind as [Hin Hb]. apply conflicts_spec in Hb.
    cbn [fst snd throw]. split; [| split; [| split]].
    + split; [eauto | reflexivity].
    + reflexivity.
    + intros Hno. exfalso. exact (Hno b Hin Hb).
    + discriminate.
  - assert (Hno : forall b, b ∈ bookings -> ~ Spec.conflicting data b).
    { intros b Hin Hb. apply conflicts_spec in Hb.
      assert (Htot : forall x, x ∈ bookings -> exists r, conflicts data x = Ok r).
      { intros x Hx. apply conflicts_total; [now apply Hperiod |].
        apply (proj2 (loose_eq_cell _ _ (Hperiod b Hin))).
        unfold conflicts in Hb.
        destruct (JS.get b "date"); try discriminate.
        destruct (_ && _); [| discriminate].
        now destruct (JS.loose_eq _ _) as [[|]|]. }
      destruct (find_result_total _ _ Htot) as [[x Hx] | [_ Hfalse]]; [congruence |].
      rewrite (Hfalse b Hin) in Hb. discriminate. }
    split; [| split; [| split]].
    + split.
      * rewrite Hok. discriminate.
      * intros (b & Hin & Hb). exfalso. exact (Hno b Hin Hb).
    + intros message. rewrite Hok. discriminate.
    + intros _ _. exact Hok.
    + intros record Hrec. rewrite Hok in Hrec. injection Hrec as <-.
      destruct (Hadd (new_booking e data)) as [_ Hdb'].
      { rewrite <- Hok. now destruct (addOrUpdateRecord _ _ _ _ _). }
      split; [reflexivity |].
      split; [unfold new_booking, JS.get, generateId; now simplify_map_eq |].
      split; [unfold new_booking, JS.get; now simplify_map_eq |].
      split; [unfold new_booking, JS.get; now simplify_map_eq |].
      split; [exact Hdb' |].
      split.
      { rewrite Hdb', lookup_insert_eq. cbn [sheetDataToObject].
        rewrite sheetObjects_app. unfold bookings, stored. now destruct sh. }
      split; [apply Hstored |]. split; [apply Hstored |]. split; [apply Hstored |].
      intros Hfresh j b Hj Hid.
      destruct (decide (j < length bookings)%nat) as [Hlt | Hge].
      * rewrite lookup_app_l in Hj by assumption.
        exfalso. apply (Hfresh b); [| assumption]. apply list_elem_of_lookup. eauto.
      * apply lookup_lt_Some in Hj. rewrite length_app in Hj. simpl in Hj. lia.
  - assert (Hno : forall b, b ∈ bookings -> Spec.conflicting data b -> False).
    { intros b Hin Hb. apply conflicts_spec in Hb.
      assert (Htot : forall x, x ∈ bookings -> exists r, conflicts data x = Ok r).
      { intros x Hx. apply conflicts_total; [now apply Hperiod |].
        apply (proj2 (loose_eq_cell _ _ (Hperiod b Hin))).
        unfold conflicts in Hb.
        destruct (JS.get b "date"); try discriminate.
        destruct (_ && _); [| discriminate].
        now destruct (JS.loose_eq _ _) as [[|]|]. }
      destruct (find_result_total _ _ Htot) as [[x Hx] | [Hnone _]]; congruence. }
    cbn [fst snd]. split; [| split; [| split]].
    + split.
      * intros [= ->]. exfalso.
        assert (Hnot : forall l : list obj,
                   find_result (conflicts data) l <> Throw "Booking conflict").
        { induction l as [|y l IH]; [discriminate |]. simpl.
          destruct (conflicts data y) as [[|]|m'] eqn:Hy; try discriminate; [exact IH |].
          intros [= ->]. unfold conflicts in Hy.
          destruct (JS.get y "date"); try discriminate.
          destruct (_ && _); [| discriminate].
          destruct (JS.loose_eq _ _) as [[|]|m''] eqn:Hl; try discriminate.
          injection Hy as ->. unfold JS.loose_eq in Hl.
          destruct (_ && _); [discriminate |].
          destruct (JS.get y "period"), (JS.get data "period"); try discriminate;
            destruct (_ && _); discriminate. }
        exact (Hnot _ Hfind).
      * intros (b & Hin & Hb). exfalso. exact (Hno b Hin Hb).
    + reflexivity.
    + intros Hnone Hconv. exfalso.
      assert (Htot : forall x, x ∈ bookings -> exists r, conflicts data x = Ok r).
      { intros x Hx. apply conflicts_total; [now apply Hperiod | assumption]. }
      destruct (find_result_total _ _ Htot) as [[x Hx] | [Hn _]]; congruence.
    + discriminate.
Qed.

End AddBooking.

(** ** Confirming a return and cancelling *)

Section ReturnAndCancel.

Lemma first_at_lookup {A} (p : A -> bool) (l : list A) (i : nat) (x : A) :
  first_at p l i x -> findIndex p l = Some i /\ find p l = Some x.
Proof.
  intros H. split; [apply findIndex_Some; eauto | apply find_Some; eauto].
Qed.

Lemma sheetObjects_lookup (sh : sheet) (i : nat) :
  sheetObjects sh !! i = (fun row => rowObject (headers sh) row ∅) <$> rows sh !! i.
Proof.
  unfold sheetObjects.
  apply (list_lookup_fmap (fun r => rowObject (headers sh) r ∅)).
Qed.

Lemma sheetObjects_insert (hs : list string) (rs : list (list value)) (i : nat)
    (row : list value) :
  sheetObjects (Sheet hs (<[i := row]> rs))
  = <[i := rowObject hs row ∅]> (sheetObjects (Sheet hs rs)).
Proof.
  unfold sheetObjects. simpl.
  apply (list_fmap_insert (fun r => rowObject hs r ∅)).
Qed.

Lemma returned_spread (e : env) (adminName : value) (b : obj) :
  JS.spread b
    (<["status" := VStr "Returned"]>
       (<["returnedAt" := VStr (Calendar.toISOString (now e))]>
          (<["returnedBy" := adminName]> ∅)))
  = returned e adminName b.
Proof.
  unfold JS.spread, returned.
  now rewrite <- !insert_union_l, (left_id ∅ (∪)).
Qed.

(** X1. For a non-empty booking id that exists, [confirmReturn] sets exactly
    status, returnedAt and returnedBy of that booking: the bookings read from
    the sheet afterwards are those read before with these three properties
    of that one booking replaced, every other row holds the cells it held
    and every other sheet is as it was; for a non-empty booking id that does
    not exist it throws and the spreadsheet is unchanged. *)
Theorem confirmReturn_frame (e : env) (bookingId : value) (adminName : string)
    (st : state) (sh : sheet) :
  JS.truthy bookingId = true ->
  db st !! "Bookings" = Some sh ->
  headers sh = config_headers "Bookings" ->
  let bookings := sheetObjects sh in
  let outcome := confirmReturn e bookingId (VStr adminName) st in
  (forall i b row,
      first_at (has_id bookingId) bookings i b ->
      rows sh !! i = Some row -> wellformed_row (headers sh) row ->
      exists sh',
        fst outcome = Ok (returned e (VStr adminName) b)
        /\ db (snd outcome) = <["Bookings" := sh']> (db st)
        /\ headers sh' = headers sh
        /\ sheetObjects sh' = <[i := returned e (VStr adminName) b]> bookings
        /\ length (rows sh') = length (rows sh)
        /\ forall j, j <> i -> rows sh' !! j = rows sh !! j)
  /\ (find (has_id bookingId) bookings = None ->
      fst outcome = Throw (not_found_in bookingId "Bookings")
      /\ db (snd outcome) = db st).
Proof.
  intros Hid Hsh Hhs bookings outcome. subst outcome. unfold confirmReturn.
  destruct (db_ready _ _ _ Hsh) as [ss Hr].
  rewrite (addOrUpdateRecord_update _ _ _ _ _ ss) by (assumption || reflexivity).
  rewrite Hsh, (config_bookings_columns _ Hhs). fold bookings. split.
  - intros i b row Hfirst Hrow Hwf.
    destruct (first_at_lookup _ _ _ _ Hfirst) as [-> _].
    destruct Hfirst as (Hb & _ & _). rewrite Hb. cbv zeta. cbn [fst snd].
    rewrite db_after_lock. change (default ∅ (Some b)) with b.
    rewrite returned_spread.
    exists (Sheet (headers sh)
              (<[i := prepareRow (headers sh) (returned e (VStr adminName) b)]> (rows sh))).
    repeat split.
    + rewrite sheetObjects_insert. destruct sh as [hs rs]. simpl in *.
      fold bookings. f_equal.
      unfold bookings in Hb. rewrite sheetObjects_lookup in Hb. simpl in Hb.
      rewrite Hrow in Hb. injection Hb as <-.
      rewrite <- returned_spread. apply rowObject_update.
      * rewrite Hhs. apply config_bookings_NoDup.
      * rewrite Hhs. apply config_bookings_plain.
      * exact Hwf.
      * intros h v Hv. rewrite Hhs.
        apply lookup_insert_Some in Hv as [[<- <-] | [_ Hv]];
          [split; [by_compute | reflexivity] |].
        apply lookup_insert_Some in Hv as [[<- <-] | [_ Hv]];
          [split; [by_compute | reflexivity] |].
        apply lookup_insert_Some in Hv as [[<- <-] | [_ Hv]];
          [split; [by_compute | reflexivity] |].
        rewrite lookup_empty in Hv. discriminate.
    + simpl. apply length_insert.
    + intros j Hj. simpl. now apply list_lookup_insert_ne.
  - intros Hnone. rewrite find_findIndex in Hnone.
    destruct (findIndex (has_id bookingId) bookings) as [i|] eqn:Hi.
    + apply findIndex_Some in Hi as (x & Hx & _). rewrite Hx in Hnone. discriminate.
    + cbn [fst snd]. rewrite db_after_lock. split; reflexivity.
Qed.

(** C6 fails for the empty booking id, which no booking has: the empty id
    sends [addOrUpdateRecord] down its Add branch, so [confirmReturn] does
    not throw but appends a row, a new booking with status 'Booked'. *)
Theorem confirmReturn_empty_id_appends :
  let st := Sample.state_of [] Sample.one_booking in
  let outcome := confirmReturn Sample.evening (VStr "") (VStr "Admin") st in
  let record :=
    new_booking Sample.evening
      (<["status" := VStr "Returned"]>
         (<["returnedAt" := VStr "2024-01-15T09:30:00.000Z"]>
            (<["returnedBy" := VStr "Admin"]> ∅))) in
  find (has_id (VStr "")) (sheetDataToObject (db st !! "Bookings")) = None
  /\ fst outcome = Ok record
  /\ JS.get record "status" = VStr "Booked"
  /\ db (snd outcome) !! "Bookings"
     = Some (Sheet (config_headers "Bookings")
               (Sample.one_booking
                  ++ [prepareRow (config_headers "Bookings") record])).
Proof. repeat split; by_compute. Qed.

Lemma get_status_written (hs : list string) (u : obj) (s : string) :
  NoDup hs -> "__proto__" ∉ hs -> "status" ∈ hs -> JS.get u "status" = VStr s ->
  JS.get (rowObject hs (prepareRow hs u) ∅) "status" = VStr s.
Proof.
  intros Hnd Hp Hin Hu. unfold JS.get at 1.
  rewrite rowObject_prepareRow by assumption.
  rewrite bool_decide_eq_true_2 by assumption. now rewrite Hu.
Qed.

(** [cancelBooking] on a Bookings sheet whose ids are not empty. *)
Lemma cancelBooking_cases (e : env) (bookingId : value) (st : state) (sh : sheet)
    (ss : string) :
  ready st ss ->
  db st !! "Bookings" = Some sh ->
  (getLastColumn sh =? 0) = false ->
  (forall b, b ∈ sheetObjects sh -> JS.truthy (JS.get b "id") = true) ->
  cancelBooking e bookingId st =
    match findIndex (has_id bookingId) (sheetObjects sh) with
    | None => (Throw "Booking not found", with_opened ss st)
    | Some i =>
        let b := default ∅ (sheetObjects sh !! i) in
        if JS.strict_eq (JS.get b "status") (VStr "Booked") then
          let u := <["status" := VStr "Not Used"]> b in
          let row := prepareRow (headers sh) u in
          (Ok u,
           after_lock ss
             (<["Bookings" := Sheet (headers sh) (<[i := row]> (rows sh))]> (db st))
             st [EvSetValues "Bookings" i row])
        else
          (Throw "Cannot cancel a booking that is already in use or completed.",
           with_opened ss st)
    end.
Proof.
  intros Hr Hsh Hcol Hids. unfold cancelBooking.
  rewrite (bind_getDB _ _ _ ss) by exact Hr.
  unfold bind at 1, getSheetByName.
  rewrite (sheets_of_ready _ st ss) by (reflexivity || assumption).
  rewrite Hsh. change (sheetDataToObject (Some sh)) with (sheetObjects sh).
  rewrite find_findIndex.
  destruct (findIndex (has_id bookingId) (sheetObjects sh)) as [i|] eqn:Hidx;
    [| reflexivity].
  apply findIndex_Some in Hidx as Hfirst. destruct Hfirst as (b & Hl & Hp & _).
  rewrite Hl. change (default ∅ (Some b)) with b. cbv zeta.
  destruct (JS.strict_eq (JS.get b "status") (VStr "Booked")); [| reflexivity].
  cbn [negb].
  assert (Htruthy : JS.truthy bookingId = true).
  { unfold has_id in Hp. rewrite <- (strict_eq_truthy _ _ Hp). apply Hids.
    apply list_elem_of_lookup. eauto. }
  rewrite (addOrUpdateRecord_update _ _ _ _ _ ss)
    by (assumption || reflexivity || now apply ready_with_opened).
  rewrite (db_with_opened _ _ Hr).
  rewrite Hsh, Hcol, Hidx, Hl. change (default ∅ (Some b)) with b. cbv zeta.
  unfold JS.spread. now rewrite insert_empty_union.
Qed.

End ReturnAndCancel.

(** ** Cancelling *)

Section Cancelling.

(** C7 fails for a booking whose stored id is empty: [cancelBooking] finds
    it under the id '', sees that its stored status is 'Booked' and calls
    [addOrUpdateRecord] with that id, which takes the falsy id for an Add.
    The booking keeps its status 'Booked' and a second row is appended, a
    new booking with a generated id and status 'Booked'; nothing is set to
    'Not Used' and nothing is thrown. *)
Theorem cancelBooking_empty_id_books_again :
  let row := Sample.booking_row "" "room-1" (VNum 1) Sample.jan15 ["eq-1"] "Booked"
               "2024-01-10T02:00:00.000Z" in
  let st := Sample.state_of [] [row] in
  let outcome := cancelBooking Sample.morning (VStr "") st in
  let before := sheetDataToObject (db st !! "Bookings") in
  let after := sheetDataToObject (db (snd outcome) !! "Bookings") in
  let record := new_booking Sample.morning (<["status" := VStr "Not Used"]> ∅) in
  (fun b => (JS.get b "id", JS.get b "status")) <$> before
  = [(VStr "", VStr "Booked")]
  /\ fst outcome = Ok record
  /\ JS.get record "status" = VStr "Booked"
  /\ (fun b => (JS.get b "id", JS.get b "status")) <$> after
     = [(VStr "", VStr "Booked"); (VStr Sample.uuid1, VStr "Booked")]
  /\ db (snd outcome) !! "Bookings"
     = Some (Sheet (config_headers "Bookings")
               [row; prepareRow (config_headers "Bookings") record]).
Proof. repeat split; by_compute. Qed.

(** The getters write nothing on a database that is set up. *)
Lemma getters_read_only (e : env) (st : state) (ss : string) :
  ready st ss ->
  snd (getBookingsWithStatus e st) = with_opened ss st
  /\ (forall date, snd (getBookingsByDate e date st) = with_opened ss st).
Proof.
  intros Hr. split; [| intros date].
  - unfold getBookingsWithStatus. rewrite (bind_getDB _ _ _ ss) by exact Hr.
    reflexivity.
  - unfold getBookingsByDate. rewrite (bind_getDB _ _ _ ss) by exact Hr.
    reflexivity.
Qed.

(** On a Bookings sheet under the headers of [DB_CONFIG] whose stored ids
    are not empty, [cancelBooking] throws, the spreadsheet untouched, when
    no booking has the given id or when the stored status of the booking is
    not 'Booked'; otherwise it sets the status of that booking to
    'Not Used'.  Only the stored status counts, and reading the bookings
    never writes it: a booking stored as 'Booked' is cancelled also when
    its derived status is 'In Use' or 'Pending Return'. *)
Theorem cancelBooking_stored_status (e : env) (bookingId : value) (st : state)
    (sh : sheet) :
  db st !! "Bookings" = Some sh ->
  headers sh = config_headers "Bookings" ->
  (forall b, b ∈ sheetObjects sh -> JS.truthy (JS.get b "id") = true) ->
  let bookings := sheetObjects sh in
  let outcome := cancelBooking e bookingId st in
  (find (has_id bookingId) bookings = None ->
   fst outcome = Throw "Booking not found"
   /\ db (snd outcome) = db st /\ trace (snd outcome) = trace st)
  /\ (forall b,
        find (has_id bookingId) bookings = Some b ->
        JS.get b "status" <> VStr "Booked" ->
        fst outcome
        = Throw "Cannot cancel a booking that is already in use or completed."
        /\ db (snd outcome) = db st /\ trace (snd outcome) = trace st)
  /\ (forall i b,
        first_at (has_id bookingId) bookings i b ->
        JS.get b "status" = VStr "Booked" ->
        exists sh',
          fst outcome = Ok (<["status" := VStr "Not Used"]> b)
          /\ db (snd outcome) = <["Bookings" := sh']> (db st)
          /\ headers sh' = headers sh
          /\ rows sh'
             = <[i := prepareRow (headers sh) (<["status" := VStr "Not Used"]> b)]> (rows sh)
          /\ exists b', sheetObjects sh' !! i = Some b'
                        /\ JS.get b' "status" = VStr "Not Used")
  /\ (forall b derived,
        find (has_id bookingId) bookings = Some b ->
        JS.get b "status" = VStr "Booked" ->
        bookingStatus e b = Ok (<["status" := VStr derived]> b) ->
        derived = "In Use" \/ derived = "Pending Return" ->
        exists record, fst outcome = Ok record)
  /\ db (snd (getBookingsWithStatus e st)) = db st
  /\ (forall date, db (snd (getBookingsByDate e date st)) = db st).
Proof.
  intros Hsh Hhs Hids bookings outcome. subst outcome.
  destruct (db_ready _ _ _ Hsh) as [ss Hr].
  rewrite (cancelBooking_cases e bookingId st sh ss Hr Hsh
             (config_bookings_columns _ Hhs) Hids). fold bookings.
  assert (Hbooked : forall i b,
             first_at (has_id bookingId) bookings i b ->
             JS.get b "status" = VStr "Booked" ->
             findIndex (has_id bookingId) bookings = Some i
             /\ default ∅ (bookings !! i) = b
             /\ JS.strict_eq (JS.get b "status") (VStr "Booked") = true).
  { intros i b Hfirst Hst. destruct (first_at_lookup _ _ _ _ Hfirst) as [Hidx _].
    destruct Hfirst as (Hl & _). rewrite Hl. repeat split; auto.
    now apply strict_eq_VStr. }
  split; [| split; [| split; [| split]]].
  - intros Hnone. rewrite find_findIndex in Hnone.
    destruct (findIndex (has_id bookingId) bookings) as [i|] eqn:Hidx.
    + apply findIndex_Some in Hidx as (x & Hx & _). rewrite Hx in Hnone. discriminate.
    + cbn [fst snd]. rewrite (db_with_opened _ _ Hr). now repeat split.
  - intros b Hfind Hst. apply find_Some in Hfind as (i & Hfirst).
    destruct (first_at_lookup _ _ _ _ Hfirst) as [-> _].
    destruct Hfirst as (Hl & _). rewrite Hl. change (default ∅ (Some b)) with b.
    cbv zeta.
    destruct (JS.strict_eq (JS.get b "status") (VStr "Booked")) eqn:E.
    + apply strict_eq_VStr in E. contradiction.
    + cbn [fst snd]. rewrite (db_with_opened _ _ Hr). now repeat split.
  - intros i b Hfirst Hst. destruct (Hbooked i b Hfirst Hst) as (-> & Hb & Heq).
    cbv zeta. rewrite Hb, Heq. cbn [fst snd]. rewrite db_after_lock.
    eexists. split; [reflexivity |].
    split; [reflexivity |]. split; [reflexivity |]. split; [reflexivity |].
    rewrite sheetObjects_insert. eexists. split.
    + apply list_lookup_insert_eq. destruct Hfirst as (Hl & _).
      apply lookup_lt_Some in Hl. unfold bookings in Hl.
      now destruct sh.
    + apply get_status_written.
      * rewrite Hhs. apply config_bookings_NoDup.
      * rewrite Hhs. apply config_bookings_plain.
      * rewrite Hhs. by_compute.
      * unfold JS.get. now rewrite lookup_insert_eq.
  - intros b derived Hfind Hst _ _.
    apply find_Some in Hfind as (i & Hfirst).
    destruct (Hbooked i b Hfirst Hst) as (-> & Hb & Heq).
    cbv zeta. rewrite Hb, Heq. cbn [fst]. eauto.
  - destruct (getters_read_only e st ss Hr) as [-> H2].
    split; [apply (db_with_opened _ _ Hr) |].
    intros date. rewrite H2. apply (db_with_opened _ _ Hr).
Qed.

End Cancelling.

(** ** The slot invariant under cancel, return and delete *)

Section SlotPreserved.

Lemma terminal_active (u : obj) :
  Spec.terminal (JS.get u "status") -> ~ Spec.active u.
Proof. intros Hu Hact. exact (Hact Hu). Qed.

(** Replacing a booking by one of terminal status keeps the invariant. *)
Lemma slot_invariant_insert_terminal (l : list obj) (i : nat) (u : obj) :
  Spec.slot_invariant l -> Spec.terminal (JS.get u "status") ->
  Spec.slot_invariant (<[i := u]> l).
Proof.
  intros Hinv Hu a b x y Ha Hb Hab Hx Hy.
  apply list_lookup_insert_Some in Ha as [(_ & <- & _) | (_ & Ha)];
    [now apply terminal_active in Hu |].
  apply list_lookup_insert_Some in Hb as [(_ & <- & _) | (_ & Hb)];
    [now apply terminal_active in Hu |].
  now apply (Hinv a b).
Qed.

Lemma slot_invariant_singleton (b : obj) : Spec.slot_invariant [b].
Proof.
  intros i j x y Hi Hj Hij. apply lookup_lt_Some in Hi, Hj. simpl in Hi, Hj. lia.
Qed.

(** Removing a booking keeps the invariant. *)
Lemma slot_invariant_delete (l : list obj) (i : nat) :
  Spec.slot_invariant l -> Spec.slot_invariant (delete i l).
Proof.
  intros Hinv a b x y Ha Hb Hab.
  destruct (decide (a < i)%nat) as [Hai | Hai];
    [rewrite list_lookup_delete_lt in Ha by assumption
    | rewrite list_lookup_delete_ge in Ha by lia];
  (destruct (decide (b < i)%nat) as [Hbi | Hbi];
    [rewrite list_lookup_delete_lt in Hb by assumption
    | rewrite list_lookup_delete_ge in Hb by lia]);
  eapply Hinv; eauto; lia.
Qed.

Lemma sheetObjects_delete (hs : list string) (rs : list (list value)) (i : nat) :
  sheetObjects (Sheet hs (delete i rs)) = delete i (sheetObjects (Sheet hs rs)).
Proof.
  unfold sheetObjects. simpl.
  apply (list_fmap_delete (fun r => rowObject hs r ∅)).
Qed.

Lemma sheetObjects_eta (sh : sheet) :
  sheetObjects (Sheet (headers sh) (rows sh)) = sheetObjects sh.
Proof. reflexivity. Qed.

(** An update of a booking that sets a terminal status keeps the invariant. *)
Lemma terminal_update_preserves (e : env) (data : obj) (id : value) (st : state)
    (sh : sheet) (s : string) :
  JS.truthy id = true ->
  db st !! "Bookings" = Some sh ->
  headers sh = config_headers "Bookings" ->
  data !! "status" = Some (VStr s) ->
  Spec.terminal (VStr s) ->
  Spec.slot_invariant (sheetObjects sh) ->
  Spec.slot_invariant
    (sheetDataToObject (db (snd (addOrUpdateRecord e "Bookings" data id st)) !! "Bookings")).
Proof.
  intros Hid Hsh Hhs Hdata Hs Hinv.
  destruct (db_ready _ _ _ Hsh) as [ss Hr].
  rewrite (addOrUpdateRecord_update _ _ _ _ _ ss) by (assumption || reflexivity).
  rewrite Hsh, (config_bookings_columns _ Hhs).
  destruct (findIndex (has_id id) (sheetObjects sh)) as [i|];
    cbv zeta; cbn [snd]; rewrite db_after_lock; [| now rewrite Hsh].
  rewrite lookup_insert_eq. cbn [sheetDataToObject].
  rewrite sheetObjects_insert, sheetObjects_eta.
  apply slot_invariant_insert_terminal; [assumption |].
  erewrite get_status_written; [exact Hs | | | |].
  - rewrite Hhs. apply config_bookings_NoDup.
  - rewrite Hhs. apply config_bookings_plain.
  - rewrite Hhs. by_compute.
  - unfold JS.get, JS.spread. now rewrite (lookup_union_Some_l _ _ _ _ Hdata).
Qed.

(** X2. [cancelBooking] preserves the slot invariant. *)
Theorem cancelBooking_preserves_slot_invariant (e : env) (bookingId : value)
    (st : state) (sh : sheet) :
  db st !! "Bookings" = Some sh ->
  headers sh = config_headers "Bookings" ->
  (forall b, b ∈ sheetObjects sh -> JS.truthy (JS.get b "id") = true) ->
  Spec.slot_invariant (sheetObjects sh) ->
  Spec.slot_invariant
    (sheetDataToObject (db (snd (cancelBooking e bookingId st)) !! "Bookings")).
Proof.
  intros Hsh Hhs Hids Hinv.
  destruct (db_ready _ _ _ Hsh) as [ss Hr].
  rewrite (cancelBooking_cases e bookingId st sh ss Hr Hsh
             (config_bookings_columns _ Hhs) Hids).
  destruct (findIndex (has_id bookingId) (sheetObjects sh)) as [i|];
    [| cbn [snd]; now rewrite (db_with_opened _ _ Hr), Hsh].
  cbv zeta.
  destruct (JS.strict_eq _ (VStr "Booked")); cbn [snd];
    [| now rewrite (db_with_opened _ _ Hr), Hsh].
  rewrite db_after_lock.
  rewrite lookup_insert_eq. cbn [sheetDataToObject].
  rewrite sheetObjects_insert, sheetObjects_eta.
  apply slot_invariant_insert_terminal; [assumption |].
  erewrite get_status_written; [right; left; reflexivity | | | |].
  - rewrite Hhs. apply config_bookings_NoDup.
  - rewrite Hhs. apply config_bookings_plain.
  - rewrite Hhs. by_compute.
  - unfold JS.get. now rewrite lookup_insert_eq.
Qed.

(** X3. [confirmReturn] of a non-empty booking id preserves the slot
    invariant. *)
Theorem confirmReturn_preserves_slot_invariant (e : env) (bookingId adminName : value)
    (st : state) (sh : sheet) :
  JS.truthy bookingId = true ->
  db st !! "Bookings" = Some sh ->
  headers sh = config_headers "Bookings" ->
  Spec.slot_invariant (sheetObjects sh) ->
  Spec.slot_invariant
    (sheetDataToObject
       (db (snd (confirmReturn e bookingId adminName st)) !! "Bookings")).
Proof.
  intros Hid Hsh Hhs Hinv. unfold confirmReturn.
  apply (terminal_update_preserves e _ bookingId st sh "Returned");
    try assumption.
  - now rewrite lookup_insert_eq.
  - now left.
Qed.

(** X4. [deleteBooking] preserves the slot invariant. *)
Theorem deleteBooking_preserves_slot_invariant (e : env) (bookingId : value)
    (st : state) (sh : sheet) :
  db st !! "Bookings" = Some sh ->
  Spec.slot_invariant (sheetObjects sh) ->
  Spec.slot_invariant
    (sheetDataToObject (db (snd (deleteBooking e bookingId st)) !! "Bookings")).
Proof.
  intros Hsh Hinv. destruct (db_ready _ _ _ Hsh) as [ss Hr].
  unfold deleteBooking. rewrite (deleteRecord_eq _ _ _ _ ss Hr). rewrite Hsh.
  destruct (findIndex (has_id bookingId) (sheetObjects sh)) as [i|];
    cbn [snd]; rewrite db_after_lock; [| now rewrite Hsh].
  rewrite lookup_insert_eq. cbn [sheetDataToObject].
  rewrite sheetObjects_delete, sheetObjects_eta.
  now apply slot_invariant_delete.
Qed.

End SlotPreserved.

(** ** The slot invariant and [updateBooking] *)

Section SlotInvariant.

(** C3 fails for [updateBooking], which writes the new classroom, date and
    period without the conflict check of [addBooking]: from two active
    bookings of room-1 on 2024-01-15, periods 1 and 2, moving the second to
    period 1 leaves two active bookings of one (classroom, date, period). *)
Theorem updateBooking_breaks_slot_invariant :
  let st := Sample.state_of [] Sample.two_bookings in
  let outcome := updateBooking Sample.evening (VStr "b-2") (<["period" := VNum 1]> ∅) st in
  let before := sheetDataToObject (db st !! "Bookings") in
  let after := sheetDataToObject (db (snd outcome) !! "Bookings") in
  Spec.slot_invariant before
  /\ (exists record, fst outcome = Ok record)
  /\ ~ Spec.slot_invariant after.
Proof.
  intros st outcome before after.
  set (hs := config_headers "Bookings").
  set (a := rowObject hs
              (Sample.booking_row "b-1" "room-1" (VNum 1) Sample.jan15 ["eq-1"] "Booked"
                 "2024-01-10T02:00:00.000Z") ∅).
  set (b := rowObject hs
              (Sample.booking_row "b-2" "room-1" (VNum 2) Sample.jan15 ["eq-1"] "Booked"
                 "2024-01-11T02:00:00.000Z") ∅).
  set (b' := rowObject hs
               (Sample.booking_row "b-2" "room-1" (VNum 1) Sample.jan15 ["eq-1"] "Booked"
                  "2024-01-11T02:00:00.000Z") ∅).
  assert (Hbefore : before = [a; b]) by by_compute.
  assert (Hafter : after = [a; b']) by by_compute.
  assert (Hok : fst outcome = Ok b') by by_compute.
  assert (Hpa : JS.get a "period" = VNum (Number.Fin 1 0)) by by_compute.
  assert (Hpb : JS.get b "period" = VNum (Number.Fin 1 1)) by by_compute.
  assert (Hsa : JS.get a "status" = VStr "Booked") by by_compute.
  assert (Hsb : JS.get b' "status" = VStr "Booked") by by_compute.
  assert (Hsame : Spec.same_slot a b')
    by (repeat split; by_compute).
  clearbody before after outcome a b b'. subst before after.
  split; [| split].
  - intros i j x y Hi Hj Hij _ _ (_ & _ & Hper).
    destruct i as [|[|i]], j as [|[|j]]; try discriminate Hi; try discriminate Hj;
      try congruence; injection Hi as <-; injection Hj as <-; congruence.
  - eauto.
  - intros Hinv.
    apply (Hinv 0%nat 1%nat a b' eq_refl eq_refl ltac:(discriminate)).
    + unfold Spec.active, Spec.terminal. rewrite Hsa.
      intros [H | [H | H]]; discriminate H.
    + unfold Spec.active, Spec.terminal. rewrite Hsb.
      intros [H | [H | H]]; discriminate H.
    + exact Hsame.
Qed.

End SlotInvariant.

(** ** The report and the time zone *)

Section Report.

(** C9 fails on the day a report starts: a booking dated 2024-01-15 (its
    date cell is midnight in Bangkok, which [addBooking] formats as
    2024-01-15) is left out of the report from 2024-01-15, because
    [getReportData] compares the cell's instant with the UTC midnight of
    the filter's text. *)
Theorem getReportData_start_day_excluded :
  let st := Sample.state_of [] Sample.one_booking in
  let filters : obj := <["startDate" := VStr "2024-01-15"]> ∅ in
  (fun b => Calendar.format_yyyy_MM_dd TIMEZONE <$> JS.newDate Sample.morning (JS.get b "date"))
    <$> sheetDataToObject (db st !! "Bookings") = [Some "2024-01-15"]
  /\ fst (getReportData Sample.morning filters st) = Ok [].
Proof. split; by_compute. Qed.

End Report.

(** ** The script lock *)

Section ScriptLock.

(** C10 fails on the first call: the database is set up inside the [try]
    block of [addOrUpdateRecord] and of [deleteRecord], where [getDB()]
    runs [ensureDatabaseInitialized], which waits for the script lock that
    the call already holds and releases it in its [finally].  The seed
    users are then written with the lock free, and so is the row of
    [addOrUpdateRecord].  On a database that is set up the same calls
    write under the lock. *)
Theorem first_call_writes_without_lock :
  let user : obj :=
    <["name" := VStr "Kru Mali"]> (<["username" := VStr "kru"]>
    (<["password" := VStr "first"]> (<["role" := VStr "teacher"]> ∅))) in
  let added := addOrUpdateRecord Sample.morning "Users" user VNull Sample.first_run in
  let deleted := deleteRecord Sample.morning "Bookings" (VStr "b-1") Sample.first_run in
  let set_up := Sample.state_of [] Sample.one_booking in
  (exists row,
      trace (snd added)
      = [ EvWaitLock; EvWaitLock; EvCreate Sample.spreadsheet1;
          EvSetProperty "SPREADSHEET_ID" Sample.spreadsheet1;
          EvInsertSheet "Users"; EvAppendRow "Users" (VStr <$> config_headers "Users");
          EvInsertSheet "Bookings";
          EvAppendRow "Bookings" (VStr <$> config_headers "Bookings");
          EvInsertSheet "Classrooms";
          EvAppendRow "Classrooms" (VStr <$> config_headers "Classrooms");
          EvInsertSheet "Equipment";
          EvAppendRow "Equipment" (VStr <$> config_headers "Equipment");
          EvSetProperty "DB_INITIALIZED" "true"; EvReleaseLock;
          EvSetRows "Users" 143; EvAppendRow "Users" row; EvReleaseLock ])
  /\ (exists record, fst added = Ok record)
  /\ Spec.writes_locked false (trace (snd added)) = false
  /\ fst deleted = Throw (not_found (VStr "b-1"))
  /\ Spec.writes_locked false (trace (snd deleted)) = false
  /\ Spec.writes_locked false
       (trace (snd (addOrUpdateRecord Sample.morning "Users" user VNull set_up))) = true
  /\ Spec.writes_locked false
       (trace (snd (deleteRecord Sample.morning "Bookings" (VStr "b-1") set_up))) = true.
Proof.
  intros user added deleted set_up.
  split; [eexists; vm_compute; reflexivity |].
  split; [eexists; vm_compute; reflexivity |].
  repeat split; by_compute.
Qed.

End ScriptLock.

(** ** The theorems at work on the sample data *)

Section Witnesses.

(** A returned booking of period 1, read at 09:00 of its day. *)
Lemma calculateBookingStatus_terminal_unchanged_witness :
  let b := rowObject (config_headers "Bookings")
             (Sample.booking_row "b-1" "room-1" (VNum 1) Sample.jan15 ["eq-1"]
                "Returned" "2024-01-10T02:00:00.000Z") ∅ in
  JS.get b "status" = VStr "Returned"
  /\ bookingStatus Sample.morning b = Ok b
  /\ calculateBookingStatus Sample.morning [b] = Ok [b].
Proof.
  intros b. assert (H : JS.get b "status" = VStr "Returned") by by_compute.
  split; [exact H |].
  destruct (calculateBookingStatus_terminal_unchanged Sample.morning [b] 0 b eq_refl
              (or_introl H)) as (Hb & Hres & Htotal).
  split; [exact Hb |].
  destruct Htotal as (result & Hr & Hlen).
  { intros [|j] other Hj Ho; [congruence | discriminate Ho]. }
  rewrite Hr. f_equal. specialize (Hres result Hr).
  destruct result as [|x [|y result]]; try discriminate Hlen.
  now injection Hres as ->.
Defined.

(** A booking of period 1 stored as 'Booked', read at 09:00 of its day: in
    use. *)
Lemma bookingStatus_windows_witness :
  let b := rowObject (config_headers "Bookings")
             (Sample.booking_row "b-1" "room-1" (VNum 1) Sample.jan15 ["eq-1"]
                "Booked" "2024-01-10T02:00:00.000Z") ∅ in
  ~ Spec.terminal (JS.get b "status")
  /\ bookingStatus Sample.morning b = Ok (<["status" := VStr "In Use"]> b).
Proof.
  intros b.
  assert (Hst : JS.get b "status" = VStr "Booked") by by_compute.
  assert (Hact : ~ Spec.terminal (JS.get b "status")).
  { rewrite Hst. intros [H | [H | H]]; discriminate H. }
  assert (Hdate : JS.get b "date" = Sample.date_cell Sample.jan15) by by_compute.
  assert (Hper : JS.get b "period" = VNum 1) by by_compute.
  split; [exact Hact |].
  destruct (bookingStatus_windows Sample.morning b Hact) as [Hwin _].
  destruct (Hwin Sample.jan15 _ 1 (8, 40) (9, 40) Hdate eq_refl (or_introl Hper))
    as (status & Hres & Hin & _).
  rewrite Hres.
  assert (status = "In Use") as ->; [| reflexivity].
  apply Hin. exists 1705282800000, 1705286400000.
  split; [by_compute |]. split; [by_compute |]. simpl. lia.
Defined.

Lemma equipment_column (k : nat) :
  config_headers "Bookings" !! k = Some "equipment" -> k = 8%nat.
Proof.
  intros Hk.
  do 14 (destruct k as [|k]; [first [reflexivity | discriminate Hk] |]).
  discriminate Hk.
Qed.

Lemma sample_row_wellformed :
  wellformed_row (config_headers "Bookings")
    (Sample.booking_row "b-1" "room-1" (VNum 1) Sample.jan15 ["eq-1"] "Booked"
       "2024-01-10T02:00:00.000Z").
Proof.
  split; [reflexivity |]. split.
  - repeat constructor.
  - intros k c Hk Hc. apply equipment_column in Hk. subst k.
    injection Hc as <-. right. exists ["eq-1"]. by_compute.
Qed.

Lemma sample_first_at :
  first_at (has_id (VStr "b-1"))
    (sheetObjects (Sheet (config_headers "Bookings") Sample.one_booking)) 0
    (rowObject (config_headers "Bookings")
       (Sample.booking_row "b-1" "room-1" (VNum 1) Sample.jan15 ["eq-1"] "Booked"
          "2024-01-10T02:00:00.000Z") ∅).
Proof.
  split; [reflexivity |]. split; [by_compute |]. intros j y Hj. lia.
Qed.

(** The admin confirms the return of booking b-1 in the evening. *)
Lemma confirmReturn_frame_witness :
  let st := Sample.state_of [] Sample.one_booking in
  let b := rowObject (config_headers "Bookings")
             (Sample.booking_row "b-1" "room-1" (VNum 1) Sample.jan15 ["eq-1"] "Booked"
                "2024-01-10T02:00:00.000Z") ∅ in
  let outcome := confirmReturn Sample.evening (VStr "b-1") (VStr "Admin") st in
  JS.truthy (VStr "b-1") = true
  /\ fst outcome = Ok (returned Sample.evening (VStr "Admin") b)
  /\ sheetDataToObject (db (snd outcome) !! "Bookings")
     = [returned Sample.evening (VStr "Admin") b].
Proof.
  intros st b outcome. split; [reflexivity |].
  set (sh := Sheet (config_headers "Bookings") Sample.one_booking).
  assert (Hsh : db st !! "Bookings" = Some sh) by by_compute.
  destruct (confirmReturn_frame Sample.evening (VStr "b-1") "Admin" st sh
              eq_refl Hsh eq_refl) as [Hupdate _].
  destruct (Hupdate 0%nat b _ sample_first_at eq_refl sample_row_wellformed)
    as (sh' & Hok & Hdb & _ & Hobjs & _).
  split; [exact Hok |]. fold outcome in Hdb. rewrite Hdb, lookup_insert_eq.
  simpl sheetDataToObject. rewrite Hobjs. reflexivity.
Defined.

(** The teacher cancels booking b-1 at 09:00 of its day, while its derived
    status is 'In Use'. *)
Lemma cancelBooking_stored_status_witness :
  let st := Sample.state_of [] Sample.one_booking in
  let b := rowObject (config_headers "Bookings")
             (Sample.booking_row "b-1" "room-1" (VNum 1) Sample.jan15 ["eq-1"] "Booked"
                "2024-01-10T02:00:00.000Z") ∅ in
  bookingStatus Sample.morning b = Ok (<["status" := VStr "In Use"]> b)
  /\ fst (cancelBooking Sample.morning (VStr "b-1") st)
     = Ok (<["status" := VStr "Not Used"]> b).
Proof.
  intros st b. split; [by_compute |].
  set (sh := Sheet (config_headers "Bookings") Sample.one_booking).
  assert (Hsh : db st !! "Bookings" = Some sh) by by_compute.
  assert (Hids : forall x, x ∈ sheetObjects sh -> JS.truthy (JS.get x "id") = true).
  { intros x Hx. apply list_elem_of_singleton in Hx. subst x. by_compute. }
  destruct (cancelBooking_stored_status Sample.morning (VStr "b-1") st sh
              Hsh eq_refl Hids) as (_ & _ & Hcancel & _).
  destruct (Hcancel 0%nat b sample_first_at ltac:(by_compute)) as (sh' & Hok & _).
  exact Hok.
Defined.

(** The two bookings of the sample, of periods 1 and 2, keep the slot
    invariant. *)
Lemma two_bookings_invariant :
  Spec.slot_invariant
    (sheetObjects (Sheet (config_headers "Bookings") Sample.two_bookings)).
Proof.
  set (a := rowObject (config_headers "Bookings")
              (Sample.booking_row "b-1" "room-1" (VNum 1) Sample.jan15 ["eq-1"] "Booked"
                 "2024-01-10T02:00:00.000Z") ∅).
  set (b := rowObject (config_headers "Bookings")
              (Sample.booking_row "b-2" "room-1" (VNum 2) Sample.jan15 ["eq-1"] "Booked"
                 "2024-01-11T02:00:00.000Z") ∅).
  change (Spec.slot_invariant [a; b]).
  assert (Hpa : JS.get a "period" = VNum (Number.Fin 1 0)) by by_compute.
  assert (Hpb : JS.get b "period" = VNum (Number.Fin 1 1)) by by_compute.
  clearbody a b.
  intros i j x y Hi Hj Hij _ _ (_ & _ & Hper).
  destruct i as [|[|i]], j as [|[|j]]; try discriminate Hi; try discriminate Hj;
    try congruence; injection Hi as <-; injection Hj as <-; congruence.
Qed.

Lemma two_bookings_ids (x : obj) :
  x ∈ sheetObjects (Sheet (config_headers "Bookings") Sample.two_bookings) ->
  JS.truthy (JS.get x "id") = true.
Proof.
  intros Hx. apply elem_of_cons in Hx as [-> | Hx]; [by_compute |].
  apply list_elem_of_singleton in Hx. subst x. by_compute.
Qed.

(** Cancelling the first of two active bookings of one classroom and
    day. *)
Lemma cancelBooking_preserves_slot_invariant_witness :
  let st := Sample.state_of [] Sample.two_bookings in
  let after :=
    sheetDataToObject
      (db (snd (cancelBooking Sample.morning (VStr "b-1") st)) !! "Bookings") in
  Spec.slot_invariant (sheetDataToObject (db st !! "Bookings"))
  /\ (fun b => JS.get b "status") <$> after = [VStr "Not Used"; VStr "Booked"]
  /\ Spec.slot_invariant after.
Proof.
  intros st after.
  set (sh := Sheet (config_headers "Bookings") Sample.two_bookings).
  assert (Hsh : db st !! "Bookings" = Some sh) by by_compute.
  split; [rewrite Hsh; apply two_bookings_invariant |].
  split; [by_compute |].
  exact (cancelBooking_preserves_slot_invariant Sample.morning (VStr "b-1") st sh
           Hsh eq_refl two_bookings_ids two_bookings_invariant).
Defined.

(** Confirming the return of the second of the two bookings. *)
Lemma confirmReturn_preserves_slot_invariant_witness :
  let st := Sample.state_of [] Sample.two_bookings in
  let after :=
    sheetDataToObject
      (db (snd (confirmReturn Sample.evening (VStr "b-2") (VStr "Admin") st))
         !! "Bookings") in
  Spec.slot_invariant (sheetDataToObject (db st !! "Bookings"))
  /\ (fun b => JS.get b "status") <$> after = [VStr "Booked"; VStr "Returned"]
  /\ Spec.slot_invariant after.
Proof.
  intros st after.
  set (sh := Sheet (config_headers "Bookings") Sample.two_bookings).
  assert (Hsh : db st !! "Bookings" = Some sh) by by_compute.
  split; [rewrite Hsh; apply two_bookings_invariant |].
  split; [by_compute |].
  exact (confirmReturn_preserves_slot_invariant Sample.evening (VStr "b-2")
           (VStr "Admin") st sh eq_refl Hsh eq_refl two_bookings_invariant).
Defined.

(** Deleting the first of the two bookings. *)
Lemma deleteBooking_preserves_slot_invariant_witness :
  let st := Sample.state_of [] Sample.two_bookings in
  let after :=
    sheetDataToObject
      (db (snd (deleteBooking Sample.morning (VStr "b-1") st)) !! "Bookings") in
  Spec.slot_invariant (sheetDataToObject (db st !! "Bookings"))
  /\ (fun b => JS.get b "id") <$> after = [VStr "b-2"]
  /\ Spec.slot_invariant after.
Proof.
  intros st after.
  set (sh := Sheet (config_headers "Bookings") Sample.two_bookings).
  assert (Hsh : db st !! "Bookings" = Some sh) by by_compute.
  split; [rewrite Hsh; apply two_bookings_invariant |].
  split; [by_compute |].
  exact (deleteBooking_preserves_slot_invariant Sample.morning (VStr "b-1") st sh
           Hsh two_bookings_invariant).
Defined.

Lemma two_bookings_cells :
  Forall (Forall storable) Sample.two_bookings.
Proof. repeat constructor. Qed.

(** A booking of room-1 for period 3 of 2024-01-15, where periods 1 and 2
    are taken, is added; one for period 2 is refused. *)
Lemma addBooking_conflict_or_append_witness :
  let st := Sample.state_of [] Sample.two_bookings in
  let free := Sample.request "room-1" 3 "2024-01-15" in
  let taken := Sample.request "room-1" 2 "2024-01-15" in
  fst (addBooking Sample.morning free st) = Ok (new_booking Sample.morning free)
  /\ db (snd (addBooking Sample.morning free st)) !! "Bookings"
     = Some (Sheet (config_headers "Bookings")
               (Sample.two_bookings
                  ++ [prepareRow (config_headers "Bookings")
                        (new_booking Sample.morning free)]))
  /\ fst (addBooking Sample.morning taken st) = Throw "Booking conflict".
Proof.
  intros st free taken.
  set (sh := Sheet (config_headers "Bookings") Sample.two_bookings).
  set (st0 := with_opened Sample.spreadsheet1 st).
  assert (Hdb : getDB Sample.morning st = (Ok Sample.spreadsheet1, st0)) by reflexivity.
  assert (Hsh : db st0 !! "Bookings" = Some sh) by by_compute.
  destruct (addBooking_conflict_or_append Sample.morning free st st0
              Sample.spreadsheet1 sh Hdb Hsh eq_refl two_bookings_cells)
    as (_ & _ & Hfree & Hadded).
  destruct (addBooking_conflict_or_append Sample.morning taken st st0
              Sample.spreadsheet1 sh Hdb Hsh eq_refl two_bookings_cells)
    as (Hconflict & _).
  assert (Hok : fst (addBooking Sample.morning free st)
                = Ok (new_booking Sample.morning free)).
  { apply Hfree; [| reflexivity].
    intros b Hb (_ & Hper & _).
    apply elem_of_cons in Hb as [-> | Hb];
      [| apply list_elem_of_singleton in Hb; subst b];
      vm_compute in Hper; discriminate Hper. }
  split; [exact Hok |]. split.
  - destruct (Hadded _ Hok) as (_ & _ & _ & _ & Hrows & _).
    rewrite Hrows, lookup_insert_eq. reflexivity.
  - apply Hconflict.
    exists (rowObject (config_headers "Bookings")
              (Sample.booking_row "b-2" "room-1" (VNum 2) Sample.jan15 ["eq-1"] "Booked"
                 "2024-01-11T02:00:00.000Z") ∅).
    split; [right; left |].
    split; [by_compute |]. split; [by_compute |]. split.
    + exists Sample.jan15, (Calendar.dateText Calendar.Asia_Bangkok "Indochina Time"
                              Sample.jan15). split; by_compute.
    + intros [H | [H | H]]; vm_compute in H; discriminate H.
Defined.


End Witnesses.
